(** * High-performance runtime handler hooks of CRI-O

    A shallow embedding of
    [internal/runtimehandlerhooks/high_performance_hooks.go]:
    the pre-start / pre-stop hooks that isolate the CPUs of a
    latency-sensitive container (cgroup cpuset partitions, CFS quota,
    IRQ affinity, per-CPU power knobs), over an in-memory model of the
    files the hooks read and write.

    Layout: Go library models ([GoStrings], [GoPath], [CPUSet]), errors and
    the hook monad, the file-system world, the OCI data model, the external
    collaborators, the hooks themselves, and finally the properties. *)

From Stdlib Require Import ZArith Ascii List Permutation.
From Stdlib Require String.
From stdpp Require Import base option list gmap strings pretty.

Import ListNotations.
Local Open Scope Z_scope.
#[local] Unset Printing Records.

(* ===================================================================== *)
(** ** Go strings                                                         *)
(* ===================================================================== *)

(** Go strings are byte sequences; they are modelled by [string].  Only the
    functions of package [strings] that the hooks call are modelled. *)
Module GoStrings.

Definition hasPrefix (s pre : string) : bool := String.prefix pre s.

(** [strings.Contains(s, sub)] *)
Fixpoint Contains (s sub : string) : bool :=
  hasPrefix s sub ||
  match s with
  | EmptyString => false
  | String _ s' => Contains s' sub
  end.

(** [strings.HasSuffix(s, suffix)] *)
Definition HasSuffix (s suffix : string) : bool :=
  hasPrefix (String.rev s) (String.rev suffix).

Fixpoint dropWhile (p : ascii -> bool) (s : string) : string :=
  match s with
  | EmptyString => EmptyString
  | String a s' => if p a then dropWhile p s' else s
  end.

(** The string of the given bytes. *)
Definition bytes (l : list Z) : string :=
  String.string_of_list_ascii ((fun b => Ascii.ascii_of_nat (Z.to_nat b)) <$> l).

(** White space is what [unicode.IsSpace] accepts.  A Go string holds
    UTF-8; these are the encodings of the code points in question: tab,
    line feed, vertical tab, form feed, carriage return, space, U+0085,
    U+00A0, U+1680, U+2000 to U+200A, U+2028, U+2029, U+202F, U+205F and
    U+3000.  No encoding is a prefix of another, and a byte that belongs to
    no valid encoding is not white space. *)
Definition spaces : list string :=
  [bytes [9]; bytes [10]; bytes [11]; bytes [12]; bytes [13]; bytes [32];
   bytes [194; 133]; bytes [194; 160]; bytes [225; 154; 128]]
  ++ ((fun b => bytes [226; 128; b]) <$> seqZ 128 11)
  ++ [bytes [226; 128; 168]; bytes [226; 128; 169]; bytes [226; 128; 175];
      bytes [226; 129; 159]; bytes [227; 128; 128]].

(** The number of bytes of the member of [tokens] that [s] starts with,
    or [0]. *)
Definition leading (tokens : list string) (s : string) : nat :=
  match filter (fun t => hasPrefix s t = true) tokens with
  | t :: _ => String.length t
  | [] => O
  end.

(** Drops the members of [tokens] that [s] starts with; [skip] counts the
    bytes of the one being stepped over. *)
Fixpoint trimLeft_go (tokens : list string) (skip : nat) (s : string) : string :=
  match s with
  | EmptyString => EmptyString
  | String _ s' =>
      match skip with
      | S k => trimLeft_go tokens k s'
      | O =>
          match leading tokens s with
          | O => s
          | S k => trimLeft_go tokens k s'
          end
      end
  end.

(** [strings.TrimSpace(s)]: the white space in front goes, then the white
    space at the end (the last code point of a string is found from its
    last bytes, so the end is trimmed on the reversed bytes). *)
Definition TrimSpace (s : string) : string :=
  String.rev (trimLeft_go (String.rev <$> spaces) O
                (String.rev (trimLeft_go spaces O s))).

(** [strings.Split(s, sep)] for a non-empty separator: [skip] counts the
    bytes of a separator that was just matched and is being stepped
    over, [cur] is the current piece, reversed. *)
Fixpoint split_go (sep : string) (skip : nat) (cur s : string) : list string :=
  match s with
  | EmptyString => [String.rev cur]
  | String a s' =>
      match skip with
      | S k => split_go sep k cur s'
      | O =>
          if hasPrefix s sep
          then String.rev cur :: split_go sep (String.length sep - 1) EmptyString s'
          else split_go sep O (String a cur) s'
      end
  end.

Definition Split (s sep : string) : list string := split_go sep O EmptyString s.

(** [strings.SplitN(s, sep, 2)] for a non-empty separator: [s] is cut at
    the first separator only, into at most two pieces.  [cur] is the
    first piece so far, reversed. *)
Fixpoint splitN2_go (sep : string) (cur s : string) : list string :=
  match s with
  | EmptyString => [String.rev cur]
  | String a s' =>
      if hasPrefix s sep
      then [String.rev cur; String.substring (String.length sep) (String.length s) s]
      else splitN2_go sep (String a cur) s'
  end.

Definition SplitN2 (s sep : string) : list string := splitN2_go sep EmptyString s.

(** [strings.ReplaceAll(s, old, new)] for a non-empty [old]. *)
Fixpoint replace_go (old new : string) (skip : nat) (s : string) : string :=
  match s with
  | EmptyString => EmptyString
  | String a s' =>
      match skip with
      | S k => replace_go old new k s'
      | O =>
          if hasPrefix s old
          then new +:+ replace_go old new (String.length old - 1) s'
          else String a (replace_go old new O s')
      end
  end.

Definition ReplaceAll (s old new : string) : string := replace_go old new O s.

(** [strings.Fields(s)]: the maximal pieces of [s] without white space.
    [cur] is the current piece, reversed; [skip] counts the bytes of the
    white space being stepped over. *)
Fixpoint fields_go (skip : nat) (cur s : string) : list string :=
  let close (rest : list string) :=
    match cur with EmptyString => rest | _ => String.rev cur :: rest end in
  match s with
  | EmptyString => close []
  | String a s' =>
      match skip with
      | S k => fields_go k cur s'
      | O =>
          match leading spaces s with
          | O => fields_go O (String a cur) s'
          | S k => close (fields_go k EmptyString s')
          end
      end
  end.

Definition Fields (s : string) : list string := fields_go O EmptyString s.

(** [strings.Join(elems, sep)] *)
Fixpoint Join (elems : list string) (sep : string) : string :=
  match elems with
  | [] => EmptyString
  | [e] => e
  | e :: rest => e +:+ sep +:+ Join rest sep
  end.

(** [strconv.Itoa] / [strconv.FormatInt(_, 10)] / the [%d] verb. *)
Definition Itoa (n : Z) : string := pretty n.

End GoStrings.

(* ===================================================================== *)
(** ** Go paths                                                           *)
(* ===================================================================== *)

(** [path.Clean], [path.Join], [filepath.Base] and [filepath.Dir] on
    slash-separated paths (the hooks only run on Linux). *)
Module GoPath.
Import GoStrings.

Definition isRooted (p : string) : bool := hasPrefix p "/".

(** One element of the path being cleaned: [out] is the stack of kept
    elements, innermost first. *)
Definition cleanStep (rooted : bool) (out : list string) (elem : string) : list string :=
  if decide (elem = "") then out
  else if decide (elem = ".") then out
  else if decide (elem = "..") then
    match out with
    | [] => if rooted then [] else [".."]
    | top :: rest => if decide (top = "..") then ".." :: out else rest
    end
  else elem :: out.

Definition Clean (p : string) : string :=
  if decide (p = "") then "."
  else
    let rooted := isRooted p in
    let kept := rev (fold_left (cleanStep rooted) (Split p "/") []) in
    let body := GoStrings.Join kept "/" in
    if rooted then "/" +:+ body
    else if decide (body = "") then "." else body.

(** [path.Join] / [filepath.Join]: empty elements are ignored, the rest is
    joined with slashes and cleaned. *)
Definition Join (elems : list string) : string :=
  match filter (fun e => e <> "") elems with
  | [] => ""
  | es => Clean (GoStrings.Join es "/")
  end.

Definition stripTrailingSlashes (p : string) : string :=
  String.rev (dropWhile (fun a => bool_decide (a = "/"%char)) (String.rev p)).

(** [filepath.Base] *)
Definition Base (p : string) : string :=
  if decide (p = "") then "."
  else
    let q := stripTrailingSlashes p in
    if decide (q = "") then "/"
    else default q (last (Split q "/")).

(** [filepath.Dir]: everything up to the last slash, cleaned. *)
Definition Dir (p : string) : string :=
  match rev (Split p "/") with
  | [] | [_] => "."
  | _ :: front => Clean (GoStrings.Join (rev front) "/" +:+ "/")
  end.

End GoPath.


(* ===================================================================== *)
(** ** Errors and outcomes                                                *)
(* ===================================================================== *)

(** Go [error] values, as far as the hooks tell them apart.  The text of a
    message, of an error or of a log line, is kept by its format and its
    string arguments: the quotes that the [%q] verb puts around an argument,
    and the rendering of an error value that [%v] appends to a log line, are
    left out. *)
Inductive error : Type :=
| ErrNotExist (path : string)            (* a [*PathError] carrying ENOENT *)
| ErrExist (path : string)               (* a [*PathError] carrying EEXIST *)
| ErrSys (errno : string) (path : string) (* any other system-call failure *)
| ErrMsg (msg : string)                  (* [errors.New], [fmt.Errorf] without [%w] *)
| ErrWrap (msg : string) (e : error).    (* [fmt.Errorf("msg: %w", e)] *)

(** [os.IsNotExist]: looks at the error itself, not through [%w] wrappers. *)
Definition os_IsNotExist (e : error) : bool :=
  match e with ErrNotExist _ => true | _ => false end.

(** [errors.Is(err, os.ErrNotExist)]: follows the chain of wrapped errors. *)
Fixpoint errors_Is_ErrNotExist (e : error) : bool :=
  match e with
  | ErrNotExist _ => true
  | ErrWrap _ e' => errors_Is_ErrNotExist e'
  | _ => false
  end.

(** What a call does: return a value, return a non-nil [error], or panic
    (a nil-pointer dereference or an explicit [panic]). *)
Inductive outcome (A : Type) : Type :=
| Ret (a : A)
| Fail (e : error)
| Panic (reason : string).
Arguments Ret {A} a.
Arguments Fail {A} e.
Arguments Panic {A} reason.

Definition nilDeref : string := "invalid memory address or nil pointer dereference".

(** [*p] for a Go pointer modelled as an option. *)
Definition deref {A : Type} (p : option A) : outcome A :=
  match p with Some a => Ret a | None => Panic nilDeref end.

Definition obind {A B : Type} (o : outcome A) (k : A -> outcome B) : outcome B :=
  match o with
  | Ret a => k a
  | Fail e => Fail e
  | Panic r => Panic r
  end.

(* ===================================================================== *)
(** ** CPU sets                                                           *)
(* ===================================================================== *)

(** The [cpuset.CPUSet] value type of Kubernetes ([k8s.io/.../cpuset], an
    external library): a finite set of CPU indices, kept here as a strictly
    increasing list. *)
Module CPUSet.

Definition t : Type := list Z.

Fixpoint add (x : Z) (s : t) : t :=
  match s with
  | [] => [x]
  | y :: s' =>
      if decide (x < y) then x :: s
      else if decide (x = y) then s
      else y :: add x s'
  end.

Definition New : t := [].
Definition of_list (l : list Z) : t := foldr add New l.
Definition Union (a b : t) : t := foldr add a b.
Definition Difference (a b : t) : t := filter (fun x => x ∉ b) a.
Definition Size (s : t) : Z := Z.of_nat (length s).
Definition List (s : t) : list Z := s.

Definition digit (a : ascii) : option Z := Z.of_nat <$> Ascii.is_nat a.

Fixpoint digits (acc : Z) (s : string) : option Z :=
  match s with
  | EmptyString => Some acc
  | String a s' => d ← digit a; digits (10 * acc + d) s'
  end.

(** [strconv.Atoi]: an optional sign, then at least one decimal digit; the
    value has to fit a 64-bit [int]. *)
Definition Atoi (s : string) : outcome Z :=
  let syntax := Fail (ErrMsg ("strconv.Atoi: parsing " +:+ s +:+ ": invalid syntax")) in
  let range := Fail (ErrMsg ("strconv.Atoi: parsing " +:+ s +:+ ": value out of range")) in
  let '(neg, body) :=
    match s with
    | String a r =>
        if decide (a = "+"%char) then (false, r)
        else if decide (a = "-"%char) then (true, r)
        else (false, s)
    | EmptyString => (false, s)
    end in
  if decide (body = "") then syntax
  else match digits 0 body with
       | None => syntax
       | Some n =>
           let v := if neg then - n else n in
           if decide (- 2 ^ 63 <= v < 2 ^ 63) then Ret v else range
       end.

(** One element of the list: [boundaries := strings.SplitN(r, "-", 2)],
    then a single index or a range.  (With other than one or two
    boundaries, which [SplitN] never gives, the element adds nothing.) *)
Definition parseRange (r : string) (acc : t) : outcome t :=
  match GoStrings.SplitN2 r "-" with
  | [single] => obind (Atoi single) (fun e => Ret (add e acc))
  | [lo; hi] =>
      obind (Atoi lo) (fun start =>
      obind (Atoi hi) (fun stop =>
        if decide (start > stop)
        then Fail (ErrMsg ("invalid range " +:+ r))
        else Ret (foldr add acc (seqZ start (stop - start + 1)))))
  | _ => Ret acc
  end.

(** [cpuset.Parse]: a comma-separated list of indices and [lo-hi]
    ranges; the empty string is the empty set. *)
Definition Parse (s : string) : outcome t :=
  if decide (s = "") then Ret New
  else foldl (fun acc r => obind acc (parseRange r)) (Ret New) (GoStrings.Split s ",").

(** The maximal runs of consecutive indices of a sorted list. *)
Fixpoint runs (start stop : Z) (rest : list Z) : list (Z * Z) :=
  match rest with
  | [] => [(start, stop)]
  | x :: rest' =>
      if decide (x = stop + 1) then runs start x rest'
      else (start, stop) :: runs x x rest'
  end.

Definition showRun (r : Z * Z) : string :=
  if decide (r.1 = r.2) then GoStrings.Itoa r.1
  else GoStrings.Itoa r.1 +:+ "-" +:+ GoStrings.Itoa r.2.

(** [CPUSet.String]: the canonical form, runs as [lo-hi]. *)
Definition String (s : t) : string :=
  match s with
  | [] => ""
  | x :: rest => GoStrings.Join (showRun <$> runs x x rest) ","
  end.

End CPUSet.


(* ===================================================================== *)
(** ** Fixed-width integers                                               *)
(* ===================================================================== *)

Module Int64.
Definition modulus : Z := 2 ^ 64.
Definition min_signed : Z := - 2 ^ 63.
Definition max_signed : Z := 2 ^ 63 - 1.

(** The value a (possibly out-of-range) mathematical integer has as a
    Go [int64]: two's-complement wrap-around.  [int64(u)] for a [uint64]
    [u], and the result of [+], [*] on [int64], are all [wrap] of the
    exact result. *)
Definition wrap (z : Z) : Z := (z + 2 ^ 63) mod modulus - 2 ^ 63.

Definition mul (a b : Z) : Z := wrap (a * b).

(** Go's [/] truncates toward zero; [MinInt64 / -1] wraps. *)
Definition div (a b : Z) : Z := wrap (Z.quot a b).
End Int64.

(* ===================================================================== *)
(** ** The OCI data model                                                 *)
(* ===================================================================== *)

(** [specs.LinuxCPU]: [Shares] and [Period] are [*uint64]. *)
Record LinuxCPU : Type := {
  Shares : option Z;
  Period : option Z;
  Cpus : string;
}.

(** [specs.LinuxResources]; [CPU] is a [*LinuxCPU]. *)
Record LinuxResources : Type := { CPU : option LinuxCPU }.

(** [specs.Linux]; [Resources] is a [*LinuxResources]. *)
Record Linux : Type := { Resources : option LinuxResources }.

(** [specs.Process], of which only the environment is used. *)
Record Process : Type := { Env : list string }.

(** [specs.Spec]; both fields are pointers. *)
Record Spec : Type := {
  SpecLinux : option Linux;
  SpecProcess : option Process;
}.

(** The zero value of [specs.Spec]. *)
Definition zeroSpec : Spec := {| SpecLinux := None; SpecProcess := None |}.

(** The accessors of [*oci.Container] that the hooks use.  [Pid()] can
    fail (the process is gone); the spec is mutable and lives in the world. *)
Record Container : Type := {
  ctrID : string;
  ctrName : string;
  ctrMetadataName : string;       (* [CRIContainer().GetMetadata().GetName()] *)
  ctrPid : outcome Z;
}.

(** [*sandbox.Sandbox]: read-only for the hooks. *)
Record Sandbox : Type := {
  Annotations : gmap string string;
  CgroupParent : string;
}.

(** [HighPerformanceHooks]; [sharedCPUs] is a [*cpuset.CPUSet]. *)
Record HighPerformanceHooks : Type := {
  irqBalanceConfigFile : string;
  sharedCPUs : option CPUSet.t;
}.

(* ===================================================================== *)
(** ** The world: files the hooks read and write                          *)
(* ===================================================================== *)

(** One operation on the system outside the process. *)
Inductive Op : Type :=
| OpRead (path : string)
| OpWrite (path data : string)
| OpCreate (path : string)
| OpMkdir (path : string)
| OpRemove (path : string)
| OpExec (cmd : string) (args env : list string)
| OpService (action name : string)
| OpCgroupSet (cgroup parent : string) (systemd : bool) (quota : Z).

(** The state the hooks run against:
    - [files]: the content of every existing file, by absolute path;
    - [dirs]: the directories that exist besides the ones on the way to a
      file of [files]: empty ones, and the ones the hooks created;
    - [fault]: the environment's veto: an operation for which it answers
      [Some e] fails with [e] and changes nothing (a read-only file, a value
      the kernel rejects with EINVAL, ...);
    - [cgroupIsV2]: the answer of [node.CgroupIsV2()];
    - [ctrSpecs]: the spec each container object currently holds, by ID;
    - [events]: every mutation attempted so far, most recent first,
      whether it succeeded or not (reads are not recorded);
    - [logs]: the log lines written so far, most recent first. *)
Record World : Type := {
  files : gmap string string;
  dirs : gset string;
  fault : Op -> option error;
  cgroupIsV2 : bool;
  ctrSpecs : gmap string Spec;
  events : list Op;
  logs : list string;
}.

Definition setFiles (f : gmap string string) (w : World) : World :=
  {| files := f; dirs := dirs w; fault := fault w; cgroupIsV2 := cgroupIsV2 w;
     ctrSpecs := ctrSpecs w; events := events w; logs := logs w |}.

Definition setDirs (d : gset string) (w : World) : World :=
  {| files := files w; dirs := d; fault := fault w; cgroupIsV2 := cgroupIsV2 w;
     ctrSpecs := ctrSpecs w; events := events w; logs := logs w |}.

Definition setCtrSpecs (m : gmap string Spec) (w : World) : World :=
  {| files := files w; dirs := dirs w; fault := fault w; cgroupIsV2 := cgroupIsV2 w;
     ctrSpecs := m; events := events w; logs := logs w |}.

Definition record (op : Op) (w : World) : World :=
  {| files := files w; dirs := dirs w; fault := fault w; cgroupIsV2 := cgroupIsV2 w;
     ctrSpecs := ctrSpecs w; events := op :: events w; logs := logs w |}.

Definition addLog (line : string) (w : World) : World :=
  {| files := files w; dirs := dirs w; fault := fault w; cgroupIsV2 := cgroupIsV2 w;
     ctrSpecs := ctrSpecs w; events := events w; logs := line :: logs w |}.

(* ===================================================================== *)
(** ** The hook monad                                                     *)
(* ===================================================================== *)

(** A computation over a state [S] that returns, fails or panics. *)
Definition ST (S A : Type) : Type := S -> outcome A * S.

#[global] Instance ST_ret {S} : MRet (ST S) := fun A a s => (Ret a, s).

#[global] Instance ST_bind {S} : MBind (ST S) := fun A B k c s =>
  match c s with
  | (Ret a, s') => k a s'
  | (Fail e, s') => (Fail e, s')
  | (Panic r, s') => (Panic r, s')
  end.

(** Hooks run against the world. *)
Abbreviation M := (ST World).

(** [return err] *)
Definition fail {S A} (e : error) : ST S A := fun s => (Fail e, s).

Definition lift {S A} (o : outcome A) : ST S A := fun s => (o, s).

(** [v, err := c]: the error becomes a value the caller can inspect; a panic
    still unwinds. *)
Definition attempt {S A} (c : ST S A) : ST S (error + A) := fun s =>
  match c s with
  | (Ret a, s') => (Ret (inr a), s')
  | (Fail e, s') => (Ret (inl e), s')
  | (Panic r, s') => (Panic r, s')
  end.

(** [if err := c; err != nil { return fmt.Errorf("msg: %w", err) }] *)
Definition wrapErr {S A} (msg : string) (c : ST S A) : ST S A := fun s =>
  match c s with
  | (Fail e, s') => (Fail (ErrWrap msg e), s')
  | r => r
  end.

(** [if cond { c }] *)
Definition when {S} (cond : bool) (c : ST S ()) : ST S () :=
  if cond then c else mret ().

(** A read-only question to the world. *)
Definition ask {A} (f : World -> A) : M A := fun w => (Ret (f w), w).
Definition askOutcome {A} (f : World -> outcome A) : M A := fun w => (f w, w).

Definition logf (line : string) : M () := fun w => (Ret (), addLog line w).

(** *** File primitives *)

(** [os.ReadFile]: a missing file is ENOENT. *)
Definition os_ReadFile (path : string) : M string := fun w =>
  match files w !! path with
  | None => (Fail (ErrNotExist path), w)
  | Some content =>
      match fault w (OpRead path) with
      | Some e => (Fail e, w)
      | None => (Ret content, w)
      end
  end.

(** [os.WriteFile]: creates or truncates. *)
Definition os_WriteFile (path data : string) : M () := fun w =>
  let w := record (OpWrite path data) w in
  match fault w (OpWrite path data) with
  | Some e => (Fail e, w)
  | None => (Ret (), setFiles (<[path := data]> (files w)) w)
  end.

(** [os.MkdirAll]: an existing directory is fine. *)
Definition os_MkdirAll (path : string) : M () := fun w =>
  let w := record (OpMkdir path) w in
  match fault w (OpMkdir path) with
  | Some e => (Fail e, w)
  | None => (Ret (), setDirs ({[path]} ∪ dirs w) w)
  end.

(** [os.Remove]: a missing file is ENOENT. *)
Definition os_Remove (path : string) : M () := fun w =>
  let w := record (OpRemove path) w in
  match files w !! path with
  | None => (Fail (ErrNotExist path), w)
  | Some _ =>
      match fault w (OpRemove path) with
      | Some e => (Fail e, w)
      | None => (Ret (), setFiles (delete path (files w)) w)
      end
  end.

(** [os.Create]: creates or truncates, and opens for writing. *)
Definition os_Create (path : string) : M () := fun w =>
  let w := record (OpCreate path) w in
  match fault w (OpCreate path) with
  | Some e => (Fail e, w)
  | None => (Ret (), setFiles (<[path := ""]> (files w)) w)
  end.

(** [WriteString] on the [os.File] just created: appends. *)
Definition file_WriteString (path data : string) : M () := fun w =>
  let w := record (OpWrite path data) w in
  match fault w (OpWrite path data) with
  | Some e => (Fail e, w)
  | None => (Ret (), setFiles (<[path := default "" (files w !! path) +:+ data]> (files w)) w)
  end.

(** The file [file] of the cgroup directory [dir]. *)
Definition cgroupFile (dir file : string) : string := dir +:+ "/" +:+ file.

(** [cgroups.ReadFile(dir, file)] of libcontainer. *)
Definition cgroups_ReadFile (dir file : string) : M string :=
  os_ReadFile (cgroupFile dir file).

(** [cgroups.WriteFile(dir, file, data)] of libcontainer: opens the
    existing control file write-only (no O_CREAT), so a missing file or
    directory is ENOENT. *)
Definition cgroups_WriteFile (dir file data : string) : M () := fun w =>
  let path := cgroupFile dir file in
  let w := record (OpWrite path data) w in
  match files w !! path with
  | None => (Fail (ErrNotExist path), w)
  | Some _ =>
      match fault w (OpWrite path data) with
      | Some e => (Fail e, w)
      | None => (Ret (), setFiles (<[path := data]> (files w)) w)
      end
  end.

(** The control files cgroupfs puts into a new cpuset cgroup directory. *)
Definition cgroupfsPopulate (dir : string) (f : gmap string string) : gmap string string :=
  <[cgroupFile dir "cpuset.cpus" := ""]>
  (<[cgroupFile dir "cpuset.cpus.exclusive" := ""]>
  (<[cgroupFile dir "cpuset.cpus.partition" := "member"]> f)).

(** The paths that name something in a world: its files and the
    directories of [dirs]. *)
Definition entries (w : World) : gset string := dom (files w) ∪ dirs w.

(** Something exists at [path]: an entry, or a directory on the way to
    one. *)
Definition pathExists (path : string) (w : World) : bool :=
  bool_decide (set_Exists (fun p => p = path \/ GoStrings.hasPrefix p (path +:+ "/") = true)
                          (entries w)).

(** [dir] is a directory: the root, the working directory, a directory
    of [dirs], or a directory on the way to an entry. *)
Definition isDirectory (dir : string) (w : World) : bool :=
  bool_decide (dir = "/") || bool_decide (dir = ".") || bool_decide (dir ∈ dirs w)
  || bool_decide (set_Exists (fun p => GoStrings.hasPrefix p (dir +:+ "/") = true)
                             (entries w)).

(** [os.Mkdir] of a clean path: EEXIST when something is there already
    (a file or a directory, whoever made it), ENOENT or ENOTDIR when the
    parent is not a directory.  The hooks only call it on a cgroup
    directory, which the kernel populates. *)
Definition os_Mkdir (path : string) : M () := fun w =>
  let w := record (OpMkdir path) w in
  if pathExists path w then (Fail (ErrExist path), w)
  else if negb (isDirectory (GoPath.Dir path) w) then
    (Fail (if bool_decide (is_Some (files w !! GoPath.Dir path))
           then ErrSys "ENOTDIR" path else ErrNotExist path), w)
  else match fault w (OpMkdir path) with
       | Some e => (Fail e, w)
       | None => (Ret (), setFiles (cgroupfsPopulate path (files w)) (setDirs ({[path]} ∪ dirs w) w))
       end.

(** [c.Spec()] returns a copy of the spec the container holds. *)
Definition c_Spec (c : Container) : M Spec :=
  ask (fun w => default zeroSpec (ctrSpecs w !! ctrID c)).

(** [c.SetSpec(&spec)] *)
Definition c_SetSpec (c : Container) (spec : Spec) : M () := fun w =>
  (Ret (), setCtrSpecs (<[ctrID c := spec]> (ctrSpecs w)) w).

#[global] Instance outcome_ret : MRet outcome := @Ret.
#[global] Instance outcome_bind : MBind outcome := fun A B k o => obind o k.

(* ===================================================================== *)
(** ** External collaborators                                             *)
(* ===================================================================== *)

(** [cgmgr.CgroupManager], as far as [containerCgroupAndParent] uses it. *)
Record CgroupManager : Type := {
  IsSystemd : bool;
  ContainerCgroupAbsolutePath : string -> string -> outcome string;
}.

(** The cgroup hierarchy [node.CgroupBuildHierarchyFrom] resolves. *)
Record CgroupHierarchy : Type := {
  GetAbsoluteControllerPodPath : string -> string;
  GetAbsoluteControllerContainerPath : string -> string;
}.

(** [configs.Resources] and [configs.Cgroup] of libcontainer. *)
Record configs_Resources : Type := { SkipDevices : bool; CpuQuota : Z }.

Record configs_Cgroup : Type := {
  cgName : string;
  cgParent : string;
  cgResources : configs_Resources;
  cgSystemd : bool;
  cgScopePrefix : string;
}.

(** Everything the hooks call that lives outside
    [high_performance_hooks.go]: the annotation keys of [pkg/annotations],
    the helpers of the package's [utils.go], the cgroup managers, libcontainer
    and [os/exec].  The development is parametric in them.  Helpers that only
    inspect the system read the world; helpers that change it are
    computations. *)
Class Collaborators : Type := {
  (* pkg/annotations *)
  CPULoadBalancingAnnotation : string;
  CPUQuotaAnnotation : string;
  IRQLoadBalancingAnnotation : string;
  CPUCStatesAnnotation : string;
  CPUFreqGovernorAnnotation : string;
  CPUSharedAnnotation : string;
  (* internal/config/cgmgr and internal/config/node *)
  CrioPrefix : string;
  SetCgroupManager : string -> outcome CgroupManager;
  CgroupBuildHierarchyFrom : Z -> World -> outcome CgroupHierarchy;
  (* the order in which [range] visits the entries of a Go map is not
     specified: any enumeration of the entries *)
  rangeOrder : gmap string string -> list (string * string);
  rangeOrder_perm : forall m, rangeOrder m ≡ₚ map_to_list m;
  (* libcontainer *)
  cgroups_ParseCgroupFile : string -> World -> outcome (gmap string string);
  libCtrMgr_New : configs_Cgroup -> outcome (configs_Resources -> M ());
  (* utils.go of package runtimehandlerhooks *)
  UpdateIRQSmpAffinityMask : string -> string -> bool -> outcome (string * string);
  fileExists : string -> World -> bool;
  updateIrqBalanceConfigFile : string -> string -> M ();
  isServiceEnabled : string -> World -> bool;
  restartIrqBalanceService : M ();
  mapHexCharToByte : string -> outcome (list Z);
  isAllBitSet : list Z -> bool;
  retrieveIrqBannedCPUMasks : string -> World -> outcome string;
  (* os, os/exec and utils/cmdrunner *)
  os_Environ : World -> list string;
  exec_LookPath : string -> World -> outcome string;
  cmd_Run : string -> list string -> list string -> M ();
}.

(* ===================================================================== *)
(** ** The hooks                                                          *)
(* ===================================================================== *)

Definition HighPerformance : string := "high-performance".
Definition IrqSmpAffinityProcFile : string := "/proc/irq/default_smp_affinity".

Definition annotationTrue : string := "true".
Definition annotationDisable : string := "disable".
Definition annotationEnable : string := "enable".
Definition schedDomainDir : string := "/proc/sys/kernel/sched_domain".
Definition cgroupMountPoint : string := "/sys/fs/cgroup".
Definition irqBalanceBannedCpus : string := "IRQBALANCE_BANNED_CPUS".
Definition irqBalancedName : string := "irqbalance".
Definition sysCPUDir : string := "/sys/devices/system/cpu".
Definition sysCPUSaveDir : string := "/var/run/crio/cpu".
Definition milliCPUToCPU : Z := 1000.

Definition cpusetPartition : string := "cpuset.cpus.partition".
Definition cpusetExclusive : string := "cpuset.cpus.exclusive".
Definition cpusetCpus : string := "cpuset.cpus".
Definition cgroupSubTreeControl : string := "cgroup.subtree_control".
Definition cgroupV1Quota : string := "cpu.cfs_quota_us".
Definition cgroupV2Quota : string := "cpu.max".

Definition IsolatedCPUsEnvVar : string := "OPENSHIFT_ISOLATED_CPUS".
Definition SharedCPUsEnvVar : string := "OPENSHIFT_SHARED_CPUS".

(** [annotations[key]]: a missing key reads as the empty string. *)
Definition annotation (annotations : gmap string string) (key : string) : string :=
  default "" (annotations !! key).

(** The guard that opens every controller:
    [lspec == nil || lspec.Resources == nil || lspec.Resources.CPU == nil ||
     lspec.Resources.CPU.Cpus == ""]. *)
Definition missingCPUs (lspec : option Linux) : bool :=
  match lspec with
  | None => true
  | Some l =>
      match Resources l with
      | None => true
      | Some r =>
          match CPU r with
          | None => true
          | Some cpu => bool_decide (Cpus cpu = "")
          end
      end
  end.

(** [lspec.Resources.CPU], each arrow a pointer dereference. *)
Definition linuxCPU (lspec : option Linux) : outcome LinuxCPU :=
  l ← deref lspec; r ← deref (Resources l); deref (CPU r).

Definition isCgroupParentBurstable (s : Sandbox) : bool :=
  GoStrings.Contains (CgroupParent s) "burstable".

Definition isCgroupParentBestEffort (s : Sandbox) : bool :=
  GoStrings.Contains (CgroupParent s) "besteffort".

(** [*(cSpec.Linux.Resources.CPU.Shares)%1024 == 0] *)
Definition isContainerRequestWholeCPU (cSpec : Spec) : outcome bool :=
  cpu ← linuxCPU (SpecLinux cSpec);
  shares ← deref (Shares cpu);
  mret (bool_decide (shares mod 1024 = 0)).

Definition shouldRunHooks (id : string) (cSpec : Spec) (s : Sandbox) : M bool :=
  if isCgroupParentBurstable s then
    logf ("Container " +:+ id +:+ " is a burstable pod. Skip PreStart.");;
    mret false
  else if isCgroupParentBestEffort s then
    logf ("Container " +:+ id +:+ " is a besteffort pod. Skip PreStart.");;
    mret false
  else
    whole ← lift (isContainerRequestWholeCPU cSpec);
    if negb whole then
      logf ("Container " +:+ id +:+ " requests partial cpu(s). Skip PreStart");;
      mret false
    else mret true.

Definition annotationValueDeprecationWarning (key : string) : string :=
  "The usage of the annotation " +:+ key +:+ " with value true will be deprecated under 1.21".

Section Hooks.
Context `{Collaborators}.

Definition shouldBeDisabled (key : string) (annotations : gmap string string) : M bool :=
  when (bool_decide (annotation annotations key = annotationTrue))
       (logf (annotationValueDeprecationWarning key));;
  mret (bool_decide (annotation annotations key = annotationTrue)
        || bool_decide (annotation annotations key = annotationDisable)).

Definition shouldCPULoadBalancingBeDisabled : gmap string string -> M bool :=
  shouldBeDisabled CPULoadBalancingAnnotation.

Definition shouldCPUQuotaBeDisabled : gmap string string -> M bool :=
  shouldBeDisabled CPUQuotaAnnotation.

Definition shouldIRQLoadBalancingBeDisabled : gmap string string -> M bool :=
  shouldBeDisabled IRQLoadBalancingAnnotation.

(** [value, present = annotations[key]] *)
Definition shouldCStatesBeConfigured (annotations : gmap string string) : bool * string :=
  match annotations !! CPUCStatesAnnotation with
  | Some value => (true, value)
  | None => (false, "")
  end.

Definition shouldFreqGovernorBeConfigured (annotations : gmap string string) : bool * string :=
  match annotations !! CPUFreqGovernorAnnotation with
  | Some value => (true, value)
  | None => (false, "")
  end.

Definition requestedSharedCPUs (annotations : gmap string string) (cName : string) : bool :=
  let key := CPUSharedAnnotation +:+ "/" +:+ cName in
  match annotations !! key with
  | Some v => bool_decide (v = annotationEnable)
  | None => false
  end.

(** *** Load balancing *)

Definition addOrRemoveCpusetFromFile (path file : string) (cpus : CPUSet.t) (add : bool)
  : M string :=
  currentCpusStr ← cgroups_ReadFile path file;
  currentCpus ← lift (CPUSet.Parse (GoStrings.TrimSpace currentCpusStr));
  let targetCpus :=
    if add then CPUSet.Union currentCpus cpus
    else CPUSet.Difference currentCpus cpus in
  cgroups_WriteFile path file (CPUSet.String targetCpus);;
  mret currentCpusStr.

Definition cpusetOfContainer (c : Container) : M string :=
  pid ← wrapErr ("failed to get pid of container " +:+ ctrID c) (lift (ctrPid c));
  controllers ← wrapErr ("failed to get cgroups of container " +:+ ctrID c)
                  (askOutcome (cgroups_ParseCgroupFile ("/proc/" +:+ GoStrings.Itoa pid +:+ "/cgroup")));
  v2 ← ask cgroupIsV2;
  let path : string := if (v2 : bool) then "" else "cpuset" in
  match controllers !! path with
  | Some cpusetPath => mret cpusetPath
  | None => fail (ErrMsg ("failed to get cpuset of container " +:+ ctrID c))
  end.

Definition disableCPULoadBalancingV1 (c : Container) : M () :=
  cpusetPath ← cpusetOfContainer c;
  cgroups_WriteFile ("/sys/fs/cgroup/cpuset" +:+ cpusetPath) "cpuset.sched_load_balance" "0".

(** The body of [setCPULoadBalancingV2] threads the local map
    [valuesForRevert] next to the world, so that the deferred function
    finds it as it was when the body returned. *)
Abbreviation V2 := (ST (gmap string string * World)).

Definition inWorld {A} (c : M A) : V2 A := fun st =>
  let '(r, w') := c st.2 in (r, (st.1, w')).

(** [valuesForRevert[path] = val] *)
Definition setRevert (path val : string) : V2 () := fun st =>
  (Ret (), (<[path := val]> st.1, st.2)).

(** [for _, d := range directories { ... }] *)
Fixpoint walkDirectories (enable : bool) (cpus : CPUSet.t)
    (directories : list string) (currentPath : string) : V2 () :=
  match directories with
  | [] => mret ()
  | d :: rest =>
      if decide (d = "") then walkDirectories enable cpus rest currentPath
      else
        let currentPath := currentPath +:+ "/" +:+ d in
        when (negb enable)
          (inWorld (addOrRemoveCpusetFromFile currentPath "cpuset.cpus" cpus (negb enable));;
           mret ());;
        cpusStrForRevert ← inWorld
          (addOrRemoveCpusetFromFile currentPath "cpuset.cpus.exclusive" cpus (negb enable));
        setRevert currentPath cpusStrForRevert;;
        walkDirectories enable cpus rest currentPath
  end.

(** The first half of the body: parse the CPUs, find the cgroup, walk
    its ancestors.  Hands the cgroup path to the second half. *)
Definition setCPULoadBalancingV2_levels (c : Container) (enable : bool) : V2 string :=
  spec ← inWorld (c_Spec c);
  cpuRes ← lift (linuxCPU (SpecLinux spec));
  cpus ← lift (CPUSet.Parse (Cpus cpuRes));
  cpusetPath ← inWorld (cpusetOfContainer c);
  let directories := GoStrings.Split cpusetPath "/" in
  walkDirectories enable cpus directories "/sys/fs/cgroup";;
  mret cpusetPath.

(** The second half: the partition write on the leaf, and what becomes of
    its error. *)
Definition setCPULoadBalancingV2_partition (cpusetPath : string) (enable : bool) : V2 () :=
  r ← attempt (inWorld (cgroups_WriteFile (GoPath.Join ["/sys/fs/cgroup"; cpusetPath])
                          "cpuset.cpus.partition" "isolated"));
  match r with
  | inl err =>
      (* if we're re-enabling, and we can't find the cgroup, return no error *)
      if os_IsNotExist err && enable then mret () else fail err
  | inr _ => mret ()
  end.

Definition setCPULoadBalancingV2_body (c : Container) (enable : bool) : V2 () :=
  cpusetPath ← setCPULoadBalancingV2_levels c enable;
  setCPULoadBalancingV2_partition cpusetPath enable.

(** The loop of the deferred function: a write that fails is logged. *)
Fixpoint revertValues (entries : list (string * string)) : M () :=
  match entries with
  | [] => mret ()
  | (path, val) :: rest =>
      r ← attempt (cgroups_WriteFile path "cpuset.cpus.exclusive" val);
      match r with
      | inl err => logf ("Failed to revert cpuset value " +:+ val +:+ " for path " +:+ path)
      | inr _ => mret ()
      end;;
      revertValues rest
  end.

(** The body, then the deferred function: [if retErr != nil { revert }]. *)
Definition setCPULoadBalancingV2 (c : Container) (enable : bool) : M () := fun w =>
  match setCPULoadBalancingV2_body c enable (∅, w) with
  | (Fail retErr, (valuesForRevert, w')) =>
      (Fail retErr, (revertValues (rangeOrder valuesForRevert) w').2)
  | (r, (_, w')) => (r, w')
  end.

Definition setCPULoadBalancing (c : Container) (enable : bool) : M () :=
  spec ← c_Spec c;
  if missingCPUs (SpecLinux spec) then
    fail (ErrMsg ("find container " +:+ ctrID c +:+ " CPUs"))
  else
    v2 ← ask cgroupIsV2;
    if (v2 : bool) then setCPULoadBalancingV2 c enable
    else if negb enable then disableCPULoadBalancingV1 c
    else mret ().

(** *** IRQ load balancing *)

Definition setIRQLoadBalancing (c : Container) (enable : bool)
    (irqSmpAffinityFile irqBalanceConfigFile : string) : M () :=
  spec ← c_Spec c;
  let lspec := SpecLinux spec in
  if missingCPUs lspec then
    fail (ErrMsg ("find container " +:+ ctrID c +:+ " CPUs"))
  else
    content ← os_ReadFile irqSmpAffinityFile;
    let currentIRQSMPSetting := GoStrings.TrimSpace content in
    cpuRes ← lift (linuxCPU lspec);
    masks ← lift (UpdateIRQSmpAffinityMask (Cpus cpuRes) currentIRQSMPSetting enable);
    let newIRQSMPSetting := masks.1 in
    let newIRQBalanceSetting := masks.2 in
    os_WriteFile irqSmpAffinityFile newIRQSMPSetting;;
    isIrqConfigExists ← ask (fileExists irqBalanceConfigFile);
    when isIrqConfigExists (updateIrqBalanceConfigFile irqBalanceConfigFile newIRQBalanceSetting);;
    enabled ← ask (isServiceEnabled irqBalancedName);
    if negb enabled || negb isIrqConfigExists then
      found ← attempt (askOutcome (exec_LookPath irqBalancedName));
      match found with
      | inl err =>
          (* irqbalance is not installed: the pod should still start *)
          logf "Irqbalance binary not found"
      | inr _ =>
          let additionalEnv := irqBalanceBannedCpus +:+ "=" +:+ newIRQBalanceSetting in
          env ← ask os_Environ;
          cmd_Run irqBalancedName ["--oneshot"] (env ++ [additionalEnv])
      end
    else
      restarted ← attempt restartIrqBalanceService;
      match restarted with
      | inl err => logf "Irqbalance service restart failed"
      | inr _ => mret ()
      end.

(** *** CFS quota *)

(** [SetCgroupManager] with one of the two literal manager names; a
    failure is a programming error and panics. *)
Definition mustSetCgroupManager (name : string) : M CgroupManager :=
  match SetCgroupManager name with
  | Ret m => mret m
  | Fail _ => lift (Panic ("invalid cgroup manager " +:+ name))
  | Panic r => lift (Panic r)
  end.

Definition containerCgroupAndParent (parentDir : string) (c : Container)
  : M (string * string * bool) :=
  cgroupManager ←
    (if GoStrings.HasSuffix parentDir ".slice"
     then mustSetCgroupManager "systemd"
     else mustSetCgroupManager "cgroupfs");
  cgroupPath ← lift (ContainerCgroupAbsolutePath cgroupManager parentDir (ctrID c));
  let containerCgroup := GoPath.Base cgroupPath in
  (* a quirk of libcontainer's cgroup driver *)
  let containerCgroup := if IsSystemd cgroupManager then ctrID c else containerCgroup in
  mret (containerCgroup, GoPath.Dir cgroupPath, IsSystemd cgroupManager).

Definition libctrManager (cgroup parent : string) (systemd : bool)
  : outcome (configs_Resources -> M ()) :=
  let parent := if systemd then GoPath.Base parent else parent in
  let cg := {| cgName := cgroup;
               cgParent := parent;
               cgResources := {| SkipDevices := true; CpuQuota := 0 |};
               cgSystemd := systemd;
               cgScopePrefix := CrioPrefix |} in
  libCtrMgr_New cg.

Definition disableCPUQuotaForCgroup (cgroup parent : string) (systemd : bool) : M () :=
  mgr_Set ← lift (libctrManager cgroup parent systemd);
  mgr_Set {| SkipDevices := true; CpuQuota := -1 |}.

Definition setCPUQuota (parentDir : string) (c : Container) : M () :=
  '(containerCgroup, containerCgroupParent, systemd) ← containerCgroupAndParent parentDir c;
  let podCgroup := GoPath.Base containerCgroupParent in
  let podCgroupParent := GoPath.Dir containerCgroupParent in
  disableCPUQuotaForCgroup podCgroup podCgroupParent systemd;;
  disableCPUQuotaForCgroup containerCgroup containerCgroupParent systemd.

(** *** Per-CPU power knobs *)

(** [fmt.Sprintf("%s/cpu%d/%s", dir, cpu, rest)] *)
Definition cpuPath (dir : string) (cpu : Z) (rest : string) : string :=
  dir +:+ "/cpu" +:+ GoStrings.Itoa cpu +:+ "/" +:+ rest.

(** [for _, cpu := range cpus.List() { ... }] of
    [doSetCPUPMQOSResumeLatency]. *)
Fixpoint latencyLoop (latency cpuDir cpuSaveDir : string) (cpus : list Z) : M () :=
  match cpus with
  | [] => mret ()
  | cpu :: rest =>
      let latencyFile := cpuPath cpuDir cpu "power/pm_qos_resume_latency_us" in
      let cpuPowerSaveDir := cpuPath cpuSaveDir cpu "power" in
      let latencyFileOrig := GoPath.Join [cpuPowerSaveDir; "pm_qos_resume_latency_us"] in
      if negb (bool_decide (latency = "")) then
        (* retrieve the current latency, save it, update the knob *)
        latencyOrig ← os_ReadFile latencyFile;
        os_MkdirAll cpuPowerSaveDir;;
        os_WriteFile latencyFileOrig latencyOrig;;
        os_WriteFile latencyFile latency;;
        latencyLoop latency cpuDir cpuSaveDir rest
      else
        (* retrieve the original latency *)
        saved ← attempt (os_ReadFile latencyFileOrig);
        match saved with
        | inl err =>
            if errors_Is_ErrNotExist err
            then mret ()   (* may have been restored by a previous invocation *)
            else fail err
        | inr latencyOrig =>
            os_WriteFile latencyFile latencyOrig;;
            os_Remove latencyFileOrig;;
            latencyLoop latency cpuDir cpuSaveDir rest
        end
  end.

Definition doSetCPUPMQOSResumeLatency (c : Container) (latency cpuDir cpuSaveDir : string)
  : M () :=
  spec ← c_Spec c;
  let lspec := SpecLinux spec in
  if missingCPUs lspec then
    fail (ErrMsg ("find container " +:+ ctrID c +:+ " CPUs"))
  else
    cpuRes ← lift (linuxCPU lspec);
    cpus ← lift (CPUSet.Parse (Cpus cpuRes));
    latencyLoop latency cpuDir cpuSaveDir (CPUSet.List cpus).

Definition setCPUPMQOSResumeLatency (c : Container) (latency : string) : M () :=
  doSetCPUPMQOSResumeLatency c latency sysCPUDir sysCPUSaveDir.

Definition isCPUGovernorSupported (governor cpuDir : string) (cpu : Z) : M () :=
  let availGovernorFile := cpuPath cpuDir cpu "cpufreq/scaling_available_governors" in
  availGovernors ← os_ReadFile availGovernorFile;
  if bool_decide (governor ∈ GoStrings.Fields availGovernors) then mret ()
  else fail (ErrMsg ("governor " +:+ governor +:+ " not available for cpu " +:+ GoStrings.Itoa cpu)).

(** [for _, cpu := range cpus.List() { ... }] of [doSetCPUFreqGovernor]. *)
Fixpoint governorLoop (governor cpuDir cpuSaveDir : string) (cpus : list Z) : M () :=
  match cpus with
  | [] => mret ()
  | cpu :: rest =>
      let governorFile := cpuPath cpuDir cpu "cpufreq/scaling_governor" in
      let cpuFreqSaveDir := cpuPath cpuSaveDir cpu "cpufreq" in
      let governorFileOrig := GoPath.Join [cpuFreqSaveDir; "scaling_governor"] in
      if negb (bool_decide (governor = "")) then
        (* retrieve the current governor, check the new one, save, update *)
        governorOrig ← os_ReadFile governorFile;
        isCPUGovernorSupported governor cpuDir cpu;;
        os_MkdirAll cpuFreqSaveDir;;
        os_WriteFile governorFileOrig governorOrig;;
        os_WriteFile governorFile governor;;
        governorLoop governor cpuDir cpuSaveDir rest
      else
        (* retrieve the original scaling governor *)
        saved ← attempt (os_ReadFile governorFileOrig);
        match saved with
        | inl err =>
            if errors_Is_ErrNotExist err
            then mret ()   (* may have been restored by a previous invocation *)
            else fail err
        | inr governorOrig =>
            os_WriteFile governorFile governorOrig;;
            os_Remove governorFileOrig;;
            governorLoop governor cpuDir cpuSaveDir rest
        end
  end.

Definition doSetCPUFreqGovernor (c : Container) (governor cpuDir cpuSaveDir : string)
  : M () :=
  spec ← c_Spec c;
  let lspec := SpecLinux spec in
  if missingCPUs lspec then
    fail (ErrMsg ("find container " +:+ ctrID c +:+ " CPUs"))
  else
    cpuRes ← lift (linuxCPU lspec);
    cpus ← lift (CPUSet.Parse (Cpus cpuRes));
    governorLoop governor cpuDir cpuSaveDir (CPUSet.List cpus).

Definition setCPUFreqGovernor (c : Container) (governor : string) : M () :=
  doSetCPUFreqGovernor c governor sysCPUDir sysCPUSaveDir.

(** *** Boot-time reconciliation of the irqbalance configuration *)

Definition RestoreIrqBalanceConfig
    (irqBalanceConfigFile irqBannedCPUConfigFile irqSmpAffinityProcFile : string) : M () :=
  content ← os_ReadFile irqSmpAffinityProcFile;
  let current := GoStrings.TrimSpace content in
  (* remove ","; now each element is "0-9,a-f" *)
  let s := GoStrings.ReplaceAll current "," "" in
  currentMaskArray ← lift (mapHexCharToByte s);
  if negb (isAllBitSet currentMaskArray) then
    (* not system reboot scenario, just return it *)
    logf "Restore irqbalance config: not system reboot, ignoring"
  else
    banned ← attempt (askOutcome (retrieveIrqBannedCPUMasks irqBalanceConfigFile));
    match banned with
    | inl _ =>
        (* the given irqBalanceConfigFile may not exist *)
        logf "Restore irqbalance config: failed to get current CPU ban list, ignoring"
    | inr bannedCPUMasks =>
        present ← ask (fileExists irqBannedCPUConfigFile);
        if negb present then
          logf ("Creating banned CPU list file " +:+ irqBannedCPUConfigFile);;
          os_Create irqBannedCPUConfigFile;;
          file_WriteString irqBannedCPUConfigFile bannedCPUMasks;;
          logf "Restore irqbalance config: created backup file"
        else
          content ← os_ReadFile irqBannedCPUConfigFile;
          let origBannedCPUMasks := GoStrings.TrimSpace content in
          if bool_decide (bannedCPUMasks = origBannedCPUMasks) then
            logf "Restore irqbalance config: nothing to do"
          else
            logf ("Restore irqbalance banned CPU list in " +:+ irqBalanceConfigFile
                  +:+ " to " +:+ origBannedCPUMasks);;
            updateIrqBalanceConfigFile irqBalanceConfigFile origBannedCPUMasks;;
            enabled ← ask (isServiceEnabled irqBalancedName);
            when enabled
              (restarted ← attempt restartIrqBalanceService;
               match restarted with
               | inl err => logf "Irqbalance service restart failed"
               | inr _ => mret ()
               end)
    end.

Definition ShouldCPUQuotaBeDisabled (cid : string) (cSpec : Spec) (s : Sandbox)
    (annotations : gmap string string) : M bool :=
  run ← shouldRunHooks cid cSpec s;
  if negb run then mret false
  else shouldBeDisabled CPUQuotaAnnotation annotations.

(** *** Shared CPUs *)

(** [resource.ParseQuantity] of Kubernetes on the plain decimal integers
    that [strconv.Itoa] prints: the quantity is that integer. *)
Definition resource_ParseQuantity (s : string) : outcome Z :=
  match CPUSet.Atoi s with
  | Ret n => Ret n
  | _ => Fail (ErrMsg "quantities must match the regular expression")
  end.

(** [Quantity.MilliValue]: the quantity scaled by a thousand, in 64 bits. *)
Definition MilliValue (quan : Z) : Z := Int64.mul quan 1000.

(** [quota = (quan.MilliValue() * period) / milliCPUToCPU], on [int64]. *)
Definition calculateCFSQuota (cpus : CPUSet.t) (period : Z) : outcome Z :=
  quan ← resource_ParseQuantity (GoStrings.Itoa (CPUSet.Size cpus));
  mret (Int64.div (Int64.mul (MilliValue quan) period) milliCPUToCPU).

Definition quotaFile : M string :=
  v2 ← ask cgroupIsV2;
  mret (if (v2 : bool) then cgroupV2Quota else cgroupV1Quota).

Definition injectCpusetEnv (c : Container) (isolated shared : CPUSet.t) : M () :=
  spec ← c_Spec c;
  process ← lift (deref (SpecProcess spec));
  let env := Env process
               ++ [IsolatedCPUsEnvVar +:+ "=" +:+ CPUSet.String isolated;
                   SharedCPUsEnvVar +:+ "=" +:+ CPUSet.String shared] in
  c_SetSpec c {| SpecLinux := SpecLinux spec; SpecProcess := Some {| Env := env |} |}.

Definition setSharedCPUs (c : Container) (s : Sandbox) (sharedCPUs : option CPUSet.t)
  : M () :=
  spec ← c_Spec c;
  let lspec := SpecLinux spec in
  if missingCPUs lspec then
    fail (ErrMsg ("no cpus found for container " +:+ ctrName c))
  else
    cpuRes ← lift (linuxCPU lspec);
    let parsed := CPUSet.Parse (Cpus cpuRes) in
    (* on a parse error, [Parse] hands back the empty set with the error *)
    let isolatedCPUs := match parsed with Ret cpus => cpus | _ => CPUSet.New end in
    logf ("container " +:+ ctrName c +:+ " cpus ids before applying shared cpus "
          +:+ CPUSet.String isolatedCPUs);;
    lift parsed;;
    shared ← lift (deref sharedCPUs);
    let ctrCpuSet := CPUSet.Union isolatedCPUs shared in
    period ← lift (deref (Period cpuRes));
    quota ← lift (calculateCFSQuota ctrCpuSet (Int64.wrap period));
    pid ← wrapErr ("failed to get pid of container " +:+ ctrID c) (lift (ctrPid c));
    ch ← wrapErr ("failed to build cgroup hierarchy of container " +:+ ctrID c)
           (askOutcome (CgroupBuildHierarchyFrom pid));
    let podCpusetCgroup := GetAbsoluteControllerPodPath ch "cpuset" in
    let podCpuAcctCgroup := GetAbsoluteControllerPodPath ch "cpuacct" in
    (* pod level operations *)
    addOrRemoveCpusetFromFile podCpusetCgroup cpusetCpus shared true;;
    qf ← quotaFile;
    cgroups_WriteFile podCpuAcctCgroup qf (GoStrings.Itoa quota);;
    let ctrCpusetCgroup := GetAbsoluteControllerContainerPath ch "cpuset" in
    let ctrCpuAcctCgroup := GetAbsoluteControllerContainerPath ch "cpuacct" in
    addOrRemoveCpusetFromFile ctrCpusetCgroup cpusetCpus shared true;;
    logf ("container " +:+ ctrName c +:+ " cpus ids after applying shared cpus "
          +:+ CPUSet.String ctrCpuSet);;
    qf ← quotaFile;
    cgroups_WriteFile ctrCpuAcctCgroup qf (GoStrings.Itoa quota);;
    (* the isolated cpus move into a separate child cgroup *)
    disabled ← shouldCPULoadBalancingBeDisabled (Annotations s);
    v2 ← (if (disabled : bool) then ask cgroupIsV2 else mret false);
    when v2
      (let ctrCgroup := ctrCpusetCgroup in
       cgroups_WriteFile ctrCgroup cgroupSubTreeControl "+cpu +cpuset";;
       cgroups_WriteFile ctrCgroup cpusetPartition "member";;
       let cgroupChildDir := GoPath.Join [ctrCgroup; "cgroup-child"] in
       os_Mkdir cgroupChildDir;;
       cgroups_WriteFile cgroupChildDir cpusetCpus (CPUSet.String isolatedCPUs);;
       cgroups_WriteFile cgroupChildDir cpusetExclusive (CPUSet.String isolatedCPUs);;
       cgroups_WriteFile cgroupChildDir cpusetPartition "isolated");;
    injectCpusetEnv c isolatedCPUs shared.

(** *** The lifecycle hooks *)

(** The C-state directive of [PreStart]. *)
Definition configureCStates (c : Container) (s : Sandbox) : M () :=
  let '(configure, value) := shouldCStatesBeConfigured (Annotations s) in
  when configure
    (logf ("Configure c-states for container " +:+ ctrID c +:+ " to " +:+ value);;
     if bool_decide (value = annotationEnable) then
       (* enable all c-states *)
       wrapErr "set CPU PM QOS resume latency" (setCPUPMQOSResumeLatency c "0")
     else if bool_decide (value = annotationDisable) then
       (* lock the c-state to C0 *)
       wrapErr "set CPU PM QOS resume latency" (setCPUPMQOSResumeLatency c "n/a")
     else
       fail (ErrMsg ("invalid annotation value " +:+ value))).

(** The frequency-governor directive of [PreStart]. *)
Definition configureFreqGovernor (c : Container) (s : Sandbox) : M () :=
  let '(configure, value) := shouldFreqGovernorBeConfigured (Annotations s) in
  when configure
    (logf ("Configure cpu freq governor for container " +:+ ctrID c +:+ " to " +:+ value);;
     wrapErr "set CPU scaling governor" (setCPUFreqGovernor c value)).

(** The directives of [PreStart] that come before the C-states. *)
Definition configureCgroups (h : HighPerformanceHooks) (c : Container) (s : Sandbox) : M () :=
  (* disable the CPU load balancing for the container CPUs *)
  lb ← shouldCPULoadBalancingBeDisabled (Annotations s);
  when lb (wrapErr "set CPU load balancing" (setCPULoadBalancing c false));;
  when (requestedSharedCPUs (Annotations s) (ctrMetadataName c))
    (wrapErr "set shared CPUs" (setSharedCPUs c s (sharedCPUs h)));;
  (* disable the IRQ smp load balancing for the container CPUs *)
  irq ← shouldIRQLoadBalancingBeDisabled (Annotations s);
  when irq
    (logf ("Disable irq smp balancing for container " +:+ ctrID c);;
     wrapErr "set IRQ load balancing"
       (setIRQLoadBalancing c false IrqSmpAffinityProcFile (irqBalanceConfigFile h)));;
  (* disable the CFS quota for the container CPUs *)
  quota ← shouldCPUQuotaBeDisabled (Annotations s);
  when quota
    (logf ("Disable cpu cfs quota for container " +:+ ctrID c);;
     wrapErr "set CPU CFS quota" (setCPUQuota (CgroupParent s) c)).

Definition PreStart (h : HighPerformanceHooks) (c : Container) (s : Sandbox) : M () :=
  logf ("Run " +:+ HighPerformance +:+ " runtime handler pre-start hook for the container "
        +:+ ctrID c);;
  cSpec ← c_Spec c;
  run ← shouldRunHooks (ctrID c) cSpec s;
  if negb run then mret ()
  else
    configureCgroups h c s;;
    (* configure c-states for the container CPUs *)
    configureCStates c s;;
    (* configure cpu freq governor for the container CPUs *)
    configureFreqGovernor c s.

Definition PreStop (h : HighPerformanceHooks) (c : Container) (s : Sandbox) : M () :=
  logf ("Run " +:+ HighPerformance +:+ " runtime handler pre-stop hook for the container "
        +:+ ctrID c);;
  cSpec ← c_Spec c;
  run ← shouldRunHooks (ctrID c) cSpec s;
  if negb run then mret ()
  else
    (* enable the IRQ smp balancing for the container CPUs *)
    irq ← shouldIRQLoadBalancingBeDisabled (Annotations s);
    when irq
      (wrapErr "set IRQ load balancing"
         (setIRQLoadBalancing c true IrqSmpAffinityProcFile (irqBalanceConfigFile h)));;
    (* re-enable the CPU load balancing for the container CPUs *)
    lb ← shouldCPULoadBalancingBeDisabled (Annotations s);
    when lb (wrapErr "set CPU load balancing" (setCPULoadBalancing c true));;
    (* restore the c-state configuration, only when the annotation is present *)
    when (shouldCStatesBeConfigured (Annotations s)).1
      (wrapErr "set CPU PM QOS resume latency" (setCPUPMQOSResumeLatency c ""));;
    (* restore the cpu freq governor, only when the annotation is present *)
    when (shouldFreqGovernorBeConfigured (Annotations s)).1
      (wrapErr "set CPU scaling governor" (setCPUFreqGovernor c "")).

(** [PostStop] only delegates to the default hooks of the package, which
    are defined outside this file; it is not modelled. *)

End Hooks.

(* ===================================================================== *)
(** ** A concrete set of collaborators                                    *)
(* ===================================================================== *)

(** The properties below hold for every implementation of the
    collaborators.  To run the hooks on concrete systems, this module
    provides one: the annotation keys of [pkg/annotations], libcontainer's
    parser of [/proc/<pid>/cgroup], and models of the package helpers that
    follow the design document. *)
Module TestBed.

Definition newline : string := String "010"%char EmptyString.

Definition lines (content : string) : list string :=
  filter (fun l => l <> "") (GoStrings.Split content newline).

(** One line of [/proc/<pid>/cgroup]:
    [hierarchy-ID:controller-list:cgroup-path]. *)
Definition parseCgroupLine (acc : gmap string string) (line : string)
  : outcome (gmap string string) :=
  match GoStrings.Split line ":" with
  | _ :: subsystems :: p :: rest =>
      let path := GoStrings.Join (p :: rest) ":" in
      Ret (foldl (fun m subs => <[subs := path]> m) acc (GoStrings.Split subsystems ","))
  | _ => Fail (ErrMsg ("invalid cgroup entry: must contain at least two colons: " +:+ line))
  end.

(** [cgroups.ParseCgroupFile] of libcontainer: controller name to cgroup
    path; on cgroup v2 the only entry is under the empty name. *)
Definition ParseCgroupFile (path : string) (w : World) : outcome (gmap string string) :=
  match files w !! path with
  | None => Fail (ErrNotExist path)
  | Some content =>
      foldl (fun acc line => obind acc (fun m => parseCgroupLine m line)) (Ret ∅) (lines content)
  end.

(** Modelled from the spec: the cgroup hierarchy maps a controller name to
    the absolute pod-level and container-level paths; v2 collapses all
    controllers to one unified path.  The pod directory is the parent of
    the container directory. *)
Definition BuildHierarchyFrom (pid : Z) (w : World) : outcome CgroupHierarchy :=
  controllers ← ParseCgroupFile ("/proc/" +:+ GoStrings.Itoa pid +:+ "/cgroup") w;
  let ctrPath (controller : string) : string :=
    if cgroupIsV2 w
    then cgroupMountPoint +:+ default "" (controllers !! "")
    else cgroupMountPoint +:+ "/" +:+ controller +:+ default "" (controllers !! controller) in
  mret {| GetAbsoluteControllerPodPath := fun controller => GoPath.Dir (ctrPath controller);
          GetAbsoluteControllerContainerPath := ctrPath |}.

(** Modelled from the spec: the cgroup manager is chosen by name; the
    systemd driver names the container scope after the container ID, the
    path-based one puts the container directory under its parent. *)
Definition setCgroupManager (name : string) : outcome CgroupManager :=
  if decide (name = "systemd") then
    Ret {| IsSystemd := true;
           ContainerCgroupAbsolutePath := fun parent id =>
             Ret ("/" +:+ parent +:+ "/crio-" +:+ id +:+ ".scope") |}
  else if decide (name = "cgroupfs") then
    Ret {| IsSystemd := false;
           ContainerCgroupAbsolutePath := fun parent id =>
             Ret (GoPath.Join [parent; "crio-" +:+ id]) |}
  else Fail (ErrMsg ("invalid cgroup manager: " +:+ name)).

(** libcontainer's manager: applying resources is one operation on the
    cgroup. *)
Definition newManager (cg : configs_Cgroup) : outcome (configs_Resources -> M ()) :=
  Ret (fun res w =>
         let op := OpCgroupSet (cgName cg) (cgParent cg) (cgSystemd cg) (CpuQuota res) in
         let w := record op w in
         match fault w op with
         | Some e => (Fail e, w)
         | None => (Ret (), w)
         end).

(** *** IRQ affinity masks *)

Definition hexValue (a : ascii) : option Z :=
  let n := Z.of_nat (nat_of_ascii a) in
  if decide (48 <= n <= 57) then Some (n - 48)
  else if decide (97 <= n <= 102) then Some (n - 87)
  else if decide (65 <= n <= 70) then Some (n - 55)
  else None.

Fixpoint hexDigits (s : string) : option (list Z) :=
  match s with
  | EmptyString => Some []
  | String a s' => d ← hexValue a; ds ← hexDigits s'; Some (d :: ds)
  end.

(** Modelled from the spec: the mask, commas removed, is a string of the
    characters 0-9, a-f; each becomes its value. *)
Definition mapHexCharToByte_model (s : string) : outcome (list Z) :=
  match hexDigits s with
  | Some ds => Ret ds
  | None => Fail (ErrMsg ("invalid hex string: " +:+ s))
  end.

(** Modelled from the spec: the kernel's default mask has all bits set. *)
Definition isAllBitSet_model (mask : list Z) : bool :=
  forallb (fun d => bool_decide (d = 15)) mask.

Definition hexChar (d : Z) : ascii :=
  ascii_of_nat (Z.to_nat (if decide (d < 10) then 48 + d else 87 + d)).

(** [n] hexadecimal digits of [v], most significant first, in groups of
    eight separated by commas. *)
Fixpoint showMask (n : nat) (v : Z) (acc : string) : string :=
  match n with
  | O => acc
  | S n' =>
      let acc := String (hexChar (v mod 16)) acc in
      let grouped := bool_decide (String.length (GoStrings.ReplaceAll acc "," "") mod 8 = 0)%nat in
      showMask n' (v / 16) (if grouped && negb (bool_decide (n' = O)) then "," +:+ acc else acc)
  end.

(** Modelled from the spec: the updated mask has the bits of the
    container's CPUs cleared (balancing disabled for them) or set
    (re-enabled); the banned-CPU list is its complement. *)
Definition updateIRQSmpAffinityMask (cpus current : string) (set : bool)
  : outcome (string * string) :=
  cpuset ← CPUSet.Parse cpus;
  digits ← mapHexCharToByte_model (GoStrings.ReplaceAll current "," "");
  let width := length digits in
  let value := foldl (fun acc d => 16 * acc + d) 0 digits in
  let cpuBits := foldr (fun cpu acc => Z.setbit acc cpu) 0 cpuset in
  let full := 16 ^ Z.of_nat width - 1 in
  let updated := if set then Z.land (Z.lor value cpuBits) full else Z.ldiff value cpuBits in
  mret (showMask width updated "", showMask width (Z.lxor updated full) "").

(** Modelled from the spec: a regular file at that path. *)
Definition fileExists_model (path : string) (w : World) : bool :=
  bool_decide (is_Some (files w !! path)).

Definition bannedKey : string := irqBalanceBannedCpus +:+ "=".

(** Modelled from the spec: the banned-CPU value currently configured in
    the irqbalance config file. *)
Definition retrieveIrqBannedCPUMasks_model (path : string) (w : World) : outcome string :=
  match files w !! path with
  | None => Fail (ErrNotExist path)
  | Some content =>
      match filter (fun l => GoStrings.hasPrefix l bannedKey = true) (lines content) with
      | l :: _ => Ret (String.substring (String.length bannedKey)
                         (String.length l - String.length bannedKey) l)
      | [] => Ret ""
      end
  end.

(** Modelled from the spec: the banned-CPU line is rewritten in place,
    every other line is preserved. *)
Definition updateIrqBalanceConfigFile_model (path setting : string) : M () :=
  content ← os_ReadFile path;
  let line := bannedKey +:+ setting in
  let old := lines content in
  let new :=
    if bool_decide (Exists (fun l => GoStrings.hasPrefix l bannedKey = true) old)
    then (fun l => if GoStrings.hasPrefix l bannedKey then line else l) <$> old
    else old ++ [line] in
  os_WriteFile path (GoStrings.Join new newline +:+ newline).

(** Modelled from the spec: the service is managed when its unit file is
    present. *)
Definition isServiceEnabled_model (name : string) (w : World) : bool :=
  bool_decide (is_Some (files w !! ("/etc/systemd/system/" +:+ name +:+ ".service"))).

Definition restartIrqBalanceService_model : M () := fun w =>
  let op := OpService "restart" irqBalancedName in
  let w := record op w in
  match fault w op with
  | Some e => (Fail e, w)
  | None => (Ret (), w)
  end.

Definition lookPath (name : string) (w : World) : outcome string :=
  let path := "/usr/sbin/" +:+ name in
  match files w !! path with
  | Some _ => Ret path
  | None => Fail (ErrMsg ("exec: " +:+ name +:+ ": executable file not found in $PATH"))
  end.

Definition run (cmd : string) (args env : list string) : M () := fun w =>
  let op := OpExec cmd args env in
  let w := record op w in
  match fault w op with
  | Some e => (Fail e, w)
  | None => (Ret (), w)
  end.

Definition collaborators : Collaborators := {|
  CPULoadBalancingAnnotation := "cpu-load-balancing.crio.io";
  CPUQuotaAnnotation := "cpu-quota.crio.io";
  IRQLoadBalancingAnnotation := "irq-load-balancing.crio.io";
  CPUCStatesAnnotation := "cpu-c-states.crio.io";
  CPUFreqGovernorAnnotation := "cpu-freq-governor.crio.io";
  CPUSharedAnnotation := "cpu-shared.crio.io";
  CrioPrefix := "crio";
  SetCgroupManager := setCgroupManager;
  CgroupBuildHierarchyFrom := BuildHierarchyFrom;
  rangeOrder := map_to_list;
  rangeOrder_perm := fun m => Permutation_refl (map_to_list m);
  cgroups_ParseCgroupFile := ParseCgroupFile;
  libCtrMgr_New := newManager;
  UpdateIRQSmpAffinityMask := updateIRQSmpAffinityMask;
  fileExists := fileExists_model;
  updateIrqBalanceConfigFile := updateIrqBalanceConfigFile_model;
  isServiceEnabled := isServiceEnabled_model;
  restartIrqBalanceService := restartIrqBalanceService_model;
  mapHexCharToByte := mapHexCharToByte_model;
  isAllBitSet := isAllBitSet_model;
  retrieveIrqBannedCPUMasks := retrieveIrqBannedCPUMasks_model;
  os_Environ := fun _ => [];
  exec_LookPath := lookPath;
  cmd_Run := run;
|}.

End TestBed.


(* ===================================================================== *)
(** ** Vocabulary of the properties                                       *)
(* ===================================================================== *)

(** The spec a container holds in a world. *)
Definition specOf (c : Container) (w : World) : Spec :=
  default zeroSpec (ctrSpecs w !! ctrID c).

(** [&cSpec.Linux.Resources.CPU.Shares], or nothing when one of the pointers
    on the way is nil. *)
Definition sharesPointer (spec : Spec) : option Z :=
  l ← SpecLinux spec; r ← Resources l; cpu ← CPU r; Shares cpu.

(** Nothing outside the process differs between [w] and [w']: the same
    files and directories, no operation attempted in between, the same
    container specs.  Only the log may have grown. *)
Definition untouched (w w' : World) : Prop :=
  files w' = files w /\ dirs w' = dirs w /\ events w' = events w /\
  ctrSpecs w' = ctrSpecs w /\ fault w' = fault w /\ cgroupIsV2 w' = cgroupIsV2 w.

(** The save files of the two per-CPU power knobs. *)
Definition latencySaveFile (cpuSaveDir : string) (cpu : Z) : string :=
  GoPath.Join [cpuPath cpuSaveDir cpu "power"; "pm_qos_resume_latency_us"].

Definition governorSaveFile (cpuSaveDir : string) (cpu : Z) : string :=
  GoPath.Join [cpuPath cpuSaveDir cpu "cpufreq"; "scaling_governor"].

(** The live files of the two per-CPU power knobs. *)
Definition latencyFile (cpuDir : string) (cpu : Z) : string :=
  cpuPath cpuDir cpu "power/pm_qos_resume_latency_us".

Definition governorFile (cpuDir : string) (cpu : Z) : string :=
  cpuPath cpuDir cpu "cpufreq/scaling_governor".

(** The [cpuset.cpus.exclusive] file of a cgroup directory. *)
Definition exclusiveFile (dir : string) : string := cgroupFile dir "cpuset.cpus.exclusive".

(** The directories [walkDirectories] visits, outermost first: the values
    [currentPath] takes. *)
Fixpoint levelPaths (directories : list string) (currentPath : string) : list string :=
  match directories with
  | [] => []
  | d :: rest =>
      if decide (d = "") then levelPaths rest currentPath
      else
        let currentPath := currentPath +:+ "/" +:+ d in
        currentPath :: levelPaths rest currentPath
  end.

(** [w'] comes after [w]: operations were only added to the record, and
    the cgroup version is the same. *)
Definition extends (w w' : World) : Prop :=
  events w `suffix_of` events w' /\ cgroupIsV2 w' = cgroupIsV2 w.

(** A computation that never rewrites the record of operations. *)
Definition additive {A} (c : M A) : Prop := forall w, extends w (c w).2.

(** The walk keeps this about the state [(valuesForRevert, w)], with
    respect to the world [w0] the call started in and the length [n] of
    the current path: every recorded value is what the directory's
    [cpuset.cpus.exclusive] held in [w0]; that file still exists; the
    recorded directories are no longer than the current path; and the
    [cpuset.cpus.exclusive] of every other directory is as in [w0]. *)
Definition walkInv (w0 : World) (n : nat) (st : gmap string string * World) : Prop :=
  fault st.2 = fault w0 /\
  (forall dir val, st.1 !! dir = Some val ->
     files w0 !! exclusiveFile dir = Some val /\
     is_Some (files st.2 !! exclusiveFile dir) /\
     (String.length dir <= n)%nat) /\
  (forall dir, st.1 !! dir = None ->
     files st.2 !! exclusiveFile dir = files w0 !! exclusiveFile dir).


(** The environment vetoes nothing. *)
Definition noFaults (w : World) : Prop := forall op, fault w op = None.

(** What [addOrRemoveCpusetFromFile] writes for the content [old]. *)
Definition targetCpus (old : string) (cpus : CPUSet.t) (add : bool) : outcome string :=
  currentCpus ← CPUSet.Parse (GoStrings.TrimSpace old);
  mret (CPUSet.String (if add then CPUSet.Union currentCpus cpus
                       else CPUSet.Difference currentCpus cpus)).

(** The [cpuset.sched_load_balance] file of a cgroup v1 cpuset path. *)
Definition schedLoadBalanceFile (cpusetPath : string) : string :=
  cgroupFile ("/sys/fs/cgroup/cpuset" +:+ cpusetPath) "cpuset.sched_load_balance".

(** The file that lists the governors a CPU supports. *)
Definition availableGovernorsFile (cpuDir : string) (cpu : Z) : string :=
  cpuPath cpuDir cpu "cpufreq/scaling_available_governors".

(** A CPU supports a governor when its list of available governors, a
    file of whitespace-separated names, has it. *)
Definition supportsGovernor (w : World) (cpuDir : string) (cpu : Z) (governor : string)
  : Prop :=
  exists available,
    files w !! availableGovernorsFile cpuDir cpu = Some available
    /\ governor ∈ GoStrings.Fields available.

(** A computation that leaves the specs of all containers alone. *)
Definition keepsSpecs {A} (c : M A) : Prop := forall w, ctrSpecs (c w).2 = ctrSpecs w.

(** [w'] has the files and the directories of [w], by name: nothing was
    created and nothing removed. *)
Definition sameNames (w w' : World) : Prop :=
  dom (files w') = dom (files w) /\ dirs w' = dirs w.

(** The child cgroup [setSharedCPUs] moves the isolated CPUs into. *)
Definition childCgroup (ctrCgroup : string) : string :=
  GoPath.Join [ctrCgroup; "cgroup-child"].

(** Whether the annotation [key] asks for its feature to be disabled: the
    value [true] or [disable]. *)
Definition asksToDisable (annotations : gmap string string) (key : string) : bool :=
  bool_decide (annotation annotations key = annotationTrue)
  || bool_decide (annotation annotations key = annotationDisable).

(** The resources [disableCPUQuotaForCgroup] applies: no CFS quota. *)
Definition unlimitedQuota : configs_Resources := {| SkipDevices := true; CpuQuota := -1 |}.


(* ===================================================================== *)
(** ** Example systems                                                    *)
(* ===================================================================== *)

(** A cgroup v2 node with one guaranteed pod and one container on CPUs 2
    and 3, on which the properties below are exercised. *)
Module Examples.

#[local] Existing Instance TestBed.collaborators.

Definition ctr : Container :=
  {| ctrID := "ctr1"; ctrName := "app"; ctrMetadataName := "app"; ctrPid := Ret 42 |}.

(** Two whole CPUs, the default CFS period. *)
Definition wholeCPUs : LinuxCPU :=
  {| Shares := Some 2048; Period := Some 100000; Cpus := "2-3" |}.

(** One and a half CPUs' worth of shares. *)
Definition fractionalCPUs : LinuxCPU :=
  {| Shares := Some 1500; Period := Some 100000; Cpus := "2-3" |}.

Definition noPeriod : LinuxCPU :=
  {| Shares := Some 2048; Period := None; Cpus := "2-3" |}.

Definition specWith (cpu : LinuxCPU) : Spec :=
  {| SpecLinux := Some {| Resources := Some {| CPU := Some cpu |} |};
     SpecProcess := Some {| Env := ["PATH=/usr/bin"] |} |}.

Definition pod (annotations : gmap string string) : Sandbox :=
  {| Annotations := annotations; CgroupParent := "/kubepods/pod1" |}.

(** Every directive requested at once. *)
Definition allDirectives : gmap string string :=
  list_to_map
    [ ("cpu-load-balancing.crio.io", "disable");
      ("cpu-quota.crio.io", "disable");
      ("irq-load-balancing.crio.io", "disable");
      ("cpu-c-states.crio.io", "disable");
      ("cpu-freq-governor.crio.io", "performance");
      ("cpu-shared.crio.io/app", "enable") ].

Definition hooks : HighPerformanceHooks :=
  {| irqBalanceConfigFile := "/etc/sysconfig/irqbalance"; sharedCPUs := Some [0; 1] |}.

Definition noFault : Op -> option error := fun _ => None.

Definition node (fs : gmap string string) (veto : Op -> option error) (spec : Spec) : World :=
  {| files := fs; dirs := ∅; fault := veto; cgroupIsV2 := true;
     ctrSpecs := {[ "ctr1" := spec ]}; events := []; logs := [] |}.

(** The container's cgroup is [/kubepods/pod1/ctr1], three levels below
    the root; CPUs 4 and 5 are already exclusive to another pod. *)
Definition freshFiles : gmap string string :=
  list_to_map
    [ ("/proc/42/cgroup", "0::/kubepods/pod1/ctr1" +:+ TestBed.newline);
      ("/proc/irq/default_smp_affinity", "0f" +:+ TestBed.newline);
      ("/sys/fs/cgroup/kubepods/cpuset.cpus", "0-7");
      ("/sys/fs/cgroup/kubepods/cpuset.cpus.exclusive", "4-5");
      ("/sys/fs/cgroup/kubepods/pod1/cpuset.cpus", "2-3");
      ("/sys/fs/cgroup/kubepods/pod1/cpuset.cpus.exclusive", "");
      ("/sys/fs/cgroup/kubepods/pod1/cpu.max", "max 100000");
      ("/sys/fs/cgroup/kubepods/pod1/ctr1/cpuset.cpus", "2-3");
      ("/sys/fs/cgroup/kubepods/pod1/ctr1/cpuset.cpus.exclusive", "");
      ("/sys/fs/cgroup/kubepods/pod1/ctr1/cpuset.cpus.partition", "member");
      ("/sys/fs/cgroup/kubepods/pod1/ctr1/cpu.max", "max 100000");
      ("/sys/devices/system/cpu/cpu2/cpufreq/scaling_governor", "powersave");
      ("/sys/devices/system/cpu/cpu3/cpufreq/scaling_governor", "performance");
      ("/sys/devices/system/cpu/cpu2/power/pm_qos_resume_latency_us", "0");
      ("/sys/devices/system/cpu/cpu3/power/pm_qos_resume_latency_us", "n/a") ].

(** The same node after a successful [PreStart] with load balancing
    disabled: CPUs 2 and 3 are exclusive all the way down, the leaf is an
    isolated partition. *)
Definition isolatedFiles : gmap string string :=
  <["/sys/fs/cgroup/kubepods/cpuset.cpus.exclusive" := "2-5"]>
  (<["/sys/fs/cgroup/kubepods/pod1/cpuset.cpus.exclusive" := "2-3"]>
  (<["/sys/fs/cgroup/kubepods/pod1/ctr1/cpuset.cpus.exclusive" := "2-3"]>
  (<["/sys/fs/cgroup/kubepods/pod1/ctr1/cpuset.cpus.partition" := "isolated"]> freshFiles))).

(** The node with save files left for CPU 3 only. *)
Definition halfRestoredFiles : gmap string string :=
  <["/var/run/crio/cpu/cpu3/cpufreq/scaling_governor" := "powersave"]>
  (<["/var/run/crio/cpu/cpu3/power/pm_qos_resume_latency_us" := "0"]> freshFiles).

Definition einval : error :=
  ErrSys "EINVAL" "/sys/fs/cgroup/kubepods/pod1/ctr1/cpuset.cpus.exclusive".

(** The kernel rejects every write to the leaf's [cpuset.cpus.exclusive]:
    a failure at depth 3 of 3. *)
Definition leafRejects : Op -> option error := fun op =>
  match op with
  | OpWrite path _ =>
      if decide (path = "/sys/fs/cgroup/kubepods/pod1/ctr1/cpuset.cpus.exclusive")
      then Some einval else None
  | _ => None
  end.

Definition freshNode : World := node freshFiles noFault (specWith wholeCPUs).
Definition faultyNode : World := node freshFiles leafRejects (specWith wholeCPUs).
Definition isolatedNode : World := node isolatedFiles noFault (specWith wholeCPUs).
Definition halfRestoredNode : World := node halfRestoredFiles noFault (specWith wholeCPUs).
Definition fractionalNode : World := node freshFiles noFault (specWith fractionalCPUs).
Definition noPeriodNode : World := node freshFiles noFault (specWith noPeriod).
Definition noSpecNode : World := node freshFiles noFault zeroSpec.

(** Disabling load balancing on the faulty node. *)
Definition disableFailed : outcome () * World := setCPULoadBalancingV2 ctr false faultyNode.

(** Re-enabling load balancing on the isolated node: the walk, and the
    whole call. *)
Definition reenableLevels : outcome string * (gmap string string * World) :=
  setCPULoadBalancingV2_levels ctr true (∅, isolatedNode).

Definition reenabled : outcome () * World := setCPULoadBalancingV2 ctr true isolatedNode.

(** The isolated node once the container's cgroup directory has been
    removed, and re-enabling load balancing on it. *)
Definition removedLeafFiles : gmap string string :=
  filter (fun kv => GoStrings.hasPrefix kv.1 "/sys/fs/cgroup/kubepods/pod1/ctr1/" = false)
         isolatedFiles.

Definition reenableRemoved : outcome () * World :=
  setCPULoadBalancingV2 ctr true (node removedLeafFiles noFault (specWith wholeCPUs)).

Definition leafPartition : string :=
  cgroupFile (GoPath.Join ["/sys/fs/cgroup"; "/kubepods/pod1/ctr1"]) "cpuset.cpus.partition".

(** Sharing CPUs 0 and 1 with the container. *)
Definition shared : outcome () * World := setSharedCPUs ctr (pod ∅) (Some [0; 1]) freshNode.

(** An unknown C-state value. *)
Definition bogusCStates : Sandbox := pod {[ "cpu-c-states.crio.io" := "bogus" ]}.

Definition startLine : string :=
  "Run " +:+ HighPerformance +:+ " runtime handler pre-start hook for the container "
  +:+ ctrID ctr.

Definition cgroupsConfigured : outcome () * World :=
  configureCgroups hooks ctr bogusCStates (addLog startLine freshNode).

End Examples.

(** Further systems: a cgroup v1 node, the node after a reboot, CPUs that
    list their governors, and a container cgroup that can delegate. *)
Module MoreExamples.
Import Examples.

#[local] Existing Instance TestBed.collaborators.

(** The same container on a cgroup v1 node: the cpuset hierarchy is
    mounted on its own, and the container's cgroup balances load. *)
Definition v1Files : gmap string string :=
  list_to_map
    [ ("/proc/42/cgroup", "4:cpuset:/kubepods/pod1/ctr1" +:+ TestBed.newline);
      ("/sys/fs/cgroup/cpuset/kubepods/pod1/ctr1/cpuset.sched_load_balance", "1") ].

Definition v1Node : World :=
  {| files := v1Files; dirs := ∅; fault := noFault; cgroupIsV2 := false;
     ctrSpecs := {[ "ctr1" := specWith wholeCPUs ]}; events := []; logs := [] |}.

(** The node right after a reboot: every bit of the IRQ affinity mask is
    set, while the irqbalance configuration still bans CPUs 2 and 3. *)
Definition irqBalanceConfig : string := "/etc/sysconfig/irqbalance".
Definition bannedCPUConfig : string := "/etc/sysconfig/orig_irq_banned_cpus".

Definition rebootedFiles : gmap string string :=
  <[IrqSmpAffinityProcFile := "ff" +:+ TestBed.newline]>
  (<[irqBalanceConfig := "IRQBALANCE_BANNED_CPUS=0c" +:+ TestBed.newline]> freshFiles).

Definition rebootedNode : World := node rebootedFiles noFault (specWith wholeCPUs).

(** The rebooted node with a backup of the banned-CPU mask: one from
    before any container ran, and one equal to what is configured. *)
Definition staleBackupNode : World :=
  node (<[bannedCPUConfig := "00" +:+ TestBed.newline]> rebootedFiles) noFault
       (specWith wholeCPUs).

Definition sameBackupNode : World :=
  node (<[bannedCPUConfig := "0c" +:+ TestBed.newline]> rebootedFiles) noFault
       (specWith wholeCPUs).

(** A node whose CPUs 2 and 3 list their governors; and one where CPU 3
    does not offer [performance]. *)
Definition governorFiles (cpu3 : string) : gmap string string :=
  <["/sys/devices/system/cpu/cpu2/cpufreq/scaling_available_governors"
    := "performance powersave"]>
  (<["/sys/devices/system/cpu/cpu3/cpufreq/scaling_available_governors" := cpu3]> freshFiles).

Definition governorNode : World :=
  node (governorFiles "performance powersave") noFault (specWith wholeCPUs).

Definition partialGovernorNode : World :=
  node (governorFiles "powersave") noFault (specWith wholeCPUs).

(** The node with the controller file of the container's cgroup, and a pod
    that asks for load balancing to be disabled. *)
Definition delegatedNode : World :=
  node (<["/sys/fs/cgroup/kubepods/pod1/ctr1/cgroup.subtree_control" := ""]> freshFiles)
       noFault (specWith wholeCPUs).

Definition isolatingPod : Sandbox := pod {[ "cpu-load-balancing.crio.io" := "disable" ]}.

(** A pod that asks for the quota to be lifted and for shared CPUs. *)
Definition quotaPod : Sandbox :=
  pod (list_to_map [ ("cpu-quota.crio.io", "disable"); ("cpu-shared.crio.io/app", "enable") ]).

(** A CPU list that is not one, on a spec without a CFS period. *)
Definition unparsableCPUs : LinuxCPU :=
  {| Shares := Some 2048; Period := None; Cpus := "abc" |}.

Definition unparsableNode : World := node freshFiles noFault (specWith unparsableCPUs).

(** A pod that locks the CPUs of its containers to C0. *)
Definition cstatesDisabled : Sandbox := pod {[ "cpu-c-states.crio.io" := "disable" ]}.

(** The node with the child cgroup of the container in place already. *)
Definition occupiedNode : World :=
  node (<["/sys/fs/cgroup/kubepods/pod1/ctr1/cgroup-child/cpuset.cpus" := "2-3"]>
          (files delegatedNode))
       noFault (specWith wholeCPUs).

End MoreExamples.

(* ===================================================================== *)
(** ** Running computations                                               *)
(* ===================================================================== *)

Lemma bind_run {S A B} (c : ST S A) (k : A -> ST S B) (s : S) :
  (c ≫= k) s =
  match c s with
  | (Ret a, s') => k a s'
  | (Fail e, s') => (Fail e, s')
  | (Panic r, s') => (Panic r, s')
  end.
Proof. reflexivity. Qed.

Lemma c_Spec_run c w : c_Spec c w = (Ret (specOf c w), w).
Proof. reflexivity. Qed.

Lemma missingCPUs_of_panic lspec :
  linuxCPU lspec = Panic nilDeref -> missingCPUs lspec = true.
Proof.
  destruct lspec as [[[[[[sh pe cp]|]]|]]|]; cbn; try done.
Qed.

Lemma isContainerRequestWholeCPU_nil spec :
  sharesPointer spec = None -> isContainerRequestWholeCPU spec = Panic nilDeref.
Proof.
  destruct spec as [[[[[[[[sh|] pe cp]|]]|]]|] pr]; cbn; try done.
Qed.

Section HookProperties.
Context `{Collaborators}.

Lemma shouldRunHooks_nil id spec s w :
  isCgroupParentBurstable s = false ->
  isCgroupParentBestEffort s = false ->
  sharesPointer spec = None ->
  shouldRunHooks id spec s w = (Panic nilDeref, w).
Proof.
  intros Hb He Hn. unfold shouldRunHooks. rewrite Hb, He.
  rewrite bind_run. unfold lift. by rewrite (isContainerRequestWholeCPU_nil _ Hn).
Qed.

Lemma guard_fails {A} (c : Container) (w : World) (msg : string) (k : M A) :
  missingCPUs (SpecLinux (specOf c w)) = true ->
  (spec ← c_Spec c;
   if missingCPUs (SpecLinux spec) then fail (ErrMsg msg) else k) w
  = (Fail (ErrMsg msg), w).
Proof. intros E. rewrite bind_run, c_Spec_run. by rewrite E. Qed.

(** C8.  When [Linux], [Linux.Resources], [Linux.Resources.CPU] or
    [Linux.Resources.CPU.Shares] of the container spec is nil, the
    whole-CPU test panics with a nil-pointer dereference; so do
    [shouldRunHooks], [PreStart] and [PreStop] for a pod that is neither
    burstable nor best-effort.  The controllers guard the first three
    pointers: with one of them nil, each returns an error, and does
    nothing. *)
Theorem nil_shares_panics (h : HighPerformanceHooks) (c : Container) (s : Sandbox)
    (w : World) :
  sharesPointer (specOf c w) = None ->
  isContainerRequestWholeCPU (specOf c w) = Panic nilDeref
  /\ (isCgroupParentBurstable s = false -> isCgroupParentBestEffort s = false ->
      (shouldRunHooks (ctrID c) (specOf c w) s w).1 = Panic nilDeref
      /\ (PreStart h c s w).1 = Panic nilDeref
      /\ (PreStop h c s w).1 = Panic nilDeref)
  /\ (linuxCPU (SpecLinux (specOf c w)) = Panic nilDeref ->
      forall (enable : bool) (value dir saveDir irqFile irqConfig : string),
        let notFound := Fail (ErrMsg ("find container " +:+ ctrID c +:+ " CPUs")) in
        setCPULoadBalancing c enable w = (notFound, w)
        /\ setIRQLoadBalancing c enable irqFile irqConfig w = (notFound, w)
        /\ doSetCPUPMQOSResumeLatency c value dir saveDir w = (notFound, w)
        /\ doSetCPUFreqGovernor c value dir saveDir w = (notFound, w)
        /\ setSharedCPUs c s (sharedCPUs h) w
           = (Fail (ErrMsg ("no cpus found for container " +:+ ctrName c)), w)).
Proof.
  intros Hnil. split; [by apply isContainerRequestWholeCPU_nil|]. split.
  - intros Hb He. split; [by rewrite shouldRunHooks_nil|].
    split.
    + unfold PreStart. rewrite bind_run. cbn [logf].
      rewrite bind_run, c_Spec_run. rewrite bind_run.
      by rewrite shouldRunHooks_nil.
    + unfold PreStop. rewrite bind_run. cbn [logf].
      rewrite bind_run, c_Spec_run. rewrite bind_run.
      by rewrite shouldRunHooks_nil.
  - intros Hp enable value dir saveDir irqFile irqConfig notFound.
    apply missingCPUs_of_panic in Hp.
    repeat split; by apply guard_fails.
Qed.

Lemma isContainerRequestWholeCPU_shares spec shares :
  sharesPointer spec = Some shares ->
  isContainerRequestWholeCPU spec = Ret (bool_decide (shares mod 1024 = 0)).
Proof.
  destruct spec as [[[[[[[[sh|] pe cp]|]]|]]|] pr]; cbn; try done.
  by intros [= ->].
Qed.

Lemma shouldRunHooks_skip id spec s w :
  isCgroupParentBurstable s = true \/ isCgroupParentBestEffort s = true \/
  (exists shares, sharesPointer spec = Some shares /\ shares mod 1024 <> 0) ->
  exists line, shouldRunHooks id spec s w = (Ret false, addLog line w).
Proof.
  intros Hskip. unfold shouldRunHooks.
  destruct (isCgroupParentBurstable s) eqn:Hb; [by eexists|].
  destruct (isCgroupParentBestEffort s) eqn:He; [by eexists|].
  destruct Hskip as [?|[?|(shares & Hsh & Hmod)]]; [done..|].
  rewrite bind_run. unfold lift.
  rewrite (isContainerRequestWholeCPU_shares _ _ Hsh).
  rewrite bool_decide_eq_false_2 by done. by eexists.
Qed.

(** C3.  A container whose pod cgroup parent contains [burstable] or
    [besteffort], or whose CPU shares are not a multiple of 1024, is
    skipped: [PreStart] and [PreStop] return nil, whatever the
    annotations, and nothing outside the process is touched (no file
    written, no operation attempted; only log lines are added). *)
Theorem ineligible_container_is_skipped (h : HighPerformanceHooks) (c : Container)
    (s : Sandbox) (w : World) :
  isCgroupParentBurstable s = true \/ isCgroupParentBestEffort s = true \/
  (exists shares, sharesPointer (specOf c w) = Some shares /\ shares mod 1024 <> 0) ->
  exists w1 w2,
    PreStart h c s w = (Ret (), w1) /\ untouched w w1 /\
    PreStop h c s w = (Ret (), w2) /\ untouched w w2.
Proof.
  intros Hskip.
  set (l1 := "Run " +:+ HighPerformance +:+
             " runtime handler pre-start hook for the container " +:+ ctrID c).
  set (l2 := "Run " +:+ HighPerformance +:+
             " runtime handler pre-stop hook for the container " +:+ ctrID c).
  destruct (shouldRunHooks_skip (ctrID c) _ s (addLog l1 w) Hskip) as [m1 E1].
  destruct (shouldRunHooks_skip (ctrID c) _ s (addLog l2 w) Hskip) as [m2 E2].
  exists (addLog m1 (addLog l1 w)), (addLog m2 (addLog l2 w)).
  repeat split.
  - unfold PreStart. rewrite bind_run. cbn [logf]. fold l1.
    rewrite bind_run, c_Spec_run, bind_run.
    change (specOf c (addLog l1 w)) with (specOf c w). by rewrite E1.
  - unfold PreStop. rewrite bind_run. cbn [logf]. fold l2.
    rewrite bind_run, c_Spec_run, bind_run.
    change (specOf c (addLog l2 w)) with (specOf c w). by rewrite E2.
Qed.

Lemma missingCPUs_of_ret lspec cpu :
  linuxCPU lspec = Ret cpu -> Cpus cpu <> "" -> missingCPUs lspec = false.
Proof.
  destruct lspec as [[[[[cpu'|]]|]]|]; cbn; try done.
  intros [= ->] ?. by apply bool_decide_eq_false.
Qed.

(** C10, as the code has it.  [setSharedCPUs] checks the CPU list: a
    missing one is reported as an error, and so is one that does not parse,
    before [Period] is looked at.  But [Period] is dereferenced unchecked:
    for a container whose non-empty CPU list parses and whose [Period] is
    nil the call panics.  In all three cases nothing outside the process has
    been touched. *)
Theorem setSharedCPUs_nil_period_panics (c : Container) (s : Sandbox)
    (shared : option CPUSet.t) (w : World) :
  (missingCPUs (SpecLinux (specOf c w)) = true ->
   setSharedCPUs c s shared w
   = (Fail (ErrMsg ("no cpus found for container " +:+ ctrName c)), w))
  /\ (forall cpuRes e,
       linuxCPU (SpecLinux (specOf c w)) = Ret cpuRes ->
       Cpus cpuRes <> "" ->
       CPUSet.Parse (Cpus cpuRes) = Fail e ->
       exists w', setSharedCPUs c s shared w = (Fail e, w') /\ untouched w w')
  /\ (forall cpuRes cpus,
       linuxCPU (SpecLinux (specOf c w)) = Ret cpuRes ->
       Cpus cpuRes <> "" ->
       CPUSet.Parse (Cpus cpuRes) = Ret cpus ->
       Period cpuRes = None ->
       exists w', setSharedCPUs c s shared w = (Panic nilDeref, w') /\ untouched w w').
Proof.
  split; [by apply guard_fails|]. split.
  - intros cpuRes e Hcpu Hne Hparse.
    eexists. unfold setSharedCPUs.
    rewrite bind_run, c_Spec_run, (missingCPUs_of_ret _ _ Hcpu Hne).
    rewrite bind_run. unfold lift at 1. rewrite Hcpu.
    rewrite Hparse. rewrite bind_run. cbn [logf].
    rewrite bind_run. unfold lift at 1.
    split; [reflexivity|]. by repeat split.
  - intros cpuRes cpus Hcpu Hne Hparse Hperiod.
    eexists. unfold setSharedCPUs.
    rewrite bind_run, c_Spec_run, (missingCPUs_of_ret _ _ Hcpu Hne).
    rewrite bind_run. unfold lift at 1. rewrite Hcpu.
    rewrite Hparse. rewrite bind_run. cbn [logf].
    rewrite bind_run. unfold lift at 1.
    rewrite bind_run. unfold lift at 1.
    destruct shared as [sh|]; cbn [deref].
    + rewrite bind_run. unfold lift at 1. rewrite Hperiod. cbn [deref].
      split; [reflexivity|]. by repeat split.
    + split; [reflexivity|]. by repeat split.
Qed.

(** *** Restoring the power knobs *)

Lemma os_ReadFile_missing path w :
  files w !! path = None -> os_ReadFile path w = (Fail (ErrNotExist path), w).
Proof. intros E. unfold os_ReadFile. by rewrite E. Qed.

Lemma latencyLoop_restore_step cpuDir saveDir cpu rest :
  latencyLoop "" cpuDir saveDir (cpu :: rest) =
  (saved ← attempt (os_ReadFile (latencySaveFile saveDir cpu));
   match saved with
   | inl err => if errors_Is_ErrNotExist err then mret () else fail err
   | inr latencyOrig =>
       os_WriteFile (latencyFile cpuDir cpu) latencyOrig;;
       os_Remove (latencySaveFile saveDir cpu);;
       latencyLoop "" cpuDir saveDir rest
   end).
Proof. reflexivity. Qed.

Lemma governorLoop_restore_step cpuDir saveDir cpu rest :
  governorLoop "" cpuDir saveDir (cpu :: rest) =
  (saved ← attempt (os_ReadFile (governorSaveFile saveDir cpu));
   match saved with
   | inl err => if errors_Is_ErrNotExist err then mret () else fail err
   | inr governorOrig =>
       os_WriteFile (governorFile cpuDir cpu) governorOrig;;
       os_Remove (governorSaveFile saveDir cpu);;
       governorLoop "" cpuDir saveDir rest
   end).
Proof. reflexivity. Qed.

Lemma latencyLoop_missing cpuDir saveDir cpu rest w :
  files w !! latencySaveFile saveDir cpu = None ->
  latencyLoop "" cpuDir saveDir (cpu :: rest) w = (Ret (), w).
Proof.
  intros E. rewrite latencyLoop_restore_step, bind_run.
  unfold attempt. by rewrite (os_ReadFile_missing _ _ E).
Qed.

Lemma governorLoop_missing cpuDir saveDir cpu rest w :
  files w !! governorSaveFile saveDir cpu = None ->
  governorLoop "" cpuDir saveDir (cpu :: rest) w = (Ret (), w).
Proof.
  intros E. rewrite governorLoop_restore_step, bind_run.
  unfold attempt. by rewrite (os_ReadFile_missing _ _ E).
Qed.

(** Once the loop has come to a CPU without a save file, the CPUs after it
    make no difference. *)
Lemma latencyLoop_stops cpuDir saveDir pre cpu post w w1 :
  latencyLoop "" cpuDir saveDir pre w = (Ret (), w1) ->
  files w1 !! latencySaveFile saveDir cpu = None ->
  latencyLoop "" cpuDir saveDir (pre ++ cpu :: post) w = (Ret (), w1).
Proof.
  revert w. induction pre as [|a pre IH]; intros w Hpre Hmiss.
  - injection Hpre as <-. by apply latencyLoop_missing.
  - rewrite <- app_comm_cons. rewrite latencyLoop_restore_step in Hpre |- *.
    rewrite bind_run in Hpre |- *.
    destruct (attempt (os_ReadFile (latencySaveFile saveDir a)) w)
      as [[[err|orig]| |] w2]; try done.
    rewrite bind_run in Hpre |- *.
    destruct (os_WriteFile (latencyFile cpuDir a) orig w2) as [[[]| |] w3]; try done.
    rewrite bind_run in Hpre |- *.
    destruct (os_Remove (latencySaveFile saveDir a) w3) as [[[]| |] w4]; try done.
    by apply IH.
Qed.

Lemma governorLoop_stops cpuDir saveDir pre cpu post w w1 :
  governorLoop "" cpuDir saveDir pre w = (Ret (), w1) ->
  files w1 !! governorSaveFile saveDir cpu = None ->
  governorLoop "" cpuDir saveDir (pre ++ cpu :: post) w = (Ret (), w1).
Proof.
  revert w. induction pre as [|a pre IH]; intros w Hpre Hmiss.
  - injection Hpre as <-. by apply governorLoop_missing.
  - rewrite <- app_comm_cons. rewrite governorLoop_restore_step in Hpre |- *.
    rewrite bind_run in Hpre |- *.
    destruct (attempt (os_ReadFile (governorSaveFile saveDir a)) w)
      as [[[err|orig]| |] w2]; try done.
    rewrite bind_run in Hpre |- *.
    destruct (os_WriteFile (governorFile cpuDir a) orig w2) as [[[]| |] w3]; try done.
    rewrite bind_run in Hpre |- *.
    destruct (os_Remove (governorSaveFile saveDir a) w3) as [[[]| |] w4]; try done.
    by apply IH.
Qed.

(** What the two [doSet...] functions do once the CPU list is there. *)
Lemma doSetCPUPMQOSResumeLatency_run c value cpuDir saveDir w cpuRes cpus :
  linuxCPU (SpecLinux (specOf c w)) = Ret cpuRes ->
  Cpus cpuRes <> "" ->
  CPUSet.Parse (Cpus cpuRes) = Ret cpus ->
  doSetCPUPMQOSResumeLatency c value cpuDir saveDir w
  = latencyLoop value cpuDir saveDir cpus w.
Proof.
  intros Hcpu Hne Hparse. unfold doSetCPUPMQOSResumeLatency.
  rewrite bind_run, c_Spec_run, (missingCPUs_of_ret _ _ Hcpu Hne).
  rewrite bind_run. unfold lift at 1. rewrite Hcpu.
  rewrite bind_run. unfold lift at 1. by rewrite Hparse.
Qed.

Lemma doSetCPUFreqGovernor_run c value cpuDir saveDir w cpuRes cpus :
  linuxCPU (SpecLinux (specOf c w)) = Ret cpuRes ->
  Cpus cpuRes <> "" ->
  CPUSet.Parse (Cpus cpuRes) = Ret cpus ->
  doSetCPUFreqGovernor c value cpuDir saveDir w
  = governorLoop value cpuDir saveDir cpus w.
Proof.
  intros Hcpu Hne Hparse. unfold doSetCPUFreqGovernor.
  rewrite bind_run, c_Spec_run, (missingCPUs_of_ret _ _ Hcpu Hne).
  rewrite bind_run. unfold lift at 1. rewrite Hcpu.
  rewrite bind_run. unfold lift at 1. by rewrite Hparse.
Qed.

(** C5.  Restoring a power knob (the empty value) when no save file exists
    is a no-op that succeeds: the call returns nil and leaves the world as
    it was, so nothing is written to the live knob; a second call right
    after it does the same. *)
Theorem restore_without_save_file_is_idempotent (c : Container) (w : World)
    (cpuDir saveDir : string) (cpuRes : LinuxCPU) (cpus : CPUSet.t) :
  linuxCPU (SpecLinux (specOf c w)) = Ret cpuRes ->
  Cpus cpuRes <> "" ->
  CPUSet.Parse (Cpus cpuRes) = Ret cpus ->
  ((forall cpu, cpu ∈ cpus -> files w !! governorSaveFile saveDir cpu = None) ->
   doSetCPUFreqGovernor c "" cpuDir saveDir w = (Ret (), w)
   /\ (doSetCPUFreqGovernor c "" cpuDir saveDir;;
       doSetCPUFreqGovernor c "" cpuDir saveDir) w = (Ret (), w))
  /\
  ((forall cpu, cpu ∈ cpus -> files w !! latencySaveFile saveDir cpu = None) ->
   doSetCPUPMQOSResumeLatency c "" cpuDir saveDir w = (Ret (), w)
   /\ (doSetCPUPMQOSResumeLatency c "" cpuDir saveDir;;
       doSetCPUPMQOSResumeLatency c "" cpuDir saveDir) w = (Ret (), w)).
Proof.
  intros Hcpu Hne Hparse. split; intros Hnone.
  - assert (doSetCPUFreqGovernor c "" cpuDir saveDir w = (Ret (), w)) as E.
    { rewrite (doSetCPUFreqGovernor_run _ _ _ _ _ _ _ Hcpu Hne Hparse).
      destruct cpus as [|cpu rest]; [done|].
      apply governorLoop_missing, Hnone. by left. }
    split; [done|]. by rewrite bind_run, E.
  - assert (doSetCPUPMQOSResumeLatency c "" cpuDir saveDir w = (Ret (), w)) as E.
    { rewrite (doSetCPUPMQOSResumeLatency_run _ _ _ _ _ _ _ Hcpu Hne Hparse).
      destruct cpus as [|cpu rest]; [done|].
      apply latencyLoop_missing, Hnone. by left. }
    split; [done|]. by rewrite bind_run, E.
Qed.

(** C9.  In the restore path a missing save file ends the whole call with
    success: if the loop reaches a CPU whose save file is absent, the
    call returns nil in the world as the CPUs before it left it, and the
    CPUs after it are not visited.  When that CPU is the first of the
    list, nothing at all has changed: the later CPUs keep their live knob
    values and their save files. *)
Theorem restore_stops_at_missing_save_file (c : Container) (w : World)
    (cpuDir saveDir : string) (cpuRes : LinuxCPU) (pre post : list Z) (cpu : Z) :
  linuxCPU (SpecLinux (specOf c w)) = Ret cpuRes ->
  Cpus cpuRes <> "" ->
  CPUSet.Parse (Cpus cpuRes) = Ret (pre ++ cpu :: post) ->
  (forall w1,
     latencyLoop "" cpuDir saveDir pre w = (Ret (), w1) ->
     files w1 !! latencySaveFile saveDir cpu = None ->
     doSetCPUPMQOSResumeLatency c "" cpuDir saveDir w = (Ret (), w1)
     /\ (pre = [] -> forall later, later ∈ post ->
         events w1 = events w
         /\ files w1 !! latencyFile cpuDir later = files w !! latencyFile cpuDir later
         /\ files w1 !! latencySaveFile saveDir later
            = files w !! latencySaveFile saveDir later))
  /\
  (forall w1,
     governorLoop "" cpuDir saveDir pre w = (Ret (), w1) ->
     files w1 !! governorSaveFile saveDir cpu = None ->
     doSetCPUFreqGovernor c "" cpuDir saveDir w = (Ret (), w1)
     /\ (pre = [] -> forall later, later ∈ post ->
         events w1 = events w
         /\ files w1 !! governorFile cpuDir later = files w !! governorFile cpuDir later
         /\ files w1 !! governorSaveFile saveDir later
            = files w !! governorSaveFile saveDir later)).
Proof.
  intros Hcpu Hne Hparse. split; intros w1 Hpre Hmiss.
  - split.
    + rewrite (doSetCPUPMQOSResumeLatency_run _ _ _ _ _ _ _ Hcpu Hne Hparse).
      by apply latencyLoop_stops.
    + intros -> later _. by injection Hpre as <-.
  - split.
    + rewrite (doSetCPUFreqGovernor_run _ _ _ _ _ _ _ Hcpu Hne Hparse).
      by apply governorLoop_stops.
    + intros -> later _. by injection Hpre as <-.
Qed.

(** *** Boot-time reconciliation *)

Lemma os_ReadFile_ok path content w :
  files w !! path = Some content -> fault w (OpRead path) = None ->
  os_ReadFile path w = (Ret content, w).
Proof. intros E F. unfold os_ReadFile. by rewrite E, F. Qed.

(** C7.  When the live IRQ affinity mask read from the proc file is not
    the all-bits-set default, [RestoreIrqBalanceConfig] returns nil and
    touches nothing: no config rewrite, no backup file, no service
    restart; it only logs that this is not a reboot. *)
Theorem RestoreIrqBalanceConfig_not_reboot (irqBalanceConfig bannedCPUConfig procFile : string)
    (w : World) (content : string) (mask : list Z) :
  files w !! procFile = Some content ->
  fault w (OpRead procFile) = None ->
  mapHexCharToByte (GoStrings.ReplaceAll (GoStrings.TrimSpace content) "," "") = Ret mask ->
  isAllBitSet mask = false ->
  exists w',
    RestoreIrqBalanceConfig irqBalanceConfig bannedCPUConfig procFile w = (Ret (), w')
    /\ untouched w w'.
Proof.
  intros Hfile Hfault Hmask Hbits. eexists.
  unfold RestoreIrqBalanceConfig.
  rewrite bind_run, (os_ReadFile_ok _ _ _ Hfile Hfault).
  rewrite bind_run. unfold lift at 1. rewrite Hmask, Hbits.
  split; [reflexivity|]. by repeat split.
Qed.

(** *** The C-state directive *)

Lemma shouldRunHooks_eligible id spec s w :
  isCgroupParentBurstable s = false ->
  isCgroupParentBestEffort s = false ->
  isContainerRequestWholeCPU spec = Ret true ->
  shouldRunHooks id spec s w = (Ret true, w).
Proof.
  intros Hb He Hw. unfold shouldRunHooks. rewrite Hb, He.
  rewrite bind_run. unfold lift. by rewrite Hw.
Qed.

(** [PreStart] for an eligible container whose earlier directives went
    through: what remains are the C-state and governor directives. *)
Lemma PreStart_reaches_cstates h c s w w1 :
  isCgroupParentBurstable s = false ->
  isCgroupParentBestEffort s = false ->
  isContainerRequestWholeCPU (specOf c w) = Ret true ->
  configureCgroups h c s
    (addLog ("Run " +:+ HighPerformance +:+
             " runtime handler pre-start hook for the container " +:+ ctrID c) w)
  = (Ret (), w1) ->
  PreStart h c s w = (configureCStates c s;; configureFreqGovernor c s) w1.
Proof.
  intros Hb He Hw Hcg. unfold PreStart.
  rewrite bind_run. cbn [logf].
  rewrite bind_run, c_Spec_run, bind_run.
  rewrite (shouldRunHooks_eligible _ _ _ _ Hb He) by exact Hw.
  cbn [negb]. by rewrite bind_run, Hcg.
Qed.

(** *** The CFS quota of the shared-CPU controller *)

Lemma wrap_small z : - 2 ^ 63 <= z < 2 ^ 63 -> Int64.wrap z = z.
Proof.
  unfold Int64.wrap, Int64.modulus.
  change (2 ^ 64) with (2 * 2 ^ 63). generalize (2 ^ 63). intros a Hz.
  rewrite Z.mod_small by lia. lia.
Qed.

(** Reading back the decimal digits that [pretty] prints. *)
Lemma digits_pretty_N_go (x : N) : forall (s : string) (acc : Z),
  exists k : Z, 0 <= k /\
    CPUSet.digits acc (pretty_N_go x s) = CPUSet.digits (acc * 10 ^ k + Z.of_N x) s.
Proof.
  induction (N.lt_wf_0 x) as [x _ IH]. intros s acc.
  destruct (decide (x = 0%N)) as [->|Hx].
  - exists 0. split; [done|]. rewrite pretty_N_go_0. f_equal. lia.
  - rewrite pretty_N_go_step by lia.
    destruct (IH (x `div` 10)%N) with
      (s := String (pretty_N_char (x `mod` 10)) s) (acc := acc) as (k & Hk & ->).
    { apply N.div_lt; lia. }
    exists (k + 1). split; [lia|].
    cbn [CPUSet.digits].
    assert (CPUSet.digit (pretty_N_char (x `mod` 10)) = Some (Z.of_N (x `mod` 10))) as ->.
    { pose proof (N.mod_upper_bound x 10 ltac:(done)) as Hlt.
      generalize dependent (x `mod` 10)%N. intros m Hlt.
      assert (m = 0 \/ m = 1 \/ m = 2 \/ m = 3 \/ m = 4 \/ m = 5 \/ m = 6 \/
              m = 7 \/ m = 8 \/ m = 9)%N as Hcases by lia.
      repeat (destruct Hcases as [->|Hcases]; [reflexivity|]). by rewrite Hcases. }
    cbn [mbind option_bind]. f_equal.
    rewrite Z.pow_add_r by lia.
    rewrite (N.div_mod x 10) at 3 by done.
    rewrite N2Z.inj_add, N2Z.inj_mul. lia.
Qed.

Lemma digits_pretty (n : Z) : 0 <= n -> CPUSet.digits 0 (pretty n) = Some n.
Proof.
  intros Hn. destruct n as [|p|p]; [done| |lia].
  change (pretty (Z.pos p)) with (pretty_N_go (N.pos p) "").
  destruct (digits_pretty_N_go (N.pos p) "" 0) as (k & _ & ->).
  cbn [CPUSet.digits]. f_equal.
Qed.

Lemma pretty_nonempty (n : Z) : 0 <= n -> pretty n <> "".
Proof.
  intros Hn. destruct n as [|p|p]; [done| |lia].
  change (pretty (Z.pos p)) with (pretty_N_go (N.pos p) "").
  rewrite pretty_N_go_step by lia.
  generalize (N.pos p `div` 10)%N. intros y.
  generalize (pretty_N_char (N.pos p `mod` 10)). intros a.
  assert (forall s, s <> "" -> pretty_N_go y s <> "") as Hgo; [|by apply Hgo].
  induction (N.lt_wf_0 y) as [y _ IH]. intros s Hs.
  destruct (decide (y = 0%N)) as [->|Hy]; [by rewrite pretty_N_go_0|].
  rewrite pretty_N_go_step by lia. apply IH; [apply N.div_lt; lia|done].
Qed.

Lemma Atoi_Itoa (n : Z) : 0 <= n < 2 ^ 63 -> CPUSet.Atoi (GoStrings.Itoa n) = Ret n.
Proof.
  intros Hn. unfold GoStrings.Itoa, CPUSet.Atoi.
  pose proof (digits_pretty n ltac:(lia)) as Hd.
  pose proof (pretty_nonempty n ltac:(lia)) as Hne.
  destruct (pretty n) as [|a r] eqn:E; [done|].
  destruct (decide (a = "+"%char)) as [->|Hplus]; [done|].
  destruct (decide (a = "-"%char)) as [->|Hminus]; [done|].
  rewrite decide_False by done. rewrite Hd.
  rewrite decide_True by lia. done.
Qed.

Lemma calculateCFSQuota_exact (cpus : CPUSet.t) (period : Z) :
  0 <= period ->
  CPUSet.Size cpus * 1000 < 2 ^ 63 ->
  CPUSet.Size cpus * 1000 * period < 2 ^ 63 ->
  calculateCFSQuota cpus (Int64.wrap period) = Ret (CPUSet.Size cpus * period).
Proof.
  intros Hp Hmilli Hprod.
  assert (0 <= CPUSet.Size cpus) as Hsize by (unfold CPUSet.Size; lia).
  unfold calculateCFSQuota, resource_ParseQuantity.
  rewrite Atoi_Itoa by lia. cbn [mbind outcome_bind obind mret outcome_ret].
  f_equal. unfold MilliValue, milliCPUToCPU, Int64.mul, Int64.div.
  rewrite (wrap_small (CPUSet.Size cpus * 1000)) by lia.
  destruct (decide (CPUSet.Size cpus = 0)) as [->|Hpos].
  - rewrite !Z.mul_0_l. by rewrite (wrap_small 0), Z.quot_0_l by lia.
  - assert (period <= CPUSet.Size cpus * 1000 * period) by nia.
    rewrite (wrap_small period) by lia.
    rewrite (wrap_small (CPUSet.Size cpus * 1000 * period)) by lia.
    replace (CPUSet.Size cpus * 1000 * period)
      with (CPUSet.Size cpus * period * 1000) by lia.
    rewrite Z.quot_mul by done. apply wrap_small. nia.
Qed.

(** *** Computations that only add to the record of operations *)

Lemma extends_refl w : extends w w.
Proof. by split. Qed.

Lemma extends_trans w1 w2 w3 : extends w1 w2 -> extends w2 w3 -> extends w1 w3.
Proof. intros [? ?] [? ?]. split; [by etrans|congruence]. Qed.

Lemma extends_record op w : extends w (record op w).
Proof. split; [by apply suffix_cons_r|done]. Qed.

Lemma additive_ret {A} (a : A) : additive (mret a).
Proof. intros w. apply extends_refl. Qed.

Lemma additive_lift {A} (o : outcome A) : additive (lift o).
Proof. intros w. apply extends_refl. Qed.

Lemma additive_ask {A} (f : World -> A) : additive (ask f).
Proof. intros w. apply extends_refl. Qed.

Lemma additive_logf line : additive (logf line).
Proof. intros w. by split. Qed.

Lemma additive_bind {A B} (c : M A) (k : A -> M B) :
  additive c -> (forall a, additive (k a)) -> additive (c ≫= k).
Proof.
  intros Hc Hk w. rewrite bind_run. specialize (Hc w).
  destruct (c w) as [[a|e|r] w1]; [|done..].
  eapply extends_trans; [exact Hc|apply Hk].
Qed.

Lemma additive_when cond (c : M ()) : additive c -> additive (when cond c).
Proof. destruct cond; [done|]. intros _. apply additive_ret. Qed.

Lemma additive_os_ReadFile path : additive (os_ReadFile path).
Proof.
  intros w. unfold os_ReadFile.
  destruct (files w !! path); [|apply extends_refl].
  destruct (fault w (OpRead path)); apply extends_refl.
Qed.

Lemma additive_cgroups_WriteFile dir file data : additive (cgroups_WriteFile dir file data).
Proof.
  intros w. unfold cgroups_WriteFile. cbn.
  destruct (files w !! cgroupFile dir file); [|apply extends_record].
  destruct (fault w _); apply extends_record.
Qed.

Lemma additive_os_Mkdir path : additive (os_Mkdir path).
Proof.
  intros w. unfold os_Mkdir. cbn zeta.
  destruct (pathExists _ _); [apply extends_record|].
  destruct (negb _); [apply extends_record|].
  cbn [record fault]. destruct (fault w _); apply extends_record.
Qed.

Lemma additive_c_SetSpec c spec : additive (c_SetSpec c spec).
Proof. intros w. by split. Qed.

Lemma additive_addOrRemoveCpusetFromFile path file cpus add :
  additive (addOrRemoveCpusetFromFile path file cpus add).
Proof.
  unfold addOrRemoveCpusetFromFile, cgroups_ReadFile.
  repeat first
    [ apply additive_bind; [|intros ?]
    | apply additive_os_ReadFile | apply additive_lift
    | apply additive_cgroups_WriteFile | apply additive_ret ].
Qed.

Lemma additive_shouldBeDisabled key annotations : additive (shouldBeDisabled key annotations).
Proof.
  unfold shouldBeDisabled.
  apply additive_bind; [|intros ?; apply additive_ret].
  apply additive_when, additive_logf.
Qed.

Lemma additive_injectCpusetEnv c isolated shared : additive (injectCpusetEnv c isolated shared).
Proof.
  unfold injectCpusetEnv, c_Spec.
  repeat first
    [ apply additive_bind; [|intros ?]
    | apply additive_ask | apply additive_lift | apply additive_c_SetSpec ].
Qed.

Lemma bind_inv_ret {S A B} (c : ST S A) (k : A -> ST S B) (s s' : S) (b : B) :
  (c ≫= k) s = (Ret b, s') ->
  exists a s1, c s = (Ret a, s1) /\ k a s1 = (Ret b, s').
Proof.
  rewrite bind_run. destruct (c s) as [[a|e|r] s1]; [|done..]. by exists a, s1.
Qed.

Lemma additive_run {A} (c : M A) w r w' : additive c -> c w = (r, w') -> extends w w'.
Proof. intros Hc E. specialize (Hc w). by rewrite E in Hc. Qed.

Lemma quotaFile_run w :
  quotaFile w = (Ret (if cgroupIsV2 w then cgroupV2Quota else cgroupV1Quota), w).
Proof. reflexivity. Qed.

Lemma additive_quotaFile : additive quotaFile.
Proof. intros w. rewrite quotaFile_run. apply extends_refl. Qed.

Lemma write_recorded {B} dir file data (k : () -> M B) w b w' :
  (forall a, additive (k a)) ->
  (cgroups_WriteFile dir file data ≫= k) w = (Ret b, w') ->
  OpWrite (cgroupFile dir file) data ∈ events w'.
Proof.
  intros Hk Hrun. apply bind_inv_ret in Hrun as ([] & w1 & E1 & Hrun).
  apply (additive_run _ _ _ _ (Hk ())) in Hrun as [Hsuf _].
  assert (OpWrite (cgroupFile dir file) data ∈ events w1) as Hin.
  { unfold cgroups_WriteFile in E1. cbn in E1.
    destruct (files w !! cgroupFile dir file); [|done].
    destruct (fault w _); [done|]. injection E1 as <-. cbn. by left. }
  destruct Hsuf as [new ->]. apply elem_of_app. by right.
Qed.

Ltac solve_additive :=
  repeat first
    [ apply additive_addOrRemoveCpusetFromFile | apply additive_logf
    | apply additive_quotaFile | apply additive_cgroups_WriteFile
    | apply additive_shouldBeDisabled | apply additive_injectCpusetEnv
    | apply additive_os_Mkdir | apply additive_ask | apply additive_ret
    | apply additive_when
    | match goal with |- additive (if ?b then _ else _) => destruct b end
    | apply additive_bind; [|intros ?] ].

Lemma setSharedCPUs_writes_quota (c : Container) (s : Sandbox) (shared : CPUSet.t)
    (w w' : World) (cpuRes : LinuxCPU) (isolated : CPUSet.t) (period : Z) :
  linuxCPU (SpecLinux (specOf c w)) = Ret cpuRes ->
  CPUSet.Parse (Cpus cpuRes) = Ret isolated ->
  Period cpuRes = Some period ->
  setSharedCPUs c s (Some shared) w = (Ret (), w') ->
  exists quota pid ch w0,
    calculateCFSQuota (CPUSet.Union isolated shared) (Int64.wrap period) = Ret quota
    /\ ctrPid c = Ret pid
    /\ untouched w w0
    /\ CgroupBuildHierarchyFrom pid w0 = Ret ch
    /\ let qf := if cgroupIsV2 w then cgroupV2Quota else cgroupV1Quota in
       OpWrite (cgroupFile (GetAbsoluteControllerPodPath ch "cpuacct") qf)
               (GoStrings.Itoa quota) ∈ events w'
       /\ OpWrite (cgroupFile (GetAbsoluteControllerContainerPath ch "cpuacct") qf)
                  (GoStrings.Itoa quota) ∈ events w'.
Proof.
  intros Hcpu Hparse Hperiod Hrun.
  unfold setSharedCPUs in Hrun.
  rewrite bind_run, c_Spec_run in Hrun.
  destruct (missingCPUs (SpecLinux (specOf c w))) eqn:Hmiss; [done|].
  apply bind_inv_ret in Hrun as (cpuRes' & w1 & E1 & Hrun).
  unfold lift in E1. rewrite Hcpu in E1. injection E1 as <- <-.
  rewrite Hparse in Hrun.
  apply bind_inv_ret in Hrun as ([] & w1 & E1 & Hrun). cbn [logf] in E1. injection E1 as <-.
  apply bind_inv_ret in Hrun as (? & w1 & E1 & Hrun). injection E1 as _ <-.
  apply bind_inv_ret in Hrun as (? & w1 & E1 & Hrun). injection E1 as <- <-.
  apply bind_inv_ret in Hrun as (? & w1 & E1 & Hrun). unfold lift in E1. rewrite Hperiod in E1.
  injection E1 as <- <-.
  apply bind_inv_ret in Hrun as (quota & w1 & E1 & Hrun). injection E1 as Hquota <-.
  apply bind_inv_ret in Hrun as (pid & w1 & E1 & Hrun).
  assert (ctrPid c = Ret pid /\ w1 = addLog
       ("container " +:+ ctrName c +:+
        " cpus ids before applying shared cpus " +:+ CPUSet.String isolated) w) as [Hpid ->].
  { unfold wrapErr, lift in E1. destruct (ctrPid c); by simplify_eq. }
  clear E1.
  apply bind_inv_ret in Hrun as (ch & w1 & E1 & Hrun).
  assert (CgroupBuildHierarchyFrom pid (addLog
       ("container " +:+ ctrName c +:+
        " cpus ids before applying shared cpus " +:+ CPUSet.String isolated) w) = Ret ch
        /\ w1 = addLog
       ("container " +:+ ctrName c +:+
        " cpus ids before applying shared cpus " +:+ CPUSet.String isolated) w) as [Hch ->].
  { unfold wrapErr, askOutcome in E1. destruct (CgroupBuildHierarchyFrom pid _); by simplify_eq. }
  clear E1.
  exists quota, pid, ch. eexists. split; [done|]. split; [done|].
  split; [|split; [exact Hch|]]. { by repeat split. }
  apply bind_inv_ret in Hrun as (? & w1 & E1 & Hrun).
  apply additive_run in E1 as [_ Hv1]; [|apply additive_addOrRemoveCpusetFromFile].
  cbn [cgroupIsV2 addLog] in Hv1.
  apply bind_inv_ret in Hrun as (qf & w2 & E2 & Hrun).
  rewrite quotaFile_run in E2. simplify_eq. rewrite Hv1 in Hrun.
  cbn zeta. split.
  - eapply write_recorded; [|exact Hrun]. intros [].
    solve_additive.
  - apply bind_inv_ret in Hrun as ([] & w2' & E2 & Hrun).
    apply additive_run in E2 as [_ Hv2]; [|apply additive_cgroups_WriteFile].
    apply bind_inv_ret in Hrun as (? & w3 & E3 & Hrun).
    apply additive_run in E3 as [_ Hv3]; [|apply additive_addOrRemoveCpusetFromFile].
    apply bind_inv_ret in Hrun as ([] & w4 & E4 & Hrun).
    cbn [logf] in E4. injection E4 as <-.
    apply bind_inv_ret in Hrun as (qf & w5 & E5 & Hrun).
    rewrite quotaFile_run in E5. simplify_eq.
    cbn [cgroupIsV2 addLog] in Hrun. rewrite Hv3, Hv2, Hv1 in Hrun.
    eapply write_recorded; [|exact Hrun]. intros [].
    solve_additive.
Qed.

(** C4, as the code has it.  The quota is computed on [int64]: it is
    [cpuCount * 1000 * period / 1000], that is [cpuCount * period],
    whenever the product [cpuCount * 1000 * period] fits 64 bits; so
    isolated [{2,3}] with shared [{0,1}] and period 100000 give 400000.
    A successful [setSharedCPUs] writes the decimal form of that quota
    to the quota file of the cgroup version ([cpu.max] on v2,
    [cpu.cfs_quota_us] on v1) at pod and at container scope. *)
Theorem cfs_quota_of_shared_cpus :
  (forall (cpus : CPUSet.t) (period : Z),
      0 <= period ->
      CPUSet.Size cpus * 1000 < 2 ^ 63 ->
      CPUSet.Size cpus * 1000 * period < 2 ^ 63 ->
      calculateCFSQuota cpus (Int64.wrap period) = Ret (CPUSet.Size cpus * period))
  /\ calculateCFSQuota (CPUSet.Union [2; 3] [0; 1]) (Int64.wrap 100000) = Ret 400000
  /\ (forall (c : Container) (s : Sandbox) (shared : CPUSet.t) (w w' : World)
             (cpuRes : LinuxCPU) (isolated : CPUSet.t) (period : Z),
        linuxCPU (SpecLinux (specOf c w)) = Ret cpuRes ->
        CPUSet.Parse (Cpus cpuRes) = Ret isolated ->
        Period cpuRes = Some period ->
        setSharedCPUs c s (Some shared) w = (Ret (), w') ->
        exists quota pid ch w0,
          calculateCFSQuota (CPUSet.Union isolated shared) (Int64.wrap period) = Ret quota
          /\ ctrPid c = Ret pid
          /\ untouched w w0
          /\ CgroupBuildHierarchyFrom pid w0 = Ret ch
          /\ let qf := if cgroupIsV2 w then cgroupV2Quota else cgroupV1Quota in
             OpWrite (cgroupFile (GetAbsoluteControllerPodPath ch "cpuacct") qf)
                     (GoStrings.Itoa quota) ∈ events w'
             /\ OpWrite (cgroupFile (GetAbsoluteControllerContainerPath ch "cpuacct") qf)
                        (GoStrings.Itoa quota) ∈ events w').
Proof.
  split; [exact calculateCFSQuota_exact|].
  split; [by vm_compute|].
  exact setSharedCPUs_writes_quota.
Qed.

(** *** Load balancing on cgroup v2: the walk and its rollback *)

Lemma chars_app s t :
  String.list_ascii_of_string (s +:+ t)
  = String.list_ascii_of_string s ++ String.list_ascii_of_string t.
Proof. induction s as [|a s IH]; [done|]. cbn. by rewrite <- IH. Qed.

Lemma chars_inj s t :
  String.list_ascii_of_string s = String.list_ascii_of_string t -> s = t.
Proof.
  intros E. rewrite <- (String.string_of_list_ascii_of_string s).
  rewrite <- (String.string_of_list_ascii_of_string t). by rewrite E.
Qed.

Lemma cgroupFile_inj file d1 d2 : cgroupFile d1 file = cgroupFile d2 file -> d1 = d2.
Proof.
  unfold cgroupFile. intros E. apply chars_inj.
  apply (f_equal String.list_ascii_of_string) in E. rewrite !chars_app in E.
  by apply app_inv_tail in E.
Qed.

Lemma cgroupFile_last dir file a :
  last (String.list_ascii_of_string file) = Some a ->
  last (String.list_ascii_of_string (cgroupFile dir file)) = Some a.
Proof.
  intros E. unfold cgroupFile. rewrite !chars_app, !last_app. by rewrite E.
Qed.

Lemma exclusiveFile_ne_cpus d1 d2 : exclusiveFile d1 <> cgroupFile d2 "cpuset.cpus".
Proof.
  intros E. apply (f_equal (fun s => last (String.list_ascii_of_string s))) in E.
  unfold exclusiveFile in E.
  rewrite (cgroupFile_last d1 _ "e"%char), (cgroupFile_last d2 _ "s"%char) in E; done.
Qed.

Lemma exclusiveFile_inj d1 d2 : exclusiveFile d1 = exclusiveFile d2 -> d1 = d2.
Proof. apply cgroupFile_inj. Qed.

(** What [addOrRemoveCpusetFromFile] does to the files. *)
Lemma addOrRemoveCpusetFromFile_spec path file cpus add w r w' :
  addOrRemoveCpusetFromFile path file cpus add w = (r, w') ->
  fault w' = fault w /\
  match r with
  | Ret val =>
      files w !! cgroupFile path file = Some val /\
      exists data, files w' = <[cgroupFile path file := data]> (files w)
  | _ => files w' = files w
  end.
Proof.
  unfold addOrRemoveCpusetFromFile, cgroups_ReadFile, os_ReadFile.
  rewrite bind_run.
  destruct (files w !! cgroupFile path file) as [content|] eqn:Hfile;
    [|intros; by simplify_eq].
  destruct (fault w (OpRead _)); [intros; by simplify_eq|].
  rewrite bind_run. unfold lift at 1.
  destruct (CPUSet.Parse _) as [current| |]; [|intros; by simplify_eq..].
  rewrite bind_run. unfold cgroups_WriteFile. cbn. rewrite Hfile.
  destruct (fault w (OpWrite _ _)); cbn; intros Hrun;
    [by injection Hrun as <- <-|].
  unfold mret, ST_ret in Hrun. injection Hrun as <- <-. cbn.
  split; [done|]. split; [done|]. by eexists.
Qed.


Lemma cpusetOfContainer_world c w : (cpusetOfContainer c w).2 = w.
Proof.
  unfold cpusetOfContainer. rewrite bind_run. unfold wrapErr at 1, lift.
  destruct (ctrPid c) as [pid| |]; [|done..].
  rewrite bind_run. unfold wrapErr, askOutcome.
  destruct (cgroups_ParseCgroupFile _ w) as [controllers| |]; [|done..].
  rewrite bind_run. cbn. by destruct (controllers !! _).
Qed.

Lemma walkInv_mono w0 n m st : (n <= m)%nat -> walkInv w0 n st -> walkInv w0 m st.
Proof.
  intros Hle (Hf & Hrec & Hframe). split; [done|]. split; [|done].
  intros dir val Hdir. destruct (Hrec dir val Hdir) as (? & ? & ?).
  split; [done|]. split; [done|lia].
Qed.

Lemma length_append s t : String.length (s +:+ t) = (String.length s + String.length t)%nat.
Proof.
  induction s as [|a s IH]; [done|].
  change (S (String.length (s +:+ t)) = S (String.length s + String.length t)).
  by rewrite IH.
Qed.

Lemma walkDirectories_inv enable cpus w0 directories : forall currentPath st r st',
  walkInv w0 (String.length currentPath) st ->
  walkDirectories enable cpus directories currentPath st = (r, st') ->
  exists n, walkInv w0 n st'.
Proof.
  induction directories as [|d rest IH]; intros currentPath st r st' Hinv Hrun.
  - injection Hrun as <- <-. by eexists.
  - cbn [walkDirectories] in Hrun.
    destruct (decide (d = "")) as [->|Hd]; [by eapply IH|].
    set (cp := currentPath +:+ "/" +:+ d) in *.
    assert (String.length currentPath < String.length cp)%nat as Hlen.
    { unfold cp. rewrite !length_append. cbn. lia. }
    destruct st as [vfr w]. destruct Hinv as (Hf & Hrec & Hframe). cbn [fst snd] in *.
    (* the [cpuset.cpus] step *)
    rewrite bind_run in Hrun.
    assert (exists r1 w1,
      when (negb enable)
        (inWorld (addOrRemoveCpusetFromFile cp "cpuset.cpus" cpus (negb enable));; mret ())
        (vfr, w) = (r1, (vfr, w1))
      /\ fault w1 = fault w
      /\ forall dir, files w1 !! exclusiveFile dir = files w !! exclusiveFile dir)
      as (r1 & w1 & E1 & Hf1 & Hsame1).
    { destruct enable; cbn [negb when].
      - by exists (Ret ()), w.
      - rewrite bind_run. unfold inWorld. cbn [fst snd].
        destruct (addOrRemoveCpusetFromFile cp "cpuset.cpus" cpus true w)
          as [r1 w1] eqn:E.
        apply addOrRemoveCpusetFromFile_spec in E as [Hf1 Hfiles].
        destruct r1 as [val|e|p].
        + destruct Hfiles as [_ [data Hfiles]]. exists (Ret ()), w1.
          split; [done|]. split; [done|]. intros dir. rewrite Hfiles.
          rewrite lookup_insert_ne; [done|]. intros E. by apply (exclusiveFile_ne_cpus dir cp).
        + exists (Fail e), w1. rewrite Hfiles. done.
        + exists (Panic p), w1. rewrite Hfiles. done. }
    rewrite E1 in Hrun.
    assert (walkInv w0 (String.length currentPath) (vfr, w1)) as Hinv1.
    { split; [cbn; congruence|]. split.
      - intros dir val Hdir. destruct (Hrec dir val Hdir) as (? & ? & ?).
        cbn. by rewrite Hsame1.
      - intros dir Hdir. cbn. rewrite Hsame1. by apply Hframe. }
    destruct r1 as [[]|e|p]; [|injection Hrun as <- <-; by eexists..].
    clear E1 Hf Hrec Hframe Hsame1 Hf1. destruct Hinv1 as (Hf & Hrec & Hframe).
    cbn [fst snd] in *.
    (* the [cpuset.cpus.exclusive] step *)
    rewrite bind_run in Hrun. unfold inWorld at 1 in Hrun. cbn [fst snd] in Hrun.
    destruct (addOrRemoveCpusetFromFile cp "cpuset.cpus.exclusive" cpus (negb enable) w1)
      as [r2 w2] eqn:E2.
    apply addOrRemoveCpusetFromFile_spec in E2 as [Hf2 Hfiles].
    assert (vfr !! cp = None) as Hfresh.
    { destruct (vfr !! cp) as [v|] eqn:E; [|done].
      destruct (Hrec cp v E) as (_ & _ & ?). lia. }
    destruct r2 as [val|e|p].
    + destruct Hfiles as [Hval [data Hfiles]].
      rewrite bind_run in Hrun. cbn [setRevert fst snd] in Hrun.
      eapply (IH cp); [|exact Hrun].
      split; [cbn; congruence|]. cbn [fst snd]. split.
      * intros dir v Hdir. destruct (decide (dir = cp)) as [->|Hne].
        -- rewrite lookup_insert_eq in Hdir. injection Hdir as <-.
           split; [|split; [|done]].
           ++ rewrite <- (Hframe cp Hfresh). exact Hval.
           ++ rewrite Hfiles. fold (exclusiveFile cp). rewrite lookup_insert_eq. by eexists.
        -- rewrite lookup_insert_ne in Hdir by done.
           destruct (Hrec dir v Hdir) as (? & ? & ?).
           split; [done|]. split; [|lia].
           rewrite Hfiles. rewrite lookup_insert_ne; [done|].
           intros E. by apply exclusiveFile_inj in E.
      * intros dir Hdir. destruct (decide (dir = cp)) as [->|Hne].
        -- by rewrite lookup_insert_eq in Hdir.
        -- rewrite lookup_insert_ne in Hdir by done.
           rewrite Hfiles. rewrite lookup_insert_ne; [by apply Hframe|].
           intros E. by apply exclusiveFile_inj in E.
    + injection Hrun as <- <-. exists (String.length currentPath).
      split; [cbn; congruence|]. cbn [fst snd]. rewrite Hfiles. by split.
    + injection Hrun as <- <-. exists (String.length currentPath).
      split; [cbn; congruence|]. cbn [fst snd]. rewrite Hfiles. by split.
Qed.


Lemma cgroups_WriteFile_spec dir file data w r w' :
  cgroups_WriteFile dir file data w = (r, w') ->
  fault w' = fault w /\
  match r with
  | Ret _ =>
      is_Some (files w !! cgroupFile dir file) /\
      fault w (OpWrite (cgroupFile dir file) data) = None /\
      w' = setFiles (<[cgroupFile dir file := data]> (files w))
             (record (OpWrite (cgroupFile dir file) data) w)
  | Fail e =>
      w' = record (OpWrite (cgroupFile dir file) data) w /\
      match files w !! cgroupFile dir file with
      | Some _ => fault w (OpWrite (cgroupFile dir file) data) = Some e
      | None => e = ErrNotExist (cgroupFile dir file)
      end
  | Panic _ => False
  end.
Proof.
  unfold cgroups_WriteFile. cbn.
  destruct (files w !! cgroupFile dir file) as [old|]; [|by intros [= <- <-]].
  destruct (fault w _) as [e|] eqn:Hfault; intros [= <- <-]; [done|].
  repeat split; by eauto.
Qed.

Lemma walkInv_start w : walkInv w 0 (∅, w).
Proof. split; [done|]. split; [|done]. cbn. intros dir val. by rewrite lookup_empty. Qed.

Lemma levels_inv c enable w r st' :
  setCPULoadBalancingV2_levels c enable (∅, w) = (r, st') ->
  exists n, walkInv w n st'.
Proof.
  unfold setCPULoadBalancingV2_levels. rewrite bind_run.
  unfold inWorld at 1. rewrite c_Spec_run. cbn [fst snd].
  rewrite bind_run. unfold lift at 1.
  destruct (linuxCPU _) as [cpuRes| |];
    [|intros [= <- <-]; exists 0%nat; apply walkInv_start..].
  rewrite bind_run. unfold lift at 1.
  destruct (CPUSet.Parse _) as [cpus| |];
    [|intros [= <- <-]; exists 0%nat; apply walkInv_start..].
  rewrite bind_run. unfold inWorld at 1. cbn [fst snd].
  pose proof (cpusetOfContainer_world c w) as Hw.
  destruct (cpusetOfContainer c w) as [[cpusetPath| |] w1]; cbn in Hw; subst w1;
    [|intros [= <- <-]; exists 0%nat; apply walkInv_start..].
  rewrite bind_run.
  destruct (walkDirectories _ _ _ _ _) as [r1 st1] eqn:Hwalk.
  apply walkDirectories_inv with (w0 := w) in Hwalk;
    [|eapply walkInv_mono; [|apply walkInv_start]; lia].
  destruct r1 as [[]| |]; by intros [= <- <-].
Qed.

Lemma body_inv c enable w r st' :
  setCPULoadBalancingV2_body c enable (∅, w) = (r, st') ->
  r <> Ret () -> exists n, walkInv w n st'.
Proof.
  unfold setCPULoadBalancingV2_body. rewrite bind_run.
  destruct (setCPULoadBalancingV2_levels c enable (∅, w)) as [r1 [vfr w1]] eqn:Hlevels.
  apply levels_inv in Hlevels as [n Hinv].
  destruct r1 as [cpusetPath| |]; [|intros [= <- <-] _; by eexists..].
  unfold setCPULoadBalancingV2_partition. rewrite bind_run.
  unfold attempt, inWorld. cbn [fst snd].
  destruct (cgroups_WriteFile _ _ _ w1) as [r2 w2] eqn:Hwrite.
  apply cgroups_WriteFile_spec in Hwrite as [Hf Hspec].
  destruct r2 as [[]|e|]; [| |done].
  - unfold mret, ST_ret. intros [= <- <-] Hne. by destruct Hne.
  - destruct Hspec as [-> _].
    destruct (os_IsNotExist e && enable); unfold mret, ST_ret, fail;
      intros [= <- <-] Hne; [congruence|].
    exists n. destruct Hinv as (Hf' & Hrec & Hframe).
    split; [exact Hf'|]. split; [exact Hrec|exact Hframe].
Qed.

(** The rollback: every entry whose write goes through gets its
    value back; nothing but the [cpuset.cpus.exclusive] files of the
    entries is written. *)
Lemma revertValues_spec entries : forall w,
  NoDup entries.*1 ->
  (revertValues entries w).1 = Ret () /\
  fault (revertValues entries w).2 = fault w /\
  (forall key, (forall dir, dir ∈ entries.*1 -> key <> exclusiveFile dir) ->
     files (revertValues entries w).2 !! key = files w !! key) /\
  (forall dir val, (dir, val) ∈ entries ->
     is_Some (files w !! exclusiveFile dir) ->
     fault w (OpWrite (exclusiveFile dir) val) = None ->
     files (revertValues entries w).2 !! exclusiveFile dir = Some val).
Proof.
  induction entries as [|[path val] rest IH]; intros w Hnodup.
  - split; [done|]. split; [done|]. split; [done|].
    intros dir val Hin. by apply elem_of_nil in Hin.
  - apply NoDup_cons in Hnodup as [Hnotin Hnodup]. cbn [fmap list_fmap fst] in Hnotin.
    assert (exists w1,
      revertValues ((path, val) :: rest) w = revertValues rest w1
      /\ fault w1 = fault w
      /\ (forall key, key <> exclusiveFile path -> files w1 !! key = files w !! key)
      /\ (forall key, is_Some (files w !! key) -> is_Some (files w1 !! key))
      /\ (is_Some (files w !! exclusiveFile path) ->
          fault w (OpWrite (exclusiveFile path) val) = None ->
          files w1 !! exclusiveFile path = Some val))
      as (w1 & -> & Hf1 & Hframe1 & Hsome1 & Hwritten1).
    { cbn [revertValues]. rewrite bind_run. unfold attempt.
      destruct (cgroups_WriteFile path "cpuset.cpus.exclusive" val w) as [r w1] eqn:Hwrite.
      apply cgroups_WriteFile_spec in Hwrite as [Hf Hspec].
      fold (exclusiveFile path) in Hspec.
      destruct r as [[]|e|]; [| |done].
      - destruct Hspec as (Hsome & Hfault & ->). eexists. split; [reflexivity|]. cbn.
        split; [done|]. split; [|split].
        + intros key Hkey. by rewrite lookup_insert_ne.
        + intros key Hkey. destruct (decide (exclusiveFile path = key)) as [<-|Hne].
          * rewrite lookup_insert_eq. by eexists.
          * by rewrite lookup_insert_ne.
        + intros _ _. by rewrite lookup_insert_eq.
      - destruct Hspec as [-> Hwhy]. eexists. split; [reflexivity|]. cbn.
        split; [done|]. split; [done|]. split; [done|].
        intros [old Hold] Hnofault. rewrite Hold in Hwhy. congruence. }
    destruct (IH w1 Hnodup) as (Hret & Hf & Hframe & Hwritten).
    split; [done|]. split; [congruence|]. split.
    + intros key Hkey. rewrite Hframe.
      * apply Hframe1, Hkey. cbn. by left.
      * intros dir Hdir. apply Hkey. cbn. by right.
    + intros dir v Hin Hsome Hnofault.
      apply elem_of_cons in Hin as [[= -> ->]|Hin].
      * rewrite Hframe; [by apply Hwritten1|].
        intros dir Hdir E. apply exclusiveFile_inj in E as ->. done.
      * apply Hwritten; [done|by apply Hsome1|by rewrite Hf1].
Qed.


Lemma inWorld_fst {A} (c : M A) st : (inWorld c st).2.1 = st.1.
Proof. unfold inWorld. by destruct (c st.2). Qed.

(** The walk records the levels in order: when it stops, the recorded
    directories are the first [k] levels, all of them if it succeeded. *)
Lemma walkDirectories_recorded enable cpus directories : forall currentPath st r st',
  walkDirectories enable cpus directories currentPath st = (r, st') ->
  exists k : nat,
    (k <= length (levelPaths directories currentPath))%nat /\
    dom st'.1 = dom st.1 ∪ list_to_set (take k (levelPaths directories currentPath)) /\
    (r = Ret () -> k = length (levelPaths directories currentPath)).
Proof.
  induction directories as [|d rest IH]; intros currentPath st r st' Hrun.
  - injection Hrun as <- <-. exists 0%nat. cbn. split; [done|].
    split; [by rewrite (right_id_L ∅ (∪))|done].
  - cbn [walkDirectories levelPaths] in *.
    destruct (decide (d = "")) as [->|Hd]; [by eapply IH|].
    set (cp := currentPath +:+ "/" +:+ d) in *.
    assert (forall (r0 : outcome ()) (st0 : gmap string string * World),
              st0.1 = st.1 -> r0 <> Ret () ->
              exists k : nat,
                (k <= length (cp :: levelPaths rest cp))%nat /\
                dom st0.1 = dom st.1 ∪ list_to_set (take k (cp :: levelPaths rest cp)) /\
                (r0 = Ret () -> k = length (cp :: levelPaths rest cp))) as Hstop.
    { intros r0 st0 Hst0 Hr0. exists 0%nat. cbn. split; [lia|]. rewrite Hst0.
      split; [by rewrite (right_id_L ∅ (∪))|done]. }
    rewrite bind_run in Hrun.
    destruct (when (negb enable) _ st) as [r1 st1] eqn:E1.
    assert (st1.1 = st.1) as Hst1.
    { destruct enable; cbn [negb when] in E1.
      - by injection E1 as <- <-.
      - rewrite bind_run in E1.
        pose proof (inWorld_fst (addOrRemoveCpusetFromFile cp "cpuset.cpus" cpus true) st) as Hfst.
        destruct (inWorld _ st) as [[?| |] st2]; cbn in Hfst; injection E1 as <- <-; done. }
    destruct r1 as [[]|e|p]; [|injection Hrun as <- <-; by apply Hstop..].
    rewrite bind_run in Hrun.
    pose proof (inWorld_fst
      (addOrRemoveCpusetFromFile cp "cpuset.cpus.exclusive" cpus (negb enable)) st1) as Hfst.
    destruct (inWorld _ st1) as [[val|e|p] st2]; cbn [fst snd] in Hfst;
      [|injection Hrun as <- <-; apply Hstop; [congruence|done]..].
    rewrite bind_run in Hrun. cbn [setRevert] in Hrun.
    apply IH in Hrun as (k & Hk & Hdom & Hall). cbn [fst snd] in Hdom.
    exists (S k). cbn [length take]. split; [lia|]. split.
    + rewrite Hdom, dom_insert_L, Hfst, Hst1. cbn [list_to_set].
      by rewrite (comm_L (∪) {[cp]} (dom st.1)), <- (assoc_L (∪)).
    + intros Hr. by rewrite Hall.
Qed.


Lemma levels_recorded c enable w r st' cpusetPath :
  setCPULoadBalancingV2_levels c enable (∅, w) = (r, st') ->
  cpusetOfContainer c w = (Ret cpusetPath, w) ->
  exists k : nat,
    (k <= length (levelPaths (GoStrings.Split cpusetPath "/") "/sys/fs/cgroup"))%nat /\
    dom st'.1
    = list_to_set (take k (levelPaths (GoStrings.Split cpusetPath "/") "/sys/fs/cgroup")).
Proof.
  intros Hrun Hpath.
  assert (forall (r0 : outcome string) (w0 : World), (r0, (∅ : gmap string string, w0)) = (r, st') ->
            exists k : nat,
              (k <= length (levelPaths (GoStrings.Split cpusetPath "/") "/sys/fs/cgroup"))%nat /\
              dom st'.1
              = list_to_set (take k (levelPaths (GoStrings.Split cpusetPath "/") "/sys/fs/cgroup")))
    as Hnone.
  { intros r0 w0 [= <- <-]. exists 0%nat. split; [lia|]. cbn. by rewrite dom_empty_L. }
  revert Hrun. unfold setCPULoadBalancingV2_levels. rewrite bind_run.
  unfold inWorld at 1. rewrite c_Spec_run. cbn [fst snd].
  rewrite bind_run. unfold lift at 1.
  destruct (linuxCPU _) as [cpuRes| |]; [|by apply Hnone..].
  rewrite bind_run. unfold lift at 1.
  destruct (CPUSet.Parse _) as [cpus| |]; [|by apply Hnone..].
  rewrite bind_run. unfold inWorld at 1. cbn [fst snd]. rewrite Hpath.
  rewrite bind_run.
  destruct (walkDirectories _ _ _ _ _) as [r1 st1] eqn:Hwalk.
  apply walkDirectories_recorded in Hwalk as (k & Hk & Hdom & _).
  cbn [fst] in Hdom. rewrite dom_empty_L, (left_id_L ∅ (∪)) in Hdom.
  destruct r1 as [[]| |]; intros [= <- <-]; by exists k.
Qed.


Lemma body_recorded c enable w r st' cpusetPath :
  setCPULoadBalancingV2_body c enable (∅, w) = (r, st') ->
  cpusetOfContainer c w = (Ret cpusetPath, w) ->
  exists k : nat,
    (k <= length (levelPaths (GoStrings.Split cpusetPath "/") "/sys/fs/cgroup"))%nat /\
    dom st'.1
    = list_to_set (take k (levelPaths (GoStrings.Split cpusetPath "/") "/sys/fs/cgroup")).
Proof.
  unfold setCPULoadBalancingV2_body. rewrite bind_run. intros Hrun Hpath.
  destruct (setCPULoadBalancingV2_levels c enable (∅, w)) as [r1 st1] eqn:Hlevels.
  apply levels_recorded with (cpusetPath := cpusetPath) in Hlevels as (k & Hk & Hdom);
    [|done].
  exists k. split; [done|]. rewrite <- Hdom. f_equal.
  destruct r1 as [p| |]; [|by injection Hrun as <- <-..].
  revert Hrun. unfold setCPULoadBalancingV2_partition. rewrite bind_run.
  unfold attempt.
  pose proof (inWorld_fst
    (cgroups_WriteFile (GoPath.Join ["/sys/fs/cgroup"; p]) "cpuset.cpus.partition" "isolated")
    st1) as Hfst.
  destruct (inWorld _ st1) as [[[]|err|] st2]; cbn [fst snd] in Hfst.
  - unfold mret, ST_ret. by intros [= <- <-].
  - destruct (os_IsNotExist err && enable); unfold mret, ST_ret, fail; by intros [= <- <-].
  - by intros [= <- <-].
Qed.

(** C1.  When [setCPULoadBalancingV2] fails, the error it returns is the
    error of the step of the body that failed (a failure of the rollback is
    only logged).  The directories recorded in [valuesForRevert] at that
    point are the first [k] levels of the hierarchy, those above the
    failing step.  Each of them is rolled back: the recorded value is the
    content its [cpuset.cpus.exclusive] had before the call, and the file
    holds it again afterwards, provided the environment accepts the
    write-back (the rollback is best-effort).  The [cpuset.cpus.exclusive]
    of every other directory is as before the call. *)
Theorem setCPULoadBalancingV2_rollback (c : Container) (enable : bool) (w w' : World)
    (e : error) :
  setCPULoadBalancingV2 c enable w = (Fail e, w') ->
  exists valuesForRevert w1,
    setCPULoadBalancingV2_body c enable (∅, w) = (Fail e, (valuesForRevert, w1))
    /\ (forall cpusetPath, cpusetOfContainer c w = (Ret cpusetPath, w) ->
          let levels := levelPaths (GoStrings.Split cpusetPath "/") "/sys/fs/cgroup" in
          exists k : nat,
            (k <= length levels)%nat /\ dom valuesForRevert = list_to_set (take k levels))
    /\ (forall dir val, valuesForRevert !! dir = Some val ->
          files w !! exclusiveFile dir = Some val
          /\ (fault w (OpWrite (exclusiveFile dir) val) = None ->
              files w' !! exclusiveFile dir = Some val))
    /\ (forall dir, valuesForRevert !! dir = None ->
          files w' !! exclusiveFile dir = files w !! exclusiveFile dir).
Proof.
  unfold setCPULoadBalancingV2.
  destruct (setCPULoadBalancingV2_body c enable (∅, w)) as [r [vfr w1]] eqn:Hbody.
  destruct r as [[]|e'|p]; [done| |done]. intros [= -> <-].
  exists vfr, w1. split; [done|].
  split; [intros cpusetPath Hpath; exact (body_recorded _ _ _ _ _ _ Hbody Hpath)|].
  apply body_inv in Hbody as [n (Hf & Hrec & Hframe)]; [|done]. cbn [fst snd] in *.
  assert (NoDup (rangeOrder vfr).*1) as Hnodup.
  { rewrite (rangeOrder_perm vfr). apply NoDup_fst_map_to_list. }
  destruct (revertValues_spec (rangeOrder vfr) w1 Hnodup) as (_ & _ & Hkeep & Hback).
  split.
  - intros dir val Hdir. destruct (Hrec dir val Hdir) as (Hval & Hsome & _).
    split; [done|]. intros Hnofault. apply Hback; [|done|congruence].
    rewrite (rangeOrder_perm vfr). by apply elem_of_map_to_list.
  - intros dir Hdir. rewrite Hkeep; [by apply Hframe|].
    intros dir' Hin E. apply exclusiveFile_inj in E as <-.
    rewrite (rangeOrder_perm vfr) in Hin.
    apply list_elem_of_fmap in Hin as ([d v] & -> & Hin).
    apply elem_of_map_to_list in Hin. cbn in Hdir. congruence.
Qed.

(** C2, as the code has it.  On re-enable ([enable = true]), once the
    per-level removals have succeeded, the write of [isolated] to the
    leaf's [cpuset.cpus.partition] is still attempted, as the last
    operation of the call.  If the file no longer exists the call returns
    nil (and nothing is rolled back); if the write goes through the file
    reads [isolated] and the call returns nil; if the environment rejects
    it, a not-exist error is swallowed as well and any other error is
    returned after the rollback. *)
Theorem reenable_still_writes_partition (c : Container) (w w1 : World)
    (cpusetPath : string) (valuesForRevert : gmap string string) :
  setCPULoadBalancingV2_levels c true (∅, w) = (Ret cpusetPath, (valuesForRevert, w1)) ->
  let partition :=
    cgroupFile (GoPath.Join ["/sys/fs/cgroup"; cpusetPath]) "cpuset.cpus.partition" in
  let w2 := record (OpWrite partition "isolated") w1 in
  (files w1 !! partition = None ->
   setCPULoadBalancingV2 c true w = (Ret (), w2))
  /\ (is_Some (files w1 !! partition) ->
      fault w1 (OpWrite partition "isolated") = None ->
      setCPULoadBalancingV2 c true w
      = (Ret (), setFiles (<[partition := "isolated"]> (files w1)) w2))
  /\ (forall e, is_Some (files w1 !! partition) ->
      fault w1 (OpWrite partition "isolated") = Some e ->
      setCPULoadBalancingV2 c true w
      = if os_IsNotExist e then (Ret (), w2)
        else (Fail e, (revertValues (rangeOrder valuesForRevert) w2).2)).
Proof.
  intros Hlevels partition w2.
  unfold setCPULoadBalancingV2, setCPULoadBalancingV2_body.
  rewrite bind_run, Hlevels.
  unfold setCPULoadBalancingV2_partition. rewrite bind_run.
  unfold attempt, inWorld, cgroups_WriteFile. cbn [fst snd].
  fold partition. cbn [record fault files]. fold w2.
  repeat split.
  - intros ->. reflexivity.
  - intros [old ->] ->. reflexivity.
  - intros e [old ->] ->. cbn. rewrite andb_true_r. by destruct (os_IsNotExist e).
Qed.

End HookProperties.

(* ===================================================================== *)
(** ** Further properties of the hooks                                    *)
(* ===================================================================== *)

Section MoreProperties.
Context `{Collaborators}.

(** *** The read-modify-write of a cpuset file *)

Lemma Atoi_no_panic s p : CPUSet.Atoi s <> Panic p.
Proof.
  unfold CPUSet.Atoi. destruct s as [|c s]; [done|].
  destruct (decide (c = "+"%char)), (decide (c = "-"%char));
    repeat (case_decide || case_match); done.
Qed.

Lemma parseRange_no_panic r acc p : CPUSet.parseRange r acc <> Panic p.
Proof.
  unfold CPUSet.parseRange.
  destruct (GoStrings.SplitN2 r "-") as [|s1 [|s2 [|]]]; [done| | |done].
  - destruct (CPUSet.Atoi s1) eqn:E; cbn; [done|done|by apply Atoi_no_panic in E].
  - destruct (CPUSet.Atoi s1) eqn:E1; cbn; [|done|by apply Atoi_no_panic in E1].
    destruct (CPUSet.Atoi s2) eqn:E2; cbn; [|done|by apply Atoi_no_panic in E2].
    by case_decide.
Qed.

Lemma Parse_no_panic s p : CPUSet.Parse s <> Panic p.
Proof.
  unfold CPUSet.Parse. destruct (decide (s = "")); [done|].
  assert (forall l acc, acc <> Panic p ->
            foldl (fun acc r => obind acc (CPUSet.parseRange r)) acc l <> Panic p) as Hfold.
  { induction l as [|x l IH]; intros acc Hacc; [done|].
    cbn [foldl]. apply IH. destruct acc as [a| |]; cbn; [|done|done].
    apply parseRange_no_panic. }
  by apply Hfold.
Qed.

(** X1.  [addOrRemoveCpusetFromFile] returns the content the file had,
    and leaves in it the canonical form of that content's set with the CPUs
    added or removed; when it fails, for any reason, no file has changed.
    It never touches another file, never creates one, and never panics. *)
Theorem addOrRemoveCpusetFromFile_contract (path file : string) (cpus : CPUSet.t)
    (add : bool) (w w' : World) (r : outcome string) :
  addOrRemoveCpusetFromFile path file cpus add w = (r, w') ->
  (forall other, other <> cgroupFile path file -> files w' !! other = files w !! other)
  /\ match r with
     | Ret old =>
         files w !! cgroupFile path file = Some old
         /\ exists new, targetCpus old cpus add = Ret new
                        /\ files w' !! cgroupFile path file = Some new
     | Fail _ => files w' = files w
     | Panic _ => False
     end.
Proof.
  unfold addOrRemoveCpusetFromFile, cgroups_ReadFile, os_ReadFile, targetCpus.
  rewrite bind_run.
  destruct (files w !! cgroupFile path file) as [content|] eqn:Hfile;
    [|by intros [= <- <-]].
  destruct (fault w (OpRead _)); [by intros [= <- <-]|].
  rewrite bind_run. unfold lift at 1.
  destruct (CPUSet.Parse (GoStrings.TrimSpace content)) as [current|e|p] eqn:Hparse.
  - rewrite bind_run. unfold cgroups_WriteFile. cbn. rewrite Hfile.
    destruct (fault w (OpWrite _ _)); cbn; intros Hrun.
    + by injection Hrun as <- <-.
    + unfold mret, ST_ret in Hrun. injection Hrun as <- <-. cbn. split.
      * intros other Hother. by rewrite lookup_insert_ne.
      * split; [done|]. rewrite Hparse. eexists. split; [reflexivity|].
        by rewrite lookup_insert_eq.
  - by intros [= <- <-].
  - by apply Parse_no_panic in Hparse.
Qed.

(** *** Which containers the quota applies to *)

Lemma shouldBeDisabled_run key annotations w :
  exists w', shouldBeDisabled key annotations w
             = (Ret (bool_decide (annotation annotations key = annotationTrue)
                     || bool_decide (annotation annotations key = annotationDisable)), w')
             /\ untouched w w' /\ logs w `suffix_of` logs w'.
Proof.
  unfold shouldBeDisabled. rewrite bind_run. unfold when.
  destruct (bool_decide (annotation annotations key = annotationTrue));
    eexists; (split; [reflexivity|]); (split; [by repeat split|]); cbn.
  - by apply suffix_cons_r.
  - done.
Qed.

Lemma shouldRunHooks_untouched id spec s w r w' :
  shouldRunHooks id spec s w = (r, w') -> untouched w w'.
Proof.
  unfold shouldRunHooks.
  destruct (isCgroupParentBurstable s); [by intros [= <- <-]|].
  destruct (isCgroupParentBestEffort s); [by intros [= <- <-]|].
  rewrite bind_run. unfold lift.
  destruct (isContainerRequestWholeCPU spec) as [[]| |]; by intros [= <- <-].
Qed.

Lemma shouldRunHooks_true id spec s w w' :
  shouldRunHooks id spec s w = (Ret true, w') <->
  w' = w /\ isCgroupParentBurstable s = false /\ isCgroupParentBestEffort s = false
  /\ isContainerRequestWholeCPU spec = Ret true.
Proof.
  unfold shouldRunHooks. split.
  - destruct (isCgroupParentBurstable s); [by intros [= <-]|].
    destruct (isCgroupParentBestEffort s); [by intros [= <-]|].
    rewrite bind_run. unfold lift.
    destruct (isContainerRequestWholeCPU spec) as [[]| |]; by intros [= <-].
  - intros (-> & -> & -> & Hw). rewrite bind_run. unfold lift. by rewrite Hw.
Qed.

(** X2.  [ShouldCPUQuotaBeDisabled] answers [true] exactly for a container
    that the hooks would run for (a pod that is neither burstable nor
    best-effort, CPU shares a multiple of 1024) and whose annotation set
    carries the quota annotation with the value [true] or [disable].
    Whatever it answers, it touches nothing: it only logs. *)
Theorem ShouldCPUQuotaBeDisabled_iff (cid : string) (cSpec : Spec) (s : Sandbox)
    (annotations : gmap string string) (w w' : World) (r : outcome bool) :
  ShouldCPUQuotaBeDisabled cid cSpec s annotations w = (r, w') ->
  untouched w w'
  /\ (r = Ret true <->
      isCgroupParentBurstable s = false
      /\ isCgroupParentBestEffort s = false
      /\ isContainerRequestWholeCPU cSpec = Ret true
      /\ (annotation annotations CPUQuotaAnnotation = annotationTrue
          \/ annotation annotations CPUQuotaAnnotation = annotationDisable)).
Proof.
  unfold ShouldCPUQuotaBeDisabled. rewrite bind_run.
  destruct (shouldRunHooks cid cSpec s w) as [run w1] eqn:Hrun.
  pose proof (shouldRunHooks_untouched _ _ _ _ _ _ Hrun) as Hu.
  destruct run as [[|]|e|p].
  - apply shouldRunHooks_true in Hrun as (-> & Hb & He & Hw). cbn [negb].
    destruct (shouldBeDisabled_run CPUQuotaAnnotation annotations w) as (w2 & -> & Hu2 & _).
    intros [= <- <-]. split; [done|]. split.
    + intros [= Hor]. apply orb_true_iff in Hor.
      repeat split; [done..|].
      destruct Hor as [Hor|Hor]; apply bool_decide_eq_true in Hor; [by left|by right].
    + intros (_ & _ & _ & Hor). f_equal. apply orb_true_iff.
      destruct Hor as [Hor|Hor]; [left|right]; by apply bool_decide_eq_true.
  - cbn [negb]. intros [= <- <-]. split; [done|]. split; [done|].
    intros (Hb & He & Hw & _).
    assert (shouldRunHooks cid cSpec s w = (Ret true, w)) as Hyes
      by (apply shouldRunHooks_true; done).
    congruence.
  - intros [= <- <-]. split; [done|]. split; [done|].
    intros (Hb & He & Hw & _).
    assert (shouldRunHooks cid cSpec s w = (Ret true, w)) as Hyes
      by (apply shouldRunHooks_true; done).
    congruence.
  - intros [= <- <-]. split; [done|]. split; [done|].
    intros (Hb & He & Hw & _).
    assert (shouldRunHooks cid cSpec s w = (Ret true, w)) as Hyes
      by (apply shouldRunHooks_true; done).
    congruence.
Qed.

(** *** Hooks on a pod without directives *)

Lemma shouldBeDisabled_off key annotations :
  annotation annotations key <> annotationTrue ->
  annotation annotations key <> annotationDisable ->
  shouldBeDisabled key annotations = mret false.
Proof.
  intros Ht Hd. unfold shouldBeDisabled.
  by rewrite !bool_decide_eq_false_2 by done.
Qed.

(** X3.  [PreStart] acts on annotations only.  For a container the hooks
    run for, on a pod where the three disable-annotations have neither the
    value [true] nor [disable], shared CPUs are not requested for the
    container, and the C-state and governor annotations are absent,
    [PreStart] returns nil and touches nothing. *)
Theorem PreStart_without_directives (h : HighPerformanceHooks) (c : Container) (s : Sandbox)
    (w : World) :
  isCgroupParentBurstable s = false ->
  isCgroupParentBestEffort s = false ->
  isContainerRequestWholeCPU (specOf c w) = Ret true ->
  (forall key,
     key ∈ [CPULoadBalancingAnnotation; IRQLoadBalancingAnnotation; CPUQuotaAnnotation] ->
     annotation (Annotations s) key <> annotationTrue
     /\ annotation (Annotations s) key <> annotationDisable) ->
  requestedSharedCPUs (Annotations s) (ctrMetadataName c) = false ->
  Annotations s !! CPUCStatesAnnotation = None ->
  Annotations s !! CPUFreqGovernorAnnotation = None ->
  exists w1, PreStart h c s w = (Ret (), w1) /\ untouched w w1.
Proof.
  intros Hb He Hw Hoff Hshared Hcs Hgov.
  destruct (Hoff CPULoadBalancingAnnotation) as [Hlb1 Hlb2]; [by repeat constructor|].
  destruct (Hoff IRQLoadBalancingAnnotation) as [Hirq1 Hirq2]; [by repeat constructor|].
  destruct (Hoff CPUQuotaAnnotation) as [Hq1 Hq2]; [by repeat constructor|].
  eexists. split.
  - unfold PreStart. rewrite bind_run. cbn [logf].
    rewrite bind_run, c_Spec_run, bind_run.
    rewrite (shouldRunHooks_eligible _ _ _ _ Hb He) by exact Hw. cbn [negb].
    unfold configureCgroups, shouldCPULoadBalancingBeDisabled,
      shouldIRQLoadBalancingBeDisabled, shouldCPUQuotaBeDisabled.
    rewrite (shouldBeDisabled_off _ _ Hlb1 Hlb2), (shouldBeDisabled_off _ _ Hirq1 Hirq2),
      (shouldBeDisabled_off _ _ Hq1 Hq2), Hshared.
    unfold configureCStates, configureFreqGovernor, shouldCStatesBeConfigured,
      shouldFreqGovernorBeConfigured. rewrite Hcs, Hgov. reflexivity.
  - by repeat split.
Qed.

(** X4.  [PreStop] undoes IRQ balancing, load balancing, C-states and the
    governor, and nothing else: the quota and shared-CPU annotations play
    no part in it.  For a container the hooks run for, whatever those two
    say, when the IRQ and load-balancing annotations have neither the value
    [true] nor [disable] and the C-state and governor annotations are
    absent, [PreStop] returns nil and touches nothing. *)
Theorem PreStop_ignores_quota_and_shared_cpus (h : HighPerformanceHooks) (c : Container)
    (s : Sandbox) (w : World) :
  isCgroupParentBurstable s = false ->
  isCgroupParentBestEffort s = false ->
  isContainerRequestWholeCPU (specOf c w) = Ret true ->
  (forall key,
     key ∈ [CPULoadBalancingAnnotation; IRQLoadBalancingAnnotation] ->
     annotation (Annotations s) key <> annotationTrue
     /\ annotation (Annotations s) key <> annotationDisable) ->
  Annotations s !! CPUCStatesAnnotation = None ->
  Annotations s !! CPUFreqGovernorAnnotation = None ->
  exists w1, PreStop h c s w = (Ret (), w1) /\ untouched w w1.
Proof.
  intros Hb He Hw Hoff Hcs Hgov.
  destruct (Hoff CPULoadBalancingAnnotation) as [Hlb1 Hlb2]; [by repeat constructor|].
  destruct (Hoff IRQLoadBalancingAnnotation) as [Hirq1 Hirq2]; [by repeat constructor|].
  eexists. split.
  - unfold PreStop. rewrite bind_run. cbn [logf].
    rewrite bind_run, c_Spec_run, bind_run.
    rewrite (shouldRunHooks_eligible _ _ _ _ Hb He) by exact Hw. cbn [negb].
    unfold shouldCPULoadBalancingBeDisabled, shouldIRQLoadBalancingBeDisabled.
    rewrite (shouldBeDisabled_off _ _ Hlb1 Hlb2), (shouldBeDisabled_off _ _ Hirq1 Hirq2).
    unfold shouldCStatesBeConfigured, shouldFreqGovernorBeConfigured.
    rewrite Hcs, Hgov. reflexivity.
  - by repeat split.
Qed.

(** *** Load balancing on cgroup v1 *)

(** X5.  On a cgroup v1 node, re-enabling load balancing does nothing at
    all: [setCPULoadBalancing] with [enable] leaves the whole system as it
    is (the guard on the spec apart, it does not even fail).  Disabling
    writes [0] to the [cpuset.sched_load_balance] file of the container's
    cpuset cgroup and changes no other file; when it fails no file has
    changed. *)
Theorem setCPULoadBalancing_cgroup_v1 (c : Container) (enable : bool) (w w' : World)
    (r : outcome ()) :
  cgroupIsV2 w = false ->
  setCPULoadBalancing c enable w = (r, w') ->
  if enable then
    w' = w
    /\ r = if missingCPUs (SpecLinux (specOf c w))
           then Fail (ErrMsg ("find container " +:+ ctrID c +:+ " CPUs")) else Ret ()
  else
    match r with
    | Ret _ =>
        exists cpusetPath,
          cpusetOfContainer c w = (Ret cpusetPath, w)
          /\ is_Some (files w !! schedLoadBalanceFile cpusetPath)
          /\ files w' = <[schedLoadBalanceFile cpusetPath := "0"]> (files w)
    | _ => files w' = files w
    end.
Proof.
  intros Hv1. unfold setCPULoadBalancing.
  rewrite bind_run, c_Spec_run.
  destruct (missingCPUs (SpecLinux (specOf c w))).
  { intros [= <- <-]. by destruct enable. }
  rewrite bind_run. cbn [ask]. rewrite Hv1.
  destruct enable; cbn [negb].
  { by intros [= <- <-]. }
  unfold disableCPULoadBalancingV1. rewrite bind_run.
  pose proof (cpusetOfContainer_world c w) as Hw.
  destruct (cpusetOfContainer c w) as [[cpusetPath|e|p] w1]; cbn in Hw; subst w1;
    [|by intros [= <- <-]..].
  intros Hwrite. apply cgroups_WriteFile_spec in Hwrite as [_ Hwrite].
  destruct r as [[]|e|p].
  - destruct Hwrite as (Hsome & _ & ->). by exists cpusetPath.
  - by destruct Hwrite as [-> _].
  - done.
Qed.

(** *** Boot-time reconciliation of the irqbalance configuration *)

(** X6.  After a reboot (the live IRQ affinity mask has all bits set), when
    the current banned-CPU mask can be read from the irqbalance
    configuration and no backup file exists yet, [RestoreIrqBalanceConfig]
    creates the backup file holding exactly that mask, with one create and
    one write, and returns nil.  No other file changes: the configuration is
    not rewritten and the service is not restarted. *)
Theorem RestoreIrqBalanceConfig_first_boot (irqBalanceConfig bannedCPUConfig procFile : string)
    (w : World) (content : string) (mask : list Z) (bannedCPUMasks : string) :
  files w !! procFile = Some content ->
  fault w (OpRead procFile) = None ->
  mapHexCharToByte (GoStrings.ReplaceAll (GoStrings.TrimSpace content) "," "") = Ret mask ->
  isAllBitSet mask = true ->
  retrieveIrqBannedCPUMasks irqBalanceConfig w = Ret bannedCPUMasks ->
  fileExists bannedCPUConfig w = false ->
  fault w (OpCreate bannedCPUConfig) = None ->
  fault w (OpWrite bannedCPUConfig bannedCPUMasks) = None ->
  exists w',
    RestoreIrqBalanceConfig irqBalanceConfig bannedCPUConfig procFile w = (Ret (), w')
    /\ files w' = <[bannedCPUConfig := bannedCPUMasks]> (files w)
    /\ events w' = OpWrite bannedCPUConfig bannedCPUMasks :: OpCreate bannedCPUConfig
                   :: events w.
Proof.
  intros Hfile Hfault Hmask Hbits Hbanned Hexists Hcreate Hwrite. eexists.
  unfold RestoreIrqBalanceConfig.
  rewrite bind_run, (os_ReadFile_ok _ _ _ Hfile Hfault).
  rewrite bind_run. unfold lift at 1. rewrite Hmask, Hbits. cbn [negb].
  rewrite bind_run. unfold attempt, askOutcome. rewrite Hbanned.
  rewrite bind_run. cbn [ask]. rewrite Hexists. cbn [negb].
  rewrite bind_run. cbn [logf].
  rewrite bind_run. unfold os_Create. cbn [record fault addLog]. rewrite Hcreate.
  rewrite bind_run. unfold file_WriteString. cbn [record fault setFiles addLog]. rewrite Hwrite.
  cbn. split; [reflexivity|]. cbn. split; [|done].
  rewrite lookup_insert_eq. cbn. by rewrite insert_insert_eq.
Qed.

(** X7.  After a reboot, when a backup file exists whose content differs
    from the banned-CPU mask currently configured, the mask of the backup
    is written back into the irqbalance configuration; if that fails the
    error is returned, and once it has succeeded the call returns nil
    whether the service is enabled or not and whether its restart works or
    fails: a failed restart is only logged. *)
Theorem RestoreIrqBalanceConfig_restores (irqBalanceConfig bannedCPUConfig procFile : string)
    (w : World) (content : string) (mask : list Z) (bannedCPUMasks saved : string) :
  files w !! procFile = Some content ->
  fault w (OpRead procFile) = None ->
  mapHexCharToByte (GoStrings.ReplaceAll (GoStrings.TrimSpace content) "," "") = Ret mask ->
  isAllBitSet mask = true ->
  retrieveIrqBannedCPUMasks irqBalanceConfig w = Ret bannedCPUMasks ->
  fileExists bannedCPUConfig w = true ->
  files w !! bannedCPUConfig = Some saved ->
  fault w (OpRead bannedCPUConfig) = None ->
  bannedCPUMasks <> GoStrings.TrimSpace saved ->
  let w0 := addLog ("Restore irqbalance banned CPU list in " +:+ irqBalanceConfig
                    +:+ " to " +:+ GoStrings.TrimSpace saved) w in
  let updated := updateIrqBalanceConfigFile irqBalanceConfig (GoStrings.TrimSpace saved) w0 in
  let result := RestoreIrqBalanceConfig irqBalanceConfig bannedCPUConfig procFile w in
  match updated.1 with
  | Ret _ =>
      (forall p, (restartIrqBalanceService updated.2).1 <> Panic p) ->
      result.1 = Ret ()
      /\ (isServiceEnabled irqBalancedName updated.2 = false -> result.2 = updated.2)
  | Fail e => result = (Fail e, updated.2)
  | Panic p => result = (Panic p, updated.2)
  end.
Proof.
  intros Hfile Hfault Hmask Hbits Hbanned Hexists Hsaved Hread Hne w0 updated result.
  assert (result =
          (updateIrqBalanceConfigFile irqBalanceConfig (GoStrings.TrimSpace saved);;
           enabled ← ask (isServiceEnabled irqBalancedName);
           when enabled
             (restarted ← attempt restartIrqBalanceService;
              match restarted with
              | inl err => logf "Irqbalance service restart failed"
              | inr _ => mret ()
              end)) w0) as ->.
  { subst result. unfold RestoreIrqBalanceConfig.
    rewrite bind_run, (os_ReadFile_ok _ _ _ Hfile Hfault).
    rewrite bind_run. unfold lift at 1. rewrite Hmask, Hbits. cbn [negb].
    rewrite bind_run. unfold attempt at 1, askOutcome. rewrite Hbanned.
    rewrite bind_run. cbn [ask]. rewrite Hexists. cbn [negb].
    rewrite bind_run, (os_ReadFile_ok _ _ _ Hsaved Hread).
    rewrite bool_decide_eq_false_2 by done.
    rewrite bind_run. cbn [logf]. reflexivity. }
  rewrite bind_run. fold updated.
  destruct updated as [[[]|e|p] w1]; cbn [fst snd]; [|done..].
  intros Hnopanic. rewrite bind_run. cbn [ask].
  destruct (isServiceEnabled irqBalancedName w1); cbn [when].
  - rewrite bind_run. unfold attempt.
    destruct (restartIrqBalanceService w1) as [[[]|e|p] w2] eqn:Hrestart;
      cbn in *; try done.
    by destruct (Hnopanic p).
  - done.
Qed.

(** X8.  After a reboot, [RestoreIrqBalanceConfig] returns nil and touches
    nothing when the banned-CPU mask cannot be read from the irqbalance
    configuration (the file may not exist), and when the backup file
    already holds the mask that is configured. *)
Theorem RestoreIrqBalanceConfig_nothing_to_do
    (irqBalanceConfig bannedCPUConfig procFile : string)
    (w : World) (content : string) (mask : list Z) :
  files w !! procFile = Some content ->
  fault w (OpRead procFile) = None ->
  mapHexCharToByte (GoStrings.ReplaceAll (GoStrings.TrimSpace content) "," "") = Ret mask ->
  isAllBitSet mask = true ->
  (exists e, retrieveIrqBannedCPUMasks irqBalanceConfig w = Fail e)
  \/ (exists saved,
        retrieveIrqBannedCPUMasks irqBalanceConfig w = Ret (GoStrings.TrimSpace saved)
        /\ fileExists bannedCPUConfig w = true
        /\ files w !! bannedCPUConfig = Some saved
        /\ fault w (OpRead bannedCPUConfig) = None) ->
  exists w',
    RestoreIrqBalanceConfig irqBalanceConfig bannedCPUConfig procFile w = (Ret (), w')
    /\ untouched w w'.
Proof.
  intros Hfile Hfault Hmask Hbits Hcase.
  unfold RestoreIrqBalanceConfig.
  rewrite bind_run, (os_ReadFile_ok _ _ _ Hfile Hfault).
  rewrite bind_run. unfold lift at 1. rewrite Hmask, Hbits. cbn [negb].
  rewrite bind_run. unfold attempt, askOutcome.
  destruct Hcase as [[e ->]|(saved & -> & Hexists & Hsaved & Hread)].
  - eexists. split; [reflexivity|]. by repeat split.
  - rewrite bind_run. cbn [ask]. rewrite Hexists. cbn [negb].
    rewrite bind_run, (os_ReadFile_ok _ _ _ Hsaved Hread).
    rewrite bool_decide_eq_true_2 by done.
    eexists. split; [reflexivity|]. by repeat split.
Qed.

(** *** IRQ load balancing *)

(** X9.  [setIRQLoadBalancing] first writes the new affinity mask; what
    follows depends on irqbalance.  Without a configuration file, a missing
    [irqbalance] binary is not an error (the call returns nil, having
    written the mask and logged), while with the binary present the result
    of the one-shot run, run with the banned-CPU mask in its environment, is
    the result of the call.  With a configuration file and an enabled
    service, a failed restart is not an error either. *)
Theorem setIRQLoadBalancing_irqbalance (c : Container) (enable : bool)
    (irqSmpAffinityFile irqBalanceConfig : string) (w : World) (content : string)
    (cpuRes : LinuxCPU) (newIRQSMPSetting newIRQBalanceSetting : string) :
  linuxCPU (SpecLinux (specOf c w)) = Ret cpuRes ->
  Cpus cpuRes <> "" ->
  files w !! irqSmpAffinityFile = Some content ->
  fault w (OpRead irqSmpAffinityFile) = None ->
  UpdateIRQSmpAffinityMask (Cpus cpuRes) (GoStrings.TrimSpace content) enable
  = Ret (newIRQSMPSetting, newIRQBalanceSetting) ->
  fault w (OpWrite irqSmpAffinityFile newIRQSMPSetting) = None ->
  let w1 := setFiles (<[irqSmpAffinityFile := newIRQSMPSetting]> (files w))
              (record (OpWrite irqSmpAffinityFile newIRQSMPSetting) w) in
  let result := setIRQLoadBalancing c enable irqSmpAffinityFile irqBalanceConfig w in
  (fileExists irqBalanceConfig w1 = false ->
   (forall e, exec_LookPath irqBalancedName w1 = Fail e ->
      result = (Ret (), addLog "Irqbalance binary not found" w1))
   /\ (forall path, exec_LookPath irqBalancedName w1 = Ret path ->
         result = cmd_Run irqBalancedName ["--oneshot"]
                    (os_Environ w1
                     ++ [irqBalanceBannedCpus +:+ "=" +:+ newIRQBalanceSetting]) w1))
  /\ (fileExists irqBalanceConfig w1 = true ->
      forall w2 e w3,
        updateIrqBalanceConfigFile irqBalanceConfig newIRQBalanceSetting w1 = (Ret (), w2) ->
        isServiceEnabled irqBalancedName w2 = true ->
        restartIrqBalanceService w2 = (Fail e, w3) ->
        result = (Ret (), addLog "Irqbalance service restart failed" w3)).
Proof.
  intros Hcpu Hcpus Hfile Hread Hmasks Hwrite w1 result.
  assert (result =
          (isIrqConfigExists ← ask (fileExists irqBalanceConfig);
           when isIrqConfigExists
             (updateIrqBalanceConfigFile irqBalanceConfig newIRQBalanceSetting);;
           enabled ← ask (isServiceEnabled irqBalancedName);
           if negb enabled || negb isIrqConfigExists then
             found ← attempt (askOutcome (exec_LookPath irqBalancedName));
             match found with
             | inl err => logf "Irqbalance binary not found"
             | inr _ =>
                 let additionalEnv := irqBalanceBannedCpus +:+ "=" +:+ newIRQBalanceSetting in
                 env ← ask os_Environ;
                 cmd_Run irqBalancedName ["--oneshot"] (env ++ [additionalEnv])
             end
           else
             restarted ← attempt restartIrqBalanceService;
             match restarted with
             | inl err => logf "Irqbalance service restart failed"
             | inr _ => mret ()
             end) w1) as ->.
  { subst result. unfold setIRQLoadBalancing.
    rewrite bind_run, c_Spec_run, (missingCPUs_of_ret _ _ Hcpu Hcpus).
    rewrite bind_run, (os_ReadFile_ok _ _ _ Hfile Hread).
    rewrite bind_run. unfold lift at 1. rewrite Hcpu.
    rewrite bind_run. unfold lift at 1. rewrite Hmasks. cbn [fst snd].
    rewrite bind_run. unfold os_WriteFile at 1. cbn [record fault]. rewrite Hwrite.
    reflexivity. }
  split.
  - intros Hexists. rewrite bind_run. cbn [ask]. rewrite Hexists. cbn [when].
    rewrite bind_run. cbn [mret ST_ret]. rewrite bind_run. cbn [ask].
    rewrite orb_true_r. rewrite bind_run. unfold attempt, askOutcome. split.
    + by intros e ->.
    + intros path ->. reflexivity.
  - intros Hexists w2 e w3 Hupdate Henabled Hrestart.
    rewrite bind_run. cbn [ask]. rewrite Hexists. cbn [when].
    rewrite bind_run, Hupdate. rewrite bind_run. cbn [ask]. rewrite Henabled.
    cbn [negb orb]. rewrite bind_run. unfold attempt. by rewrite Hrestart.
Qed.

(** *** Saving and restoring the per-CPU power knobs *)

Lemma knob_paths_cons {A} (live save : A -> string) (cpu : A) (rest : list A) :
  NoDup ((live <$> cpu :: rest) ++ (save <$> cpu :: rest)) ->
  live cpu <> save cpu
  /\ (live cpu ∉ (live <$> rest) ++ (save <$> rest))
  /\ (save cpu ∉ (live <$> rest) ++ (save <$> rest))
  /\ NoDup ((live <$> rest) ++ (save <$> rest)).
Proof.
  rewrite !fmap_cons. cbn [app]. intros Hnd.
  apply NoDup_cons in Hnd as [Hlive Hnd].
  apply NoDup_app in Hnd as (Hl & Hdisj & Hs).
  apply NoDup_cons in Hs as [Hsave Hs].
  rewrite not_elem_of_app, not_elem_of_cons in Hlive. destruct Hlive as (Hl1 & Hl2 & Hl3).
  split; [done|]. split; [by apply not_elem_of_app|]. split.
  - apply not_elem_of_app. split; [|done].
    intros Hin. apply (Hdisj _ Hin). apply elem_of_cons. by left.
  - apply NoDup_app. split; [done|]. split; [|done].
    intros x Hx Hx'. apply (Hdisj x Hx). apply elem_of_cons. by right.
Qed.

Lemma knob_paths_rest {A} (live save : A -> string) (path : string) (c : A) (rest : list A) :
  path ∉ ((live <$> rest) ++ (save <$> rest)) -> c ∈ rest ->
  live c <> path /\ save c <> path.
Proof.
  intros Hnot Hc. apply not_elem_of_app in Hnot as [Hl Hs].
  split; intros <-; [apply Hl|apply Hs]; by apply list_elem_of_fmap_2.
Qed.

Lemma latencyLoop_apply_step latency cpuDir saveDir cpu rest w orig :
  latency <> "" -> noFaults w ->
  files w !! latencyFile cpuDir cpu = Some orig ->
  exists w',
    latencyLoop latency cpuDir saveDir (cpu :: rest) w
    = latencyLoop latency cpuDir saveDir rest w'
    /\ files w' = <[latencyFile cpuDir cpu := latency]>
                    (<[latencySaveFile saveDir cpu := orig]> (files w))
    /\ fault w' = fault w /\ ctrSpecs w' = ctrSpecs w.
Proof.
  intros Hne Hnf Horig. unfold latencyFile in Horig. eexists. split.
  { cbn [latencyLoop]. rewrite bool_decide_eq_false_2 by done. cbn [negb].
    rewrite bind_run, (os_ReadFile_ok _ _ _ Horig (Hnf _)).
    rewrite bind_run. unfold os_MkdirAll. cbn [record fault]. rewrite (Hnf (OpMkdir _)).
    rewrite bind_run. unfold os_WriteFile at 1. cbn [record fault setDirs].
    rewrite (Hnf (OpWrite _ _)).
    rewrite bind_run. unfold os_WriteFile at 1. cbn [record fault setDirs setFiles].
    rewrite (Hnf (OpWrite _ _)). reflexivity. }
  done.
Qed.

Lemma latencyLoop_restore_one cpuDir saveDir cpu rest w orig :
  noFaults w ->
  files w !! latencySaveFile saveDir cpu = Some orig ->
  latencyFile cpuDir cpu <> latencySaveFile saveDir cpu ->
  exists w',
    latencyLoop "" cpuDir saveDir (cpu :: rest) w = latencyLoop "" cpuDir saveDir rest w'
    /\ files w' = delete (latencySaveFile saveDir cpu)
                    (<[latencyFile cpuDir cpu := orig]> (files w))
    /\ fault w' = fault w /\ ctrSpecs w' = ctrSpecs w.
Proof.
  intros Hnf Horig Hdiff. eexists. split.
  { rewrite latencyLoop_restore_step, bind_run. unfold attempt.
    rewrite (os_ReadFile_ok _ _ _ Horig (Hnf _)).
    rewrite bind_run. unfold os_WriteFile. cbn [record fault]. rewrite (Hnf (OpWrite _ _)).
    rewrite bind_run. unfold os_Remove. cbn [record fault setFiles files].
    rewrite lookup_insert_ne, Horig by done. rewrite (Hnf (OpRemove _)). reflexivity. }
  done.
Qed.

Lemma latencyLoop_apply latency cpuDir saveDir cpus : forall w,
  latency <> "" -> noFaults w ->
  NoDup ((latencyFile cpuDir <$> cpus) ++ (latencySaveFile saveDir <$> cpus)) ->
  (forall cpu, cpu ∈ cpus -> is_Some (files w !! latencyFile cpuDir cpu)) ->
  exists w1,
    latencyLoop latency cpuDir saveDir cpus w = (Ret (), w1)
    /\ fault w1 = fault w /\ ctrSpecs w1 = ctrSpecs w
    /\ (forall cpu, cpu ∈ cpus ->
          files w1 !! latencyFile cpuDir cpu = Some latency
          /\ files w1 !! latencySaveFile saveDir cpu = files w !! latencyFile cpuDir cpu)
    /\ (forall path,
          path ∉ ((latencyFile cpuDir <$> cpus) ++ (latencySaveFile saveDir <$> cpus)) ->
          files w1 !! path = files w !! path).
Proof.
  induction cpus as [|cpu rest IH]; intros w Hne Hnf Hnd Hlive.
  { exists w. split; [done|]. split; [done|]. split; [done|]. split; [|done].
    intros c0 Hin. by apply elem_of_nil in Hin. }
  destruct (knob_paths_cons _ _ _ _ Hnd) as (Hdiff & Hl & Hs & Hnd').
  destruct (Hlive cpu) as [orig Horig]; [apply elem_of_cons; by left|].
  destruct (latencyLoop_apply_step latency cpuDir saveDir cpu rest w orig Hne Hnf Horig)
    as (w' & Hstep & Hfiles & Hfault & Hspecs).
  destruct (IH w' Hne) as (w1 & Hrun & Hfault1 & Hspecs1 & Hknobs & Hframe); [| done |..].
  { intros op. rewrite Hfault. apply Hnf. }
  { intros c Hc. destruct (knob_paths_rest _ _ _ c rest Hl Hc) as [? _].
    destruct (knob_paths_rest _ _ _ c rest Hs Hc) as [? _].
    rewrite Hfiles, !lookup_insert_ne by done. apply Hlive, elem_of_cons. by right. }
  exists w1. split; [by rewrite Hstep|]. split; [congruence|]. split; [congruence|]. split.
  - intros c Hc. apply elem_of_cons in Hc as [->|Hc].
    + rewrite !Hframe, Hfiles by done.
      rewrite lookup_insert_eq, lookup_insert_ne, lookup_insert_eq by done. by rewrite Horig.
    + destruct (Hknobs c Hc) as [-> ->].
      destruct (knob_paths_rest _ _ _ c rest Hl Hc) as [? _].
      destruct (knob_paths_rest _ _ _ c rest Hs Hc) as [? _].
      by rewrite Hfiles, !lookup_insert_ne by done.
  - intros path Hpath. rewrite !fmap_cons in Hpath. cbn [app] in Hpath.
    apply not_elem_of_cons in Hpath as [H1 Hpath].
    apply not_elem_of_app in Hpath as [H2 Hpath].
    apply not_elem_of_cons in Hpath as [H3 H4].
    rewrite Hframe by (by apply not_elem_of_app).
    by rewrite Hfiles, !lookup_insert_ne by done.
Qed.

Lemma latencyLoop_restore cpuDir saveDir cpus : forall w,
  noFaults w ->
  NoDup ((latencyFile cpuDir <$> cpus) ++ (latencySaveFile saveDir <$> cpus)) ->
  (forall cpu, cpu ∈ cpus -> is_Some (files w !! latencySaveFile saveDir cpu)) ->
  exists w1,
    latencyLoop "" cpuDir saveDir cpus w = (Ret (), w1)
    /\ (forall cpu, cpu ∈ cpus ->
          files w1 !! latencyFile cpuDir cpu = files w !! latencySaveFile saveDir cpu
          /\ files w1 !! latencySaveFile saveDir cpu = None)
    /\ (forall path,
          path ∉ ((latencyFile cpuDir <$> cpus) ++ (latencySaveFile saveDir <$> cpus)) ->
          files w1 !! path = files w !! path).
Proof.
  induction cpus as [|cpu rest IH]; intros w Hnf Hnd Hsaved.
  { exists w. split; [done|]. split; [|done].
    intros c0 Hin. by apply elem_of_nil in Hin. }
  destruct (knob_paths_cons _ _ _ _ Hnd) as (Hdiff & Hl & Hs & Hnd').
  destruct (Hsaved cpu) as [orig Horig]; [apply elem_of_cons; by left|].
  destruct (latencyLoop_restore_one cpuDir saveDir cpu rest w orig Hnf Horig Hdiff)
    as (w' & Hstep & Hfiles & Hfault & Hspecs).
  destruct (IH w') as (w1 & Hrun & Hknobs & Hframe); [| done |..].
  { intros op. rewrite Hfault. apply Hnf. }
  { intros c Hc. destruct (knob_paths_rest _ _ _ c rest Hl Hc) as [_ ?].
    destruct (knob_paths_rest _ _ _ c rest Hs Hc) as [_ ?].
    rewrite Hfiles, lookup_delete_ne, lookup_insert_ne by done.
    apply Hsaved, elem_of_cons. by right. }
  exists w1. split; [by rewrite Hstep|]. split.
  - intros c Hc. apply elem_of_cons in Hc as [->|Hc].
    + rewrite !Hframe, Hfiles by done.
      rewrite lookup_delete_eq, lookup_delete_ne, lookup_insert_eq by done. by rewrite Horig.
    + destruct (Hknobs c Hc) as [-> ->].
      destruct (knob_paths_rest _ _ _ c rest Hl Hc) as [_ ?].
      destruct (knob_paths_rest _ _ _ c rest Hs Hc) as [_ ?].
      by rewrite Hfiles, lookup_delete_ne, lookup_insert_ne by done.
  - intros path Hpath. rewrite !fmap_cons in Hpath. cbn [app] in Hpath.
    apply not_elem_of_cons in Hpath as [H1 Hpath].
    apply not_elem_of_app in Hpath as [H2 Hpath].
    apply not_elem_of_cons in Hpath as [H3 H4].
    rewrite Hframe by (by apply not_elem_of_app).
    by rewrite Hfiles, lookup_delete_ne, lookup_insert_ne by done.
Qed.

(** X10.  Saving and restoring the resume latency is a round trip.  When
    no operation fails, the live file of every CPU of the container exists,
    and live and save files are pairwise distinct paths, applying a latency
    sets every live file to it, and restoring afterwards (the empty value)
    puts back into every live file what it held before the two calls,
    removes every save file, and leaves every other file as it was. *)
Theorem resume_latency_round_trip (c : Container) (latency cpuDir cpuSaveDir : string)
    (w : World) (cpuRes : LinuxCPU) (cpus : CPUSet.t) :
  latency <> "" ->
  linuxCPU (SpecLinux (specOf c w)) = Ret cpuRes ->
  Cpus cpuRes <> "" ->
  CPUSet.Parse (Cpus cpuRes) = Ret cpus ->
  noFaults w ->
  NoDup ((latencyFile cpuDir <$> cpus) ++ (latencySaveFile cpuSaveDir <$> cpus)) ->
  (forall cpu, cpu ∈ cpus -> is_Some (files w !! latencyFile cpuDir cpu)) ->
  exists w1 w2,
    doSetCPUPMQOSResumeLatency c latency cpuDir cpuSaveDir w = (Ret (), w1)
    /\ (forall cpu, cpu ∈ cpus -> files w1 !! latencyFile cpuDir cpu = Some latency)
    /\ doSetCPUPMQOSResumeLatency c "" cpuDir cpuSaveDir w1 = (Ret (), w2)
    /\ (forall cpu, cpu ∈ cpus ->
          files w2 !! latencyFile cpuDir cpu = files w !! latencyFile cpuDir cpu
          /\ files w2 !! latencySaveFile cpuSaveDir cpu = None)
    /\ (forall path,
          path ∉ ((latencyFile cpuDir <$> cpus) ++ (latencySaveFile cpuSaveDir <$> cpus)) ->
          files w2 !! path = files w !! path).
Proof.
  intros Hne Hcpu Hcpus Hparse Hnf Hnd Hlive.
  destruct (latencyLoop_apply latency cpuDir cpuSaveDir cpus w Hne Hnf Hnd Hlive)
    as (w1 & Hrun1 & Hfault1 & Hspecs1 & Hknobs1 & Hframe1).
  destruct (latencyLoop_restore cpuDir cpuSaveDir cpus w1) as (w2 & Hrun2 & Hknobs2 & Hframe2).
  { intros op. rewrite Hfault1. apply Hnf. }
  { done. }
  { intros cpu Hin. destruct (Hknobs1 cpu Hin) as [_ ->]. by apply Hlive. }
  exists w1, w2.
  split; [by rewrite (doSetCPUPMQOSResumeLatency_run _ _ _ _ _ _ _ Hcpu Hcpus Hparse)|].
  split; [intros cpu Hin; by apply Hknobs1|].
  split.
  { rewrite (doSetCPUPMQOSResumeLatency_run c "" cpuDir cpuSaveDir w1 cpuRes cpus); try done.
    unfold specOf. by rewrite Hspecs1. }
  split.
  - intros cpu Hin. destruct (Hknobs2 cpu Hin) as [-> ->].
    by destruct (Hknobs1 cpu Hin) as [_ ->].
  - intros path Hpath. by rewrite Hframe2, Hframe1.
Qed.

(** *** The C-state directive of [PreStart] *)

(** C6.  With the c-states annotation present on an eligible container,
    once the directives before it have been applied, [PreStart] applies
    the C-state configuration: the resume latency ["0"] for [enable], and
    ["n/a"] for [disable].  Applying means: the setter runs with that
    latency and its error, if any, is returned wrapped; and when the CPUs of
    the container have their latency files and no operation fails, every
    one of these files holds that latency afterwards, what it held before
    is kept in the save file of the CPU, no other file has changed, and
    [PreStart] goes on to the governor directive.  For any other value
    [PreStart] fails with an "invalid annotation value" error, having only
    logged: no write is attempted for the directive. *)
Theorem cstates_directive (h : HighPerformanceHooks) (c : Container) (s : Sandbox)
    (w w1 : World) (value : string) :
  Annotations s !! CPUCStatesAnnotation = Some value ->
  isCgroupParentBurstable s = false ->
  isCgroupParentBestEffort s = false ->
  isContainerRequestWholeCPU (specOf c w) = Ret true ->
  configureCgroups h c s
    (addLog ("Run " +:+ HighPerformance +:+
             " runtime handler pre-start hook for the container " +:+ ctrID c) w)
  = (Ret (), w1) ->
  let w2 :=
    addLog ("Configure c-states for container " +:+ ctrID c +:+ " to " +:+ value) w1 in
  let knobs (cpus : CPUSet.t) : list string :=
    (latencyFile sysCPUDir <$> cpus) ++ (latencySaveFile sysCPUSaveDir <$> cpus) in
  let applies (latency : string) : Prop :=
    PreStart h c s w
    = (wrapErr "set CPU PM QOS resume latency" (setCPUPMQOSResumeLatency c latency);;
       configureFreqGovernor c s) w2
    /\ (forall e w3,
          setCPUPMQOSResumeLatency c latency w2 = (Fail e, w3) ->
          PreStart h c s w = (Fail (ErrWrap "set CPU PM QOS resume latency" e), w3))
    /\ (forall cpuRes cpus,
          linuxCPU (SpecLinux (specOf c w1)) = Ret cpuRes ->
          Cpus cpuRes <> "" ->
          CPUSet.Parse (Cpus cpuRes) = Ret cpus ->
          noFaults w1 ->
          NoDup (knobs cpus) ->
          (forall cpu, cpu ∈ cpus -> is_Some (files w1 !! latencyFile sysCPUDir cpu)) ->
          exists w3,
            setCPUPMQOSResumeLatency c latency w2 = (Ret (), w3)
            /\ PreStart h c s w = configureFreqGovernor c s w3
            /\ (forall cpu, cpu ∈ cpus ->
                  files w3 !! latencyFile sysCPUDir cpu = Some latency
                  /\ files w3 !! latencySaveFile sysCPUSaveDir cpu
                     = files w1 !! latencyFile sysCPUDir cpu)
            /\ (forall path, path ∉ knobs cpus -> files w3 !! path = files w1 !! path)) in
  (value = annotationEnable -> applies "0")
  /\ (value = annotationDisable -> applies "n/a")
  /\ (value <> annotationEnable -> value <> annotationDisable ->
      PreStart h c s w = (Fail (ErrMsg ("invalid annotation value " +:+ value)), w2)
      /\ untouched w1 w2).
Proof.
  intros Hann Hb He Hw Hcg w2 knobs applies.
  assert (forall k : M (),
    (configureCStates c s;; k) w1 =
    ((if bool_decide (value = annotationEnable) then
        wrapErr "set CPU PM QOS resume latency" (setCPUPMQOSResumeLatency c "0")
      else if bool_decide (value = annotationDisable) then
        wrapErr "set CPU PM QOS resume latency" (setCPUPMQOSResumeLatency c "n/a")
      else fail (ErrMsg ("invalid annotation value " +:+ value)));; k) w2) as Hstep.
  { intros k. unfold configureCStates, shouldCStatesBeConfigured. rewrite Hann.
    reflexivity. }
  assert (forall latency,
    latency <> "" ->
    PreStart h c s w
    = (wrapErr "set CPU PM QOS resume latency" (setCPUPMQOSResumeLatency c latency);;
       configureFreqGovernor c s) w2 ->
    applies latency) as Happlies.
  { intros latency Hne Hdispatch. split; [exact Hdispatch|]. split.
    - intros e w3 Hfail. rewrite Hdispatch, bind_run. unfold wrapErr. by rewrite Hfail.
    - intros cpuRes cpus Hcpu Hcpus Hparse Hnf Hnd Hlive.
      destruct (latencyLoop_apply latency sysCPUDir sysCPUSaveDir cpus w2 Hne)
        as (w3 & Hrun & _ & _ & Hknobs & Hframe); [done..|].
      assert (setCPUPMQOSResumeLatency c latency w2 = (Ret (), w3)) as Hset.
      { unfold setCPUPMQOSResumeLatency.
        by rewrite (doSetCPUPMQOSResumeLatency_run c latency sysCPUDir sysCPUSaveDir w2
                      cpuRes cpus Hcpu Hcpus Hparse). }
      exists w3. split; [exact Hset|]. split.
      + rewrite Hdispatch, bind_run. unfold wrapErr. by rewrite Hset.
      + split; [exact Hknobs|exact Hframe]. }
  rewrite (PreStart_reaches_cstates _ _ _ _ _ Hb He Hw Hcg) in Happlies |- *.
  rewrite Hstep in Happlies |- *. split; [|split].
  - intros ->. apply Happlies; [done|]. reflexivity.
  - intros ->. apply Happlies; [done|]. reflexivity.
  - intros Hne1 Hne2. rewrite !bool_decide_eq_false_2 by done. split; [reflexivity|].
    by repeat split.
Qed.

(** *** The frequency governor *)

Lemma isCPUGovernorSupported_ok governor cpuDir cpu w :
  noFaults w -> supportsGovernor w cpuDir cpu governor ->
  isCPUGovernorSupported governor cpuDir cpu w = (Ret (), w).
Proof.
  intros Hnf (available & Hfile & Hin). unfold isCPUGovernorSupported.
  unfold availableGovernorsFile in Hfile.
  rewrite bind_run, (os_ReadFile_ok _ _ _ Hfile (Hnf _)).
  by rewrite bool_decide_eq_true_2.
Qed.

Lemma governorLoop_apply_step governor cpuDir saveDir cpu rest w orig :
  governor <> "" -> noFaults w ->
  files w !! governorFile cpuDir cpu = Some orig ->
  supportsGovernor w cpuDir cpu governor ->
  exists w',
    governorLoop governor cpuDir saveDir (cpu :: rest) w
    = governorLoop governor cpuDir saveDir rest w'
    /\ files w' = <[governorFile cpuDir cpu := governor]>
                    (<[governorSaveFile saveDir cpu := orig]> (files w))
    /\ fault w' = fault w /\ ctrSpecs w' = ctrSpecs w.
Proof.
  intros Hne Hnf Horig Hsup. unfold governorFile in Horig. eexists. split.
  { cbn [governorLoop]. rewrite bool_decide_eq_false_2 by done. cbn [negb].
    rewrite bind_run, (os_ReadFile_ok _ _ _ Horig (Hnf _)).
    rewrite bind_run, (isCPUGovernorSupported_ok _ _ _ _ Hnf Hsup).
    rewrite bind_run. unfold os_MkdirAll. cbn [record fault]. rewrite (Hnf (OpMkdir _)).
    rewrite bind_run. unfold os_WriteFile at 1. cbn [record fault setDirs].
    rewrite (Hnf (OpWrite _ _)).
    rewrite bind_run. unfold os_WriteFile at 1. cbn [record fault setDirs setFiles].
    rewrite (Hnf (OpWrite _ _)). reflexivity. }
  done.
Qed.

Lemma governorLoop_restore_one cpuDir saveDir cpu rest w orig :
  noFaults w ->
  files w !! governorSaveFile saveDir cpu = Some orig ->
  governorFile cpuDir cpu <> governorSaveFile saveDir cpu ->
  exists w',
    governorLoop "" cpuDir saveDir (cpu :: rest) w = governorLoop "" cpuDir saveDir rest w'
    /\ files w' = delete (governorSaveFile saveDir cpu)
                    (<[governorFile cpuDir cpu := orig]> (files w))
    /\ fault w' = fault w /\ ctrSpecs w' = ctrSpecs w.
Proof.
  intros Hnf Horig Hdiff. eexists. split.
  { rewrite governorLoop_restore_step, bind_run. unfold attempt.
    rewrite (os_ReadFile_ok _ _ _ Horig (Hnf _)).
    rewrite bind_run. unfold os_WriteFile. cbn [record fault]. rewrite (Hnf (OpWrite _ _)).
    rewrite bind_run. unfold os_Remove. cbn [record fault setFiles files].
    rewrite lookup_insert_ne, Horig by done. rewrite (Hnf (OpRemove _)). reflexivity. }
  done.
Qed.

Lemma governorLoop_apply governor cpuDir saveDir cpus : forall w,
  governor <> "" -> noFaults w ->
  NoDup ((governorFile cpuDir <$> cpus) ++ (governorSaveFile saveDir <$> cpus)) ->
  (forall cpu, cpu ∈ cpus ->
     is_Some (files w !! governorFile cpuDir cpu)
     /\ supportsGovernor w cpuDir cpu governor
     /\ (availableGovernorsFile cpuDir cpu
         ∉ (governorFile cpuDir <$> cpus) ++ (governorSaveFile saveDir <$> cpus))) ->
  exists w1,
    governorLoop governor cpuDir saveDir cpus w = (Ret (), w1)
    /\ fault w1 = fault w /\ ctrSpecs w1 = ctrSpecs w
    /\ (forall cpu, cpu ∈ cpus ->
          files w1 !! governorFile cpuDir cpu = Some governor
          /\ files w1 !! governorSaveFile saveDir cpu = files w !! governorFile cpuDir cpu)
    /\ (forall path,
          path ∉ ((governorFile cpuDir <$> cpus) ++ (governorSaveFile saveDir <$> cpus)) ->
          files w1 !! path = files w !! path).
Proof.
  induction cpus as [|cpu rest IH]; intros w Hne Hnf Hnd Hlive.
  { exists w. split; [done|]. split; [done|]. split; [done|]. split; [|done].
    intros c0 Hin. by apply elem_of_nil in Hin. }
  destruct (knob_paths_cons _ _ _ _ Hnd) as (Hdiff & Hl & Hs & Hnd').
  destruct (Hlive cpu) as ([orig Horig] & Hsup & _); [apply elem_of_cons; by left|].
  destruct (governorLoop_apply_step governor cpuDir saveDir cpu rest w orig Hne Hnf Horig Hsup)
    as (w' & Hstep & Hfiles & Hfault & Hspecs).
  destruct (IH w' Hne) as (w1 & Hrun & Hfault1 & Hspecs1 & Hknobs & Hframe); [| done |..].
  { intros op. rewrite Hfault. apply Hnf. }
  { intros c Hc. destruct (knob_paths_rest _ _ _ c rest Hl Hc) as [? _].
    destruct (knob_paths_rest _ _ _ c rest Hs Hc) as [? _].
    destruct (Hlive c) as (Hsome & (available & Havail & Hin) & Hnotin);
      [apply elem_of_cons; by right|].
    rewrite !fmap_cons in Hnotin. cbn [app] in Hnotin.
    apply not_elem_of_cons in Hnotin as [Ha1 Hnotin].
    apply not_elem_of_app in Hnotin as [Ha2 Hnotin].
    apply not_elem_of_cons in Hnotin as [Ha3 Ha4].
    split; [|split].
    - by rewrite Hfiles, !lookup_insert_ne by done.
    - exists available. split; [|done]. by rewrite Hfiles, !lookup_insert_ne by done.
    - by apply not_elem_of_app. }
  exists w1. split; [by rewrite Hstep|]. split; [congruence|]. split; [congruence|]. split.
  - intros c Hc. apply elem_of_cons in Hc as [->|Hc].
    + rewrite !Hframe, Hfiles by done.
      rewrite lookup_insert_eq, lookup_insert_ne, lookup_insert_eq by done. by rewrite Horig.
    + destruct (Hknobs c Hc) as [-> ->].
      destruct (knob_paths_rest _ _ _ c rest Hl Hc) as [? _].
      destruct (knob_paths_rest _ _ _ c rest Hs Hc) as [? _].
      by rewrite Hfiles, !lookup_insert_ne by done.
  - intros path Hpath. rewrite !fmap_cons in Hpath. cbn [app] in Hpath.
    apply not_elem_of_cons in Hpath as [H1 Hpath].
    apply not_elem_of_app in Hpath as [H2 Hpath].
    apply not_elem_of_cons in Hpath as [H3 H4].
    rewrite Hframe by (by apply not_elem_of_app).
    by rewrite Hfiles, !lookup_insert_ne by done.
Qed.

Lemma governorLoop_restore cpuDir saveDir cpus : forall w,
  noFaults w ->
  NoDup ((governorFile cpuDir <$> cpus) ++ (governorSaveFile saveDir <$> cpus)) ->
  (forall cpu, cpu ∈ cpus -> is_Some (files w !! governorSaveFile saveDir cpu)) ->
  exists w1,
    governorLoop "" cpuDir saveDir cpus w = (Ret (), w1)
    /\ (forall cpu, cpu ∈ cpus ->
          files w1 !! governorFile cpuDir cpu = files w !! governorSaveFile saveDir cpu
          /\ files w1 !! governorSaveFile saveDir cpu = None)
    /\ (forall path,
          path ∉ ((governorFile cpuDir <$> cpus) ++ (governorSaveFile saveDir <$> cpus)) ->
          files w1 !! path = files w !! path).
Proof.
  induction cpus as [|cpu rest IH]; intros w Hnf Hnd Hsaved.
  { exists w. split; [done|]. split; [|done].
    intros c0 Hin. by apply elem_of_nil in Hin. }
  destruct (knob_paths_cons _ _ _ _ Hnd) as (Hdiff & Hl & Hs & Hnd').
  destruct (Hsaved cpu) as [orig Horig]; [apply elem_of_cons; by left|].
  destruct (governorLoop_restore_one cpuDir saveDir cpu rest w orig Hnf Horig Hdiff)
    as (w' & Hstep & Hfiles & Hfault & Hspecs).
  destruct (IH w') as (w1 & Hrun & Hknobs & Hframe); [| done |..].
  { intros op. rewrite Hfault. apply Hnf. }
  { intros c Hc. destruct (knob_paths_rest _ _ _ c rest Hl Hc) as [_ ?].
    destruct (knob_paths_rest _ _ _ c rest Hs Hc) as [_ ?].
    rewrite Hfiles, lookup_delete_ne, lookup_insert_ne by done.
    apply Hsaved, elem_of_cons. by right. }
  exists w1. split; [by rewrite Hstep|]. split.
  - intros c Hc. apply elem_of_cons in Hc as [->|Hc].
    + rewrite !Hframe, Hfiles by done.
      rewrite lookup_delete_eq, lookup_delete_ne, lookup_insert_eq by done. by rewrite Horig.
    + destruct (Hknobs c Hc) as [-> ->].
      destruct (knob_paths_rest _ _ _ c rest Hl Hc) as [_ ?].
      destruct (knob_paths_rest _ _ _ c rest Hs Hc) as [_ ?].
      by rewrite Hfiles, lookup_delete_ne, lookup_insert_ne by done.
  - intros path Hpath. rewrite !fmap_cons in Hpath. cbn [app] in Hpath.
    apply not_elem_of_cons in Hpath as [H1 Hpath].
    apply not_elem_of_app in Hpath as [H2 Hpath].
    apply not_elem_of_cons in Hpath as [H3 H4].
    rewrite Hframe by (by apply not_elem_of_app).
    by rewrite Hfiles, lookup_delete_ne, lookup_insert_ne by done.
Qed.

(** X11.  Saving and restoring the scaling governor is a round trip.  When
    no operation fails, every CPU of the container has a governor file and
    lists the requested governor as available, and the files involved are
    pairwise distinct paths, applying the governor sets it on every CPU,
    and restoring afterwards (the empty value) gives every CPU the governor
    it had before the two calls, removes every save file, and leaves every
    other file as it was. *)
Theorem governor_round_trip (c : Container) (governor cpuDir cpuSaveDir : string)
    (w : World) (cpuRes : LinuxCPU) (cpus : CPUSet.t) :
  governor <> "" ->
  linuxCPU (SpecLinux (specOf c w)) = Ret cpuRes ->
  Cpus cpuRes <> "" ->
  CPUSet.Parse (Cpus cpuRes) = Ret cpus ->
  noFaults w ->
  NoDup ((governorFile cpuDir <$> cpus) ++ (governorSaveFile cpuSaveDir <$> cpus)) ->
  (forall cpu, cpu ∈ cpus ->
     is_Some (files w !! governorFile cpuDir cpu)
     /\ supportsGovernor w cpuDir cpu governor
     /\ (availableGovernorsFile cpuDir cpu
         ∉ (governorFile cpuDir <$> cpus) ++ (governorSaveFile cpuSaveDir <$> cpus))) ->
  exists w1 w2,
    doSetCPUFreqGovernor c governor cpuDir cpuSaveDir w = (Ret (), w1)
    /\ (forall cpu, cpu ∈ cpus -> files w1 !! governorFile cpuDir cpu = Some governor)
    /\ doSetCPUFreqGovernor c "" cpuDir cpuSaveDir w1 = (Ret (), w2)
    /\ (forall cpu, cpu ∈ cpus ->
          files w2 !! governorFile cpuDir cpu = files w !! governorFile cpuDir cpu
          /\ files w2 !! governorSaveFile cpuSaveDir cpu = None)
    /\ (forall path,
          path ∉ ((governorFile cpuDir <$> cpus) ++ (governorSaveFile cpuSaveDir <$> cpus)) ->
          files w2 !! path = files w !! path).
Proof.
  intros Hne Hcpu Hcpus Hparse Hnf Hnd Hlive.
  destruct (governorLoop_apply governor cpuDir cpuSaveDir cpus w Hne Hnf Hnd Hlive)
    as (w1 & Hrun1 & Hfault1 & Hspecs1 & Hknobs1 & Hframe1).
  destruct (governorLoop_restore cpuDir cpuSaveDir cpus w1) as (w2 & Hrun2 & Hknobs2 & Hframe2).
  { intros op. rewrite Hfault1. apply Hnf. }
  { done. }
  { intros cpu Hin. destruct (Hknobs1 cpu Hin) as [_ ->]. by apply Hlive. }
  exists w1, w2.
  split; [by rewrite (doSetCPUFreqGovernor_run _ _ _ _ _ _ _ Hcpu Hcpus Hparse)|].
  split; [intros cpu Hin; by apply Hknobs1|].
  split.
  { rewrite (doSetCPUFreqGovernor_run c "" cpuDir cpuSaveDir w1 cpuRes cpus); try done.
    unfold specOf. by rewrite Hspecs1. }
  split.
  - intros cpu Hin. destruct (Hknobs2 cpu Hin) as [-> ->].
    by destruct (Hknobs1 cpu Hin) as [_ ->].
  - intros path Hpath. by rewrite Hframe2, Hframe1.
Qed.

Lemma governorLoop_app governor cpuDir saveDir pre post : forall w w1,
  governor <> "" ->
  governorLoop governor cpuDir saveDir pre w = (Ret (), w1) ->
  governorLoop governor cpuDir saveDir (pre ++ post) w
  = governorLoop governor cpuDir saveDir post w1.
Proof.
  induction pre as [|a pre IH]; intros w w1 Hne Hpre.
  - by injection Hpre as <-.
  - rewrite <- app_comm_cons. cbn [governorLoop] in Hpre |- *.
    rewrite bool_decide_eq_false_2 in Hpre |- * by done. cbn [negb] in Hpre |- *.
    rewrite bind_run in Hpre |- *.
    destruct (os_ReadFile _ w) as [[orig| |] w2]; try done.
    rewrite bind_run in Hpre |- *.
    destruct (isCPUGovernorSupported governor cpuDir a w2) as [[[]| |] w3]; try done.
    rewrite bind_run in Hpre |- *.
    destruct (os_MkdirAll _ w3) as [[[]| |] w4]; try done.
    rewrite bind_run in Hpre |- *.
    destruct (os_WriteFile _ orig w4) as [[[]| |] w5]; try done.
    rewrite bind_run in Hpre |- *.
    destruct (os_WriteFile _ governor w5) as [[[]| |] w6]; try done.
    by apply IH.
Qed.

(** X12.  A governor is checked against each CPU's list of available
    governors before anything is written for that CPU.  At the first CPU
    that does not list it, [doSetCPUFreqGovernor] fails with a "not
    available" error; nothing is saved or written for that CPU or the ones
    after it, and the CPUs before it keep the new governor: there is no
    rollback. *)
Theorem governor_unsupported_stops (c : Container) (governor cpuDir cpuSaveDir : string)
    (w w1 : World) (cpuRes : LinuxCPU) (pre post : list Z) (cpu : Z)
    (orig available : string) :
  governor <> "" ->
  linuxCPU (SpecLinux (specOf c w)) = Ret cpuRes ->
  Cpus cpuRes <> "" ->
  CPUSet.Parse (Cpus cpuRes) = Ret (pre ++ cpu :: post) ->
  governorLoop governor cpuDir cpuSaveDir pre w = (Ret (), w1) ->
  files w1 !! governorFile cpuDir cpu = Some orig ->
  fault w1 (OpRead (governorFile cpuDir cpu)) = None ->
  files w1 !! availableGovernorsFile cpuDir cpu = Some available ->
  fault w1 (OpRead (availableGovernorsFile cpuDir cpu)) = None ->
  governor ∉ GoStrings.Fields available ->
  doSetCPUFreqGovernor c governor cpuDir cpuSaveDir w
  = (Fail (ErrMsg ("governor " +:+ governor +:+ " not available for cpu "
                   +:+ GoStrings.Itoa cpu)), w1).
Proof.
  intros Hne Hcpu Hcpus Hparse Hpre Horig Hread Havail Hreadavail Hnotin.
  rewrite (doSetCPUFreqGovernor_run _ _ _ _ _ _ _ Hcpu Hcpus Hparse).
  rewrite (governorLoop_app _ _ _ _ _ _ _ Hne Hpre).
  unfold governorFile in Horig, Hread. unfold availableGovernorsFile in Havail, Hreadavail.
  cbn [governorLoop]. rewrite bool_decide_eq_false_2 by done. cbn [negb].
  rewrite bind_run, (os_ReadFile_ok _ _ _ Horig Hread).
  rewrite bind_run. unfold isCPUGovernorSupported.
  rewrite bind_run, (os_ReadFile_ok _ _ _ Havail Hreadavail).
  by rewrite bool_decide_eq_false_2.
Qed.

(** *** Load balancing on cgroup v2: what a successful call leaves *)

Lemma addOrRemoveCpusetFromFile_target path file cpus add w old w' :
  addOrRemoveCpusetFromFile path file cpus add w = (Ret old, w') ->
  files w !! cgroupFile path file = Some old
  /\ exists new, targetCpus old cpus add = Ret new
                 /\ files w' = <[cgroupFile path file := new]> (files w).
Proof.
  unfold addOrRemoveCpusetFromFile, cgroups_ReadFile, os_ReadFile, targetCpus.
  rewrite bind_run.
  destruct (files w !! cgroupFile path file) as [content|] eqn:Hfile; [|done].
  destruct (fault w (OpRead _)); [done|].
  rewrite bind_run. unfold lift at 1.
  destruct (CPUSet.Parse (GoStrings.TrimSpace content)) as [current|e|p] eqn:Hparse;
    [|done..].
  rewrite bind_run. unfold cgroups_WriteFile. cbn. rewrite Hfile.
  destruct (fault w (OpWrite _ _)); cbn; intros Hrun; [done|].
  unfold mret, ST_ret in Hrun. injection Hrun as <- <-. cbn.
  split; [done|]. rewrite Hparse. by eexists.
Qed.

Lemma levelPaths_longer directories : forall currentPath dir,
  dir ∈ levelPaths directories currentPath ->
  (String.length currentPath < String.length dir)%nat.
Proof.
  induction directories as [|d rest IH]; intros currentPath dir Hin; cbn [levelPaths] in Hin.
  - by apply elem_of_nil in Hin.
  - destruct (decide (d = "")); [by apply IH|].
    assert (String.length currentPath < String.length (currentPath +:+ "/" +:+ d))%nat
      as Hlen by (rewrite !length_append; cbn; lia).
    apply elem_of_cons in Hin as [->|Hin]; [done|].
    apply IH in Hin. lia.
Qed.

Lemma partitionFile_ne_exclusive d1 d2 :
  cgroupFile d1 "cpuset.cpus.partition" <> exclusiveFile d2.
Proof.
  intros E. apply (f_equal (fun s => last (String.list_ascii_of_string s))) in E.
  unfold exclusiveFile in E.
  rewrite (cgroupFile_last d1 _ "n"%char), (cgroupFile_last d2 _ "e"%char) in E; done.
Qed.

Lemma partitionFile_ne_cpus d1 d2 :
  cgroupFile d1 "cpuset.cpus.partition" <> cgroupFile d2 "cpuset.cpus".
Proof.
  intros E. apply (f_equal (fun s => last (String.list_ascii_of_string s))) in E.
  rewrite (cgroupFile_last d1 _ "n"%char), (cgroupFile_last d2 _ "s"%char) in E; done.
Qed.

(** A walk that succeeds has rewritten the [cpuset.cpus.exclusive] of
    every level, and on disable its [cpuset.cpus] as well, each once. *)
Lemma walkDirectories_success enable cpus directories : forall currentPath vfr w vfr' w',
  walkDirectories enable cpus directories currentPath (vfr, w) = (Ret (), (vfr', w')) ->
  let levels := levelPaths directories currentPath in
  (forall dir, dir ∈ levels ->
     exists old new,
       files w !! exclusiveFile dir = Some old
       /\ targetCpus old cpus (negb enable) = Ret new
       /\ files w' !! exclusiveFile dir = Some new)
  /\ (forall dir, dir ∉ levels ->
        files w' !! exclusiveFile dir = files w !! exclusiveFile dir)
  /\ (forall dir, enable = true \/ dir ∉ levels ->
        files w' !! cgroupFile dir "cpuset.cpus" = files w !! cgroupFile dir "cpuset.cpus")
  /\ (enable = false -> forall dir, dir ∈ levels ->
        exists old new,
          files w !! cgroupFile dir "cpuset.cpus" = Some old
          /\ targetCpus old cpus true = Ret new
          /\ files w' !! cgroupFile dir "cpuset.cpus" = Some new).
Proof.
  induction directories as [|d rest IH]; intros currentPath vfr w vfr' w' Hrun levels.
  - injection Hrun as <- <-. subst levels. cbn [levelPaths].
    split; [intros dir Hin; by apply elem_of_nil in Hin|]. split; [done|]. split; [done|].
    intros _ dir Hin. by apply elem_of_nil in Hin.
  - subst levels. cbn [walkDirectories levelPaths] in Hrun |- *.
    destruct (decide (d = "")) as [->|Hd]; [by eapply IH|].
    set (cp := currentPath +:+ "/" +:+ d) in *.
    assert (cp ∉ levelPaths rest cp) as Hcp.
    { intros Hin. apply levelPaths_longer in Hin. lia. }
    (* the [cpuset.cpus] step *)
    rewrite bind_run in Hrun.
    set (step1 := when (negb enable)
                    (inWorld (addOrRemoveCpusetFromFile cp "cpuset.cpus" cpus (negb enable));;
                     mret ())) in Hrun.
    assert (exists r1 w1,
      step1 (vfr, w) = (r1, (vfr, w1))
      /\ (r1 = Ret () ->
          if enable then files w1 = files w
          else exists old new,
                 files w !! cgroupFile cp "cpuset.cpus" = Some old
                 /\ targetCpus old cpus true = Ret new
                 /\ files w1 = <[cgroupFile cp "cpuset.cpus" := new]> (files w)))
      as (r1 & w1 & E1 & Hstep1).
    { subst step1. destruct enable; cbn [negb when].
      - by exists (Ret ()), w.
      - rewrite bind_run. unfold inWorld. cbn [fst snd].
        destruct (addOrRemoveCpusetFromFile cp "cpuset.cpus" cpus true w)
          as [[old|e|p] w1] eqn:E.
        + exists (Ret ()), w1. split; [done|]. intros _.
          apply addOrRemoveCpusetFromFile_target in E as (Hold & new & Hnew & Hfiles).
          by exists old, new.
        + by exists (Fail e), w1.
        + by exists (Panic p), w1. }
    rewrite E1 in Hrun. clear E1 step1.
    destruct r1 as [[]|e|p]; [|done..].
    specialize (Hstep1 eq_refl).
    (* the [cpuset.cpus.exclusive] step *)
    rewrite bind_run in Hrun. unfold inWorld at 1 in Hrun. cbn [fst snd] in Hrun.
    destruct (addOrRemoveCpusetFromFile cp "cpuset.cpus.exclusive" cpus (negb enable) w1)
      as [[old|e|p] w2] eqn:E2; [|done..].
    apply addOrRemoveCpusetFromFile_target in E2 as (Hold & new & Hnew & Hfiles2).
    fold (exclusiveFile cp) in Hold, Hfiles2.
    rewrite bind_run in Hrun. cbn [setRevert fst snd] in Hrun.
    apply IH in Hrun as (HA & HB & HC & HD).
    assert (forall dir, files w1 !! exclusiveFile dir = files w !! exclusiveFile dir) as Hexcl1.
    { intros dir. destruct enable; [by rewrite Hstep1|].
      destruct Hstep1 as (? & ? & _ & _ & ->).
      rewrite lookup_insert_ne; [done|]. intros E. by apply (exclusiveFile_ne_cpus dir cp). }
    assert (forall dir, dir <> cp ->
              files w2 !! exclusiveFile dir = files w !! exclusiveFile dir) as Hexcl2.
    { intros dir Hne. rewrite Hfiles2, lookup_insert_ne; [apply Hexcl1|].
      intros E. by apply exclusiveFile_inj in E. }
    assert (forall dir, files w2 !! cgroupFile dir "cpuset.cpus"
                        = files w1 !! cgroupFile dir "cpuset.cpus") as Hcpus2.
    { intros dir. rewrite Hfiles2, lookup_insert_ne; [done|]. apply exclusiveFile_ne_cpus. }
    split; [|split; [|split]].
    + intros dir Hin. apply elem_of_cons in Hin as [->|Hin].
      * exists old, new. split; [by rewrite <- Hexcl1|]. split; [done|].
        rewrite (HB cp Hcp), Hfiles2. by rewrite lookup_insert_eq.
      * destruct (HA dir Hin) as (old' & new' & Hold' & Hnew' & Hfinal).
        exists old', new'. split; [|done]. rewrite <- Hexcl2; [done|].
        intros ->. done.
    + intros dir Hnot. apply not_elem_of_cons in Hnot as [Hne Hnot].
      by rewrite (HB dir Hnot), Hexcl2.
    + intros dir Hcase. rewrite HC, Hcpus2.
      * destruct enable; [by rewrite Hstep1|].
        destruct Hcase as [|Hnot]; [done|]. apply not_elem_of_cons in Hnot as [Hne Hnot].
        destruct Hstep1 as (? & ? & _ & _ & ->).
        rewrite lookup_insert_ne; [done|]. intros E. by apply cgroupFile_inj in E.
      * destruct Hcase as [|Hnot]; [by left|right].
        by apply not_elem_of_cons in Hnot as [_ ?].
    + intros -> dir Hin. cbn [negb] in *.
      destruct Hstep1 as (oldc & newc & Holdc & Hnewc & Hfiles1).
      apply elem_of_cons in Hin as [->|Hin].
      * exists oldc, newc. split; [done|]. split; [done|].
        rewrite HC by (by right). rewrite Hcpus2, Hfiles1. by rewrite lookup_insert_eq.
      * destruct (HD eq_refl dir Hin) as (old' & new' & Hold' & Hnew' & Hfinal).
        exists old', new'. split; [|done].
        rewrite Hcpus2, Hfiles1 in Hold'. rewrite lookup_insert_ne in Hold'; [done|].
        intros E. apply cgroupFile_inj in E. subst dir. done.
Qed.

(** X13.  What a successful [setCPULoadBalancingV2] leaves behind.  At
    every level of the container's cgroup path, [cpuset.cpus.exclusive]
    holds the canonical form of what it held before with the container's
    CPUs added (disable) or removed (re-enable); the
    [cpuset.cpus.exclusive] of every other directory is unchanged.
    Re-enabling never touches a [cpuset.cpus] file; disabling adds the CPUs
    to the [cpuset.cpus] of every level too, and leaves the leaf an
    [isolated] partition. *)
Theorem setCPULoadBalancingV2_success (c : Container) (enable : bool) (w w' : World)
    (cpuRes : LinuxCPU) (cpus : CPUSet.t) (cpusetPath : string) :
  linuxCPU (SpecLinux (specOf c w)) = Ret cpuRes ->
  CPUSet.Parse (Cpus cpuRes) = Ret cpus ->
  cpusetOfContainer c w = (Ret cpusetPath, w) ->
  setCPULoadBalancingV2 c enable w = (Ret (), w') ->
  let levels := levelPaths (GoStrings.Split cpusetPath "/") "/sys/fs/cgroup" in
  let partition :=
    cgroupFile (GoPath.Join ["/sys/fs/cgroup"; cpusetPath]) "cpuset.cpus.partition" in
  (forall dir, dir ∈ levels ->
     exists old new,
       files w !! exclusiveFile dir = Some old
       /\ targetCpus old cpus (negb enable) = Ret new
       /\ files w' !! exclusiveFile dir = Some new)
  /\ (forall dir, dir ∉ levels ->
        files w' !! exclusiveFile dir = files w !! exclusiveFile dir)
  /\ (if enable then
        forall dir, files w' !! cgroupFile dir "cpuset.cpus"
                    = files w !! cgroupFile dir "cpuset.cpus"
      else
        (forall dir, dir ∈ levels ->
           exists old new,
             files w !! cgroupFile dir "cpuset.cpus" = Some old
             /\ targetCpus old cpus true = Ret new
             /\ files w' !! cgroupFile dir "cpuset.cpus" = Some new)
        /\ files w' !! partition = Some "isolated").
Proof.
  intros Hcpu Hparse Hpath Hrun levels partition.
  unfold setCPULoadBalancingV2 in Hrun.
  destruct (setCPULoadBalancingV2_body c enable (∅, w)) as [r [vfr w2]] eqn:Hbody.
  assert (r = Ret () /\ w2 = w') as [-> ->].
  { destruct r as [[]|e|p]; [|done..]. by injection Hrun as <-. }
  clear Hrun. unfold setCPULoadBalancingV2_body in Hbody. rewrite bind_run in Hbody.
  assert (setCPULoadBalancingV2_levels c enable (∅, w)
          = (walkDirectories enable cpus (GoStrings.Split cpusetPath "/") "/sys/fs/cgroup";;
             mret cpusetPath) (∅, w)) as Hlevels.
  { unfold setCPULoadBalancingV2_levels. rewrite bind_run.
    unfold inWorld at 1. rewrite c_Spec_run. cbn [fst snd].
    rewrite bind_run. unfold lift at 1. rewrite Hcpu.
    rewrite bind_run. unfold lift at 1. rewrite Hparse.
    rewrite bind_run. unfold inWorld at 1. cbn [fst snd]. by rewrite Hpath. }
  rewrite Hlevels, bind_run in Hbody.
  destruct (walkDirectories _ _ _ _ _) as [[[]|e|p] [vfr1 w1]] eqn:Hwalk; [|done..].
  apply walkDirectories_success in Hwalk as (HA & HB & HC & HD).
  cbn [mret ST_ret] in Hbody.
  unfold setCPULoadBalancingV2_partition in Hbody. rewrite bind_run in Hbody.
  unfold attempt, inWorld in Hbody. cbn [fst snd] in Hbody. fold partition in Hbody.
  destruct (cgroups_WriteFile _ _ _ w1) as [r2 w3] eqn:Hwrite.
  fold partition in Hwrite.
  apply cgroups_WriteFile_spec in Hwrite as [_ Hspec].
  assert ((forall path, path <> partition -> files w' !! path = files w1 !! path)
          /\ (enable = false -> files w' !! partition = Some "isolated")) as [Hframe Hleaf].
  { destruct r2 as [[]|e|p]; [| |done].
    - destruct Hspec as (_ & _ & ->). cbn [mret ST_ret] in Hbody.
      injection Hbody as _ <-. cbn. split.
      + intros path Hne. by rewrite lookup_insert_ne.
      + intros _. by rewrite lookup_insert_eq.
    - destruct Hspec as [-> _].
      destruct (os_IsNotExist e && enable) eqn:Hswallow; [|done].
      cbn [mret ST_ret] in Hbody. injection Hbody as _ <-. cbn. split; [done|].
      intros ->. by rewrite andb_false_r in Hswallow. }
  split; [|split].
  - intros dir Hin. destruct (HA dir Hin) as (old & new & Hold & Hnew & Hfinal).
    exists old, new. split; [done|]. split; [done|].
    rewrite Hframe; [done|]. intros E. symmetry in E. by apply partitionFile_ne_exclusive in E.
  - intros dir Hnot. rewrite Hframe; [by apply HB|].
    intros E. symmetry in E. by apply partitionFile_ne_exclusive in E.
  - destruct enable.
    + intros dir. rewrite Hframe; [apply HC; by left|].
      intros E. symmetry in E. by apply partitionFile_ne_cpus in E.
    + split; [|by apply Hleaf].
      intros dir Hin. destruct (HD eq_refl dir Hin) as (old & new & Hold & Hnew & Hfinal).
      exists old, new. split; [done|]. split; [done|].
      rewrite Hframe; [done|]. intros E. symmetry in E. by apply partitionFile_ne_cpus in E.
Qed.

(** *** Shared CPUs: the child cgroup and the environment *)

Lemma keepsSpecs_ret {A} (a : A) : keepsSpecs (mret a).
Proof. by intros w. Qed.

Lemma keepsSpecs_lift {A} (o : outcome A) : keepsSpecs (lift o).
Proof. by intros w. Qed.

Lemma keepsSpecs_bind {A B} (c : M A) (k : A -> M B) :
  keepsSpecs c -> (forall a, keepsSpecs (k a)) -> keepsSpecs (c ≫= k).
Proof.
  intros Hc Hk w. rewrite bind_run. specialize (Hc w).
  destruct (c w) as [[a| |] w1]; [|done..].
  specialize (Hk a w1). cbn in Hc. congruence.
Qed.

Lemma keepsSpecs_os_ReadFile path : keepsSpecs (os_ReadFile path).
Proof.
  intros w. unfold os_ReadFile. destruct (files w !! path); [|done].
  by destruct (fault w _).
Qed.

Lemma keepsSpecs_cgroups_WriteFile dir file data : keepsSpecs (cgroups_WriteFile dir file data).
Proof.
  intros w. unfold cgroups_WriteFile. cbn.
  destruct (files w !! _); [|done]. by destruct (fault w _).
Qed.

Lemma keepsSpecs_os_Mkdir path : keepsSpecs (os_Mkdir path).
Proof.
  intros w. unfold os_Mkdir. cbn zeta.
  destruct (pathExists _ _); [done|]. destruct (negb _); [done|].
  cbn [record fault]. by destruct (fault w _).
Qed.

Lemma keepsSpecs_addOrRemoveCpusetFromFile path file cpus add :
  keepsSpecs (addOrRemoveCpusetFromFile path file cpus add).
Proof.
  unfold addOrRemoveCpusetFromFile.
  apply keepsSpecs_bind; [apply keepsSpecs_os_ReadFile|intros ?].
  apply keepsSpecs_bind; [apply keepsSpecs_lift|intros ?].
  apply keepsSpecs_bind; [apply keepsSpecs_cgroups_WriteFile|intros ?].
  apply keepsSpecs_ret.
Qed.

Lemma keepsSpecs_run {A} (c : M A) w r w' :
  keepsSpecs c -> c w = (r, w') -> ctrSpecs w' = ctrSpecs w.
Proof. intros Hc E. specialize (Hc w). by rewrite E in Hc. Qed.

Lemma cgroups_WriteFile_ret dir file data w w' :
  cgroups_WriteFile dir file data w = (Ret (), w') ->
  files w' = <[cgroupFile dir file := data]> (files w) /\ dirs w' = dirs w.
Proof.
  intros Hrun. apply cgroups_WriteFile_spec in Hrun as [_ (_ & _ & ->)]. done.
Qed.

Lemma cgroups_WriteFile_names dir file data w :
  sameNames w (cgroups_WriteFile dir file data w).2.
Proof.
  unfold cgroups_WriteFile. cbn. destruct (files w !! _) eqn:E; [|done].
  destruct (fault w _); [done|]. split; [|done]. cbn.
  apply dom_insert_lookup_L. by rewrite E.
Qed.

Lemma addOrRemoveCpusetFromFile_names path file cpus add w :
  sameNames w (addOrRemoveCpusetFromFile path file cpus add w).2.
Proof.
  unfold addOrRemoveCpusetFromFile, cgroups_ReadFile, os_ReadFile. rewrite bind_run.
  destruct (files w !! _); [|done]. destruct (fault w _); [done|].
  rewrite bind_run. unfold lift at 1. destruct (CPUSet.Parse _); [|done..].
  rewrite bind_run.
  pose proof (cgroups_WriteFile_names path file
                (CPUSet.String (if add then CPUSet.Union a cpus else CPUSet.Difference a cpus)) w)
    as Hd.
  by destruct (cgroups_WriteFile _ _ _ w) as [[[]| |] w1].
Qed.

Lemma run_names {A} (c : M A) w r w' :
  (forall w, sameNames w (c w).2) -> c w = (r, w') -> sameNames w w'.
Proof. intros Hc E. specialize (Hc w). by rewrite E in Hc. Qed.

Lemma sameNames_trans w1 w2 w3 : sameNames w1 w2 -> sameNames w2 w3 -> sameNames w1 w3.
Proof. intros [? ?] [? ?]. split; congruence. Qed.

Lemma pathExists_names path w w' : sameNames w w' -> pathExists path w' = pathExists path w.
Proof. intros [Hf Hd]. unfold pathExists, entries. by rewrite Hf, Hd. Qed.

(** A successful [setSharedCPUs], taken apart: the cgroup hierarchy it
    resolved, the world [w5] it reached before the environment is injected,
    and what the block that moves the isolated CPUs into a child cgroup
    has done by then. *)
Lemma setSharedCPUs_end (c : Container) (s : Sandbox) (shared : CPUSet.t)
    (w w' : World) (cpuRes : LinuxCPU) (isolated : CPUSet.t) :
  linuxCPU (SpecLinux (specOf c w)) = Ret cpuRes ->
  CPUSet.Parse (Cpus cpuRes) = Ret isolated ->
  setSharedCPUs c s (Some shared) w = (Ret (), w') ->
  exists pid ch w0 w5,
    ctrPid c = Ret pid
    /\ untouched w w0
    /\ CgroupBuildHierarchyFrom pid w0 = Ret ch
    /\ ctrSpecs w5 = ctrSpecs w
    /\ injectCpusetEnv c isolated shared w5 = (Ret (), w')
    /\ let child := childCgroup (GetAbsoluteControllerContainerPath ch "cpuset") in
       if asksToDisable (Annotations s) CPULoadBalancingAnnotation && cgroupIsV2 w
       then pathExists child w = false
            /\ files w5 !! cgroupFile child cpusetCpus = Some (CPUSet.String isolated)
            /\ files w5 !! cgroupFile child cpusetExclusive = Some (CPUSet.String isolated)
            /\ files w5 !! cgroupFile child cpusetPartition = Some "isolated"
            /\ child ∈ dirs w5
       else sameNames w w5.
Proof.
  intros Hcpu Hparse Hrun.
  unfold setSharedCPUs in Hrun.
  rewrite bind_run, c_Spec_run in Hrun.
  destruct (missingCPUs (SpecLinux (specOf c w))) eqn:Hmiss; [done|].
  apply bind_inv_ret in Hrun as (cpuRes' & w1 & E1 & Hrun).
  unfold lift in E1. rewrite Hcpu in E1. injection E1 as <- <-.
  rewrite Hparse in Hrun.
  apply bind_inv_ret in Hrun as ([] & w1 & E1 & Hrun). cbn [logf] in E1. injection E1 as <-.
  set (w0 := addLog _ w) in Hrun.
  assert (untouched w w0) as Hw0 by (by repeat split).
  apply bind_inv_ret in Hrun as (? & w1 & E1 & Hrun). injection E1 as _ <-.
  apply bind_inv_ret in Hrun as (? & w1 & E1 & Hrun). injection E1 as <- <-.
  apply bind_inv_ret in Hrun as (period & w1 & E1 & Hrun). unfold lift in E1.
  injection E1 as _ <-.
  apply bind_inv_ret in Hrun as (quota & w1 & E1 & Hrun). injection E1 as _ <-.
  apply bind_inv_ret in Hrun as (pid & w1 & E1 & Hrun).
  assert (ctrPid c = Ret pid /\ w1 = w0) as [Hpid ->].
  { unfold wrapErr, lift in E1. destruct (ctrPid c); by simplify_eq. }
  clear E1.
  apply bind_inv_ret in Hrun as (ch & w1 & E1 & Hrun).
  assert (CgroupBuildHierarchyFrom pid w0 = Ret ch /\ w1 = w0) as [Hch ->].
  { unfold wrapErr, askOutcome in E1. destruct (CgroupBuildHierarchyFrom pid _); by simplify_eq. }
  clear E1.
  exists pid, ch, w0. 
  (* the four writes at pod and container level *)
  apply bind_inv_ret in Hrun as (? & w1 & E1 & Hrun).
  pose proof (keepsSpecs_run _ _ _ _ (keepsSpecs_addOrRemoveCpusetFromFile _ _ _ _) E1) as Hs1.
  pose proof (run_names _ _ _ _ (addOrRemoveCpusetFromFile_names _ _ _ _) E1) as Hd1.
  apply additive_run in E1 as [_ Hv1]; [|apply additive_addOrRemoveCpusetFromFile].
  apply bind_inv_ret in Hrun as (qf & w2 & E2 & Hrun).
  rewrite quotaFile_run in E2. injection E2 as <- <-.
  apply bind_inv_ret in Hrun as ([] & w2 & E2 & Hrun).
  pose proof (keepsSpecs_run _ _ _ _ (keepsSpecs_cgroups_WriteFile _ _ _) E2) as Hs2.
  pose proof (run_names _ _ _ _ (cgroups_WriteFile_names _ _ _) E2) as Hd2.
  apply additive_run in E2 as [_ Hv2]; [|apply additive_cgroups_WriteFile].
  apply bind_inv_ret in Hrun as (? & w3 & E3 & Hrun).
  pose proof (keepsSpecs_run _ _ _ _ (keepsSpecs_addOrRemoveCpusetFromFile _ _ _ _) E3) as Hs3.
  pose proof (run_names _ _ _ _ (addOrRemoveCpusetFromFile_names _ _ _ _) E3) as Hd3.
  apply additive_run in E3 as [_ Hv3]; [|apply additive_addOrRemoveCpusetFromFile].
  apply bind_inv_ret in Hrun as ([] & w4 & E4 & Hrun).
  cbn [logf] in E4. injection E4 as <-.
  apply bind_inv_ret in Hrun as (qf & w5 & E5 & Hrun).
  rewrite quotaFile_run in E5. injection E5 as <- <-.
  apply bind_inv_ret in Hrun as ([] & w5 & E5 & Hrun).
  pose proof (keepsSpecs_run _ _ _ _ (keepsSpecs_cgroups_WriteFile _ _ _) E5) as Hs5.
  pose proof (run_names _ _ _ _ (cgroups_WriteFile_names _ _ _) E5) as Hd5.
  apply additive_run in E5 as [_ Hv5]; [|apply additive_cgroups_WriteFile].
  cbn [ctrSpecs cgroupIsV2 addLog] in Hs5, Hv5.
  assert (ctrSpecs w5 = ctrSpecs w /\ sameNames w w5 /\ cgroupIsV2 w5 = cgroupIsV2 w)
    as (Hs & Hd & Hv).
  { split; [|split]; [rewrite Hs5, Hs3, Hs2, Hs1; done| |rewrite Hv5, Hv3, Hv2, Hv1; done].
    apply (sameNames_trans _ w0); [by split|].
    apply (sameNames_trans _ w1); [done|]. apply (sameNames_trans _ w2); [done|].
    apply (sameNames_trans _ w3); [done|]. exact Hd5. }
  clear Hs1 Hs2 Hs3 Hs5 Hd1 Hd2 Hd3 Hd5 Hv1 Hv2 Hv3 Hv5.
  (* the decision to move the isolated CPUs *)
  apply bind_inv_ret in Hrun as (disabled & w6 & E6 & Hrun).
  destruct (shouldBeDisabled_run CPULoadBalancingAnnotation (Annotations s) w5)
    as (w6' & E6' & (Hf6 & Hd6 & _ & Hs6 & _ & Hv6) & _).
  unfold shouldCPULoadBalancingBeDisabled in E6. rewrite E6' in E6.
  injection E6 as <- <-. fold (asksToDisable (Annotations s) CPULoadBalancingAnnotation) in Hrun.
  apply bind_inv_ret in Hrun as (v2 & w7 & E7 & Hrun).
  assert (v2 = asksToDisable (Annotations s) CPULoadBalancingAnnotation && cgroupIsV2 w
          /\ w7 = w6') as [-> ->].
  { destruct (asksToDisable _ _); cbn in E7; injection E7 as <- <-; [|done].
    by rewrite Hv6, Hv. }
  clear E7.
  apply bind_inv_ret in Hrun as ([] & w8 & E8 & Hrun).
  exists w8. split; [done|]. split; [done|]. split; [done|].
  destruct (asksToDisable _ _ && cgroupIsV2 w); cbn [when] in E8.
  - set (ctrCgroup := GetAbsoluteControllerContainerPath ch "cpuset") in *.
    fold (childCgroup ctrCgroup) in E8. set (child := childCgroup ctrCgroup) in *.
    assert (sameNames w w6') as Hn6.
    { apply (sameNames_trans _ w5); [done|]. split; [by rewrite Hf6|done]. }
    apply bind_inv_ret in E8 as ([] & u1 & F1 & E8).
    pose proof (keepsSpecs_run _ _ _ _ (keepsSpecs_cgroups_WriteFile _ _ _) F1) as Hsu1.
    pose proof (run_names _ _ _ _ (cgroups_WriteFile_names _ _ _) F1) as Hnu1.
    apply bind_inv_ret in E8 as ([] & u2 & F2 & E8).
    pose proof (keepsSpecs_run _ _ _ _ (keepsSpecs_cgroups_WriteFile _ _ _) F2) as Hsu2.
    pose proof (run_names _ _ _ _ (cgroups_WriteFile_names _ _ _) F2) as Hnu2.
    apply bind_inv_ret in E8 as ([] & u3 & F3 & E8).
    pose proof (keepsSpecs_run _ _ _ _ (keepsSpecs_os_Mkdir _) F3) as Hsu3.
    assert (pathExists child u2 = false /\ dirs u3 = {[child]} ∪ dirs u2
            /\ files u3 = cgroupfsPopulate child (files u2)) as (Hfresh & Hdu3 & Hfu3).
    { unfold os_Mkdir in F3. cbn zeta in F3.
      change (pathExists child (record (OpMkdir child) u2)) with (pathExists child u2) in F3.
      destruct (pathExists child u2); [done|]. destruct (negb _); [done|].
      cbn [record fault] in F3. destruct (fault u2 _); [done|]. by injection F3 as <-. }
    clear F3.
    apply bind_inv_ret in E8 as ([] & u4 & F4 & E8).
    pose proof (keepsSpecs_run _ _ _ _ (keepsSpecs_cgroups_WriteFile _ _ _) F4) as Hsu4.
    apply cgroups_WriteFile_ret in F4 as [Hfu4 Hdu4].
    apply bind_inv_ret in E8 as ([] & u5 & F5 & E8).
    pose proof (keepsSpecs_run _ _ _ _ (keepsSpecs_cgroups_WriteFile _ _ _) F5) as Hsu5.
    apply cgroups_WriteFile_ret in F5 as [Hfu5 Hdu5].
    pose proof (keepsSpecs_run _ _ _ _ (keepsSpecs_cgroups_WriteFile _ _ _) E8) as Hsu6.
    apply cgroups_WriteFile_ret in E8 as [Hfu6 Hdu6].
    split; [congruence|]. split; [done|]. cbn zeta. fold ctrCgroup. fold child.
    split; [|split; [|split; [|split]]].
    + rewrite <- Hfresh. symmetry. apply pathExists_names.
      apply (sameNames_trans _ w6'); [done|]. by apply (sameNames_trans _ u1).
    + rewrite Hfu6, lookup_insert_ne by apply partitionFile_ne_cpus.
      rewrite Hfu5, lookup_insert_ne by apply exclusiveFile_ne_cpus.
      by rewrite Hfu4, lookup_insert_eq.
    + rewrite Hfu6, lookup_insert_ne by apply partitionFile_ne_exclusive.
      by rewrite Hfu5, lookup_insert_eq.
    + by rewrite Hfu6, lookup_insert_eq.
    + rewrite Hdu6, Hdu5, Hdu4, Hdu3. apply elem_of_union_l. by apply elem_of_singleton.
  - injection E8 as <-. split; [congruence|]. split; [done|]. cbn zeta.
    apply (sameNames_trans _ w5); [done|]. split; [by rewrite Hf6|done].
Qed.

Lemma injectCpusetEnv_ret c isolated shared w w' :
  injectCpusetEnv c isolated shared w = (Ret (), w') ->
  exists process,
    SpecProcess (specOf c w) = Some process
    /\ specOf c w'
       = {| SpecLinux := SpecLinux (specOf c w);
            SpecProcess :=
              Some {| Env := Env process
                             ++ [IsolatedCPUsEnvVar +:+ "=" +:+ CPUSet.String isolated;
                                 SharedCPUsEnvVar +:+ "=" +:+ CPUSet.String shared] |} |}
    /\ files w' = files w /\ dirs w' = dirs w /\ events w' = events w.
Proof.
  unfold injectCpusetEnv. rewrite bind_run, c_Spec_run. rewrite bind_run. unfold lift, deref.
  destruct (SpecProcess (specOf c w)) as [process|]; [|done].
  unfold c_SetSpec. intros [= <-]. exists process. split; [done|].
  split; [|done]. unfold specOf at 1. cbn. by rewrite lookup_insert_eq.
Qed.

(** X14.  A successful [setSharedCPUs] extends the environment of the
    container's process by exactly two variables, appended in this order:
    [OPENSHIFT_ISOLATED_CPUS] with the canonical form of the container's
    own CPUs and [OPENSHIFT_SHARED_CPUS] with that of the shared CPUs.  The
    variables already there and the rest of the spec are kept. *)
Theorem setSharedCPUs_injects_env (c : Container) (s : Sandbox) (shared : CPUSet.t)
    (w w' : World) (cpuRes : LinuxCPU) (isolated : CPUSet.t) :
  linuxCPU (SpecLinux (specOf c w)) = Ret cpuRes ->
  CPUSet.Parse (Cpus cpuRes) = Ret isolated ->
  setSharedCPUs c s (Some shared) w = (Ret (), w') ->
  exists process,
    SpecProcess (specOf c w) = Some process
    /\ specOf c w'
       = {| SpecLinux := SpecLinux (specOf c w);
            SpecProcess :=
              Some {| Env := Env process
                             ++ [IsolatedCPUsEnvVar +:+ "=" +:+ CPUSet.String isolated;
                                 SharedCPUsEnvVar +:+ "=" +:+ CPUSet.String shared] |} |}.
Proof.
  intros Hcpu Hparse Hrun.
  destruct (setSharedCPUs_end _ _ _ _ _ _ _ Hcpu Hparse Hrun)
    as (pid & ch & w0 & w5 & _ & _ & _ & Hspecs & Hinject & _).
  apply injectCpusetEnv_ret in Hinject as (process & Hprocess & Hspec & _).
  assert (specOf c w5 = specOf c w) as Heq by (unfold specOf; by rewrite Hspecs).
  exists process. rewrite <- Heq. by split.
Qed.

(** X15.  On cgroup v2, for a pod that asks for load balancing to be
    disabled, a successful [setSharedCPUs] has created the child cgroup
    [cgroup-child] under the container's cgroup and confined the
    container's own CPUs to it: before the call nothing existed at that
    path (no file, no directory, nothing below it), after it the directory
    is there, its [cpuset.cpus] and [cpuset.cpus.exclusive] hold the
    canonical form of the CPUs, and it is an [isolated] partition.
    Otherwise (cgroup v1, or no such annotation) the call creates nothing:
    the files and directories have the names they had. *)
Theorem setSharedCPUs_child_cgroup (c : Container) (s : Sandbox) (shared : CPUSet.t)
    (w w' : World) (cpuRes : LinuxCPU) (isolated : CPUSet.t) :
  linuxCPU (SpecLinux (specOf c w)) = Ret cpuRes ->
  CPUSet.Parse (Cpus cpuRes) = Ret isolated ->
  setSharedCPUs c s (Some shared) w = (Ret (), w') ->
  exists pid ch w0,
    ctrPid c = Ret pid
    /\ untouched w w0
    /\ CgroupBuildHierarchyFrom pid w0 = Ret ch
    /\ let child := childCgroup (GetAbsoluteControllerContainerPath ch "cpuset") in
       if asksToDisable (Annotations s) CPULoadBalancingAnnotation && cgroupIsV2 w
       then pathExists child w = false
            /\ pathExists child w' = true
            /\ child ∈ dirs w'
            /\ files w' !! cgroupFile child cpusetCpus = Some (CPUSet.String isolated)
            /\ files w' !! cgroupFile child cpusetExclusive = Some (CPUSet.String isolated)
            /\ files w' !! cgroupFile child cpusetPartition = Some "isolated"
       else sameNames w w'.
Proof.
  intros Hcpu Hparse Hrun.
  destruct (setSharedCPUs_end _ _ _ _ _ _ _ Hcpu Hparse Hrun)
    as (pid & ch & w0 & w5 & Hpid & Hw0 & Hch & _ & Hinject & Hchild).
  apply injectCpusetEnv_ret in Hinject as (_ & _ & _ & Hfiles & Hdirs & _).
  exists pid, ch, w0. split; [done|]. split; [done|]. split; [done|].
  cbn zeta in *. destruct (asksToDisable _ _ && cgroupIsV2 w).
  - destruct Hchild as (Hfresh & Hcpus & Hexcl & Hpart & Hdir).
    rewrite Hfiles, Hdirs. repeat split; try done.
    apply bool_decide_eq_true.
    exists (childCgroup (GetAbsoluteControllerContainerPath ch "cpuset")).
    split; [|by left]. unfold entries. rewrite Hdirs. by apply elem_of_union_r.
  - destruct Hchild as [Hf Hd]. split; congruence.
Qed.

(** *** The CFS quota *)

(** X16.  [setCPUQuota] lifts the CFS quota (quota [-1]) of the pod's
    cgroup first and of the container's cgroup second: when it returns nil
    both have been set, in that order, on managers created for the parent
    directory of the container's cgroup path and for the container's cgroup
    itself (under systemd the container is named by its ID and parents by
    their base name).  The manager name is [systemd] exactly when the
    parent directory ends in [.slice]; a manager that cannot be set up is a
    panic, not an error. *)
Theorem setCPUQuota_pod_then_container (parentDir : string) (c : Container) (w : World) :
  let name := if GoStrings.HasSuffix parentDir ".slice" then "systemd" else "cgroupfs" in
  (forall e, SetCgroupManager name = Fail e ->
     exists reason, setCPUQuota parentDir c w = (Panic reason, w))
  /\ (forall w', setCPUQuota parentDir c w = (Ret (), w') ->
        exists mgr cgroupPath setPod setCtr w1,
          SetCgroupManager name = Ret mgr
          /\ ContainerCgroupAbsolutePath mgr parentDir (ctrID c) = Ret cgroupPath
          /\ let systemd := IsSystemd mgr in
             let ctrParent := GoPath.Dir cgroupPath in
             libCtrMgr_New
               {| cgName := GoPath.Base ctrParent;
                  cgParent := if systemd then GoPath.Base (GoPath.Dir ctrParent)
                              else GoPath.Dir ctrParent;
                  cgResources := {| SkipDevices := true; CpuQuota := 0 |};
                  cgSystemd := systemd;
                  cgScopePrefix := CrioPrefix |} = Ret setPod
             /\ setPod unlimitedQuota w = (Ret (), w1)
             /\ libCtrMgr_New
                  {| cgName := if systemd then ctrID c else GoPath.Base cgroupPath;
                     cgParent := if systemd then GoPath.Base ctrParent else ctrParent;
                     cgResources := {| SkipDevices := true; CpuQuota := 0 |};
                     cgSystemd := systemd;
                     cgScopePrefix := CrioPrefix |} = Ret setCtr
             /\ setCtr unlimitedQuota w1 = (Ret (), w')).
Proof.
  intros name. unfold setCPUQuota, containerCgroupAndParent. split.
  - intros e He. rewrite !bind_run.
    assert ((if GoStrings.HasSuffix parentDir ".slice"
             then mustSetCgroupManager "systemd" else mustSetCgroupManager "cgroupfs")
            = mustSetCgroupManager name) as -> by (subst name; by destruct (GoStrings.HasSuffix _ _)).
    unfold mustSetCgroupManager. rewrite He. by eexists.
  - intros w' Hrun.
    assert ((if GoStrings.HasSuffix parentDir ".slice"
             then mustSetCgroupManager "systemd" else mustSetCgroupManager "cgroupfs")
            = mustSetCgroupManager name) as Hname
      by (subst name; by destruct (GoStrings.HasSuffix _ _)).
    rewrite Hname in Hrun. clear Hname.
    apply bind_inv_ret in Hrun as ([[cc cp] sd] & w0 & E0 & Hrun).
    apply bind_inv_ret in E0 as (mgr & wa & Ea & E0).
    unfold mustSetCgroupManager in Ea.
    destruct (SetCgroupManager name) as [mgr'|e|p] eqn:Hmgr; [|done..].
    injection Ea as <- <-.
    apply bind_inv_ret in E0 as (cgroupPath & wb & Eb & E0).
    unfold lift in Eb. injection Eb as Hpath <-.
    injection E0 as <- <- <- <-.
    apply bind_inv_ret in Hrun as ([] & w1 & E1 & E2).
    unfold disableCPUQuotaForCgroup in E1, E2.
    apply bind_inv_ret in E1 as (setPod & wc & Ec & E1).
    unfold lift in Ec. injection Ec as Hpod <-.
    apply bind_inv_ret in E2 as (setCtr & wd & Ed & E2).
    unfold lift in Ed. injection Ed as Hctr <-.
    exists mgr', cgroupPath, setPod, setCtr, w1. by repeat split.
Qed.

End MoreProperties.

(* ===================================================================== *)
(** ** The properties on the example systems                              *)
(* ===================================================================== *)

#[local] Existing Instance TestBed.collaborators.
Import Examples.

(** The rejected write at depth 3 undoes depths 1 and 2: the root-most
    directory is back to CPUs 4-5 after having held 2-5. *)
Example rollback_on_faulty_node :
  disableFailed.1 = Fail einval
  /\ cpusetOfContainer ctr faultyNode = (Ret "/kubepods/pod1/ctr1", faultyNode)
  /\ levelPaths (GoStrings.Split "/kubepods/pod1/ctr1" "/") "/sys/fs/cgroup"
     = ["/sys/fs/cgroup/kubepods"; "/sys/fs/cgroup/kubepods/pod1";
        "/sys/fs/cgroup/kubepods/pod1/ctr1"]
  /\ (setCPULoadBalancingV2_body ctr false (∅, faultyNode)).2.1
     = {[ "/sys/fs/cgroup/kubepods" := "4-5"; "/sys/fs/cgroup/kubepods/pod1" := "" ]}
  /\ OpWrite (exclusiveFile "/sys/fs/cgroup/kubepods") "2-5" ∈ events disableFailed.2
  /\ files disableFailed.2 !! exclusiveFile "/sys/fs/cgroup/kubepods" = Some "4-5"
  /\ files disableFailed.2 !! exclusiveFile "/sys/fs/cgroup/kubepods/pod1" = Some ""
  /\ files disableFailed.2 !! exclusiveFile "/sys/fs/cgroup/kubepods/pod1/ctr1" = Some "".
Proof.
  split; [vm_compute; reflexivity|]. split; [vm_compute; reflexivity|].
  split; [vm_compute; reflexivity|]. split; [vm_compute; reflexivity|].
  split; [vm_compute; repeat constructor|].
  split; [vm_compute; reflexivity|]. split; vm_compute; reflexivity.
Qed.

Lemma setCPULoadBalancingV2_rollback_witness :
  setCPULoadBalancingV2 ctr false faultyNode = (Fail einval, disableFailed.2)
  /\ exists valuesForRevert w1,
       setCPULoadBalancingV2_body ctr false (∅, faultyNode)
       = (Fail einval, (valuesForRevert, w1))
       /\ (forall cpusetPath, cpusetOfContainer ctr faultyNode = (Ret cpusetPath, faultyNode) ->
             let levels := levelPaths (GoStrings.Split cpusetPath "/") "/sys/fs/cgroup" in
             exists k : nat,
               (k <= length levels)%nat /\ dom valuesForRevert = list_to_set (take k levels))
       /\ (forall dir val, valuesForRevert !! dir = Some val ->
             files faultyNode !! exclusiveFile dir = Some val
             /\ (fault faultyNode (OpWrite (exclusiveFile dir) val) = None ->
                 files disableFailed.2 !! exclusiveFile dir = Some val))
       /\ (forall dir, valuesForRevert !! dir = None ->
             files disableFailed.2 !! exclusiveFile dir
             = files faultyNode !! exclusiveFile dir).
Proof.
  split; [vm_compute; reflexivity|].
  apply (setCPULoadBalancingV2_rollback ctr false faultyNode disableFailed.2 einval).
  vm_compute; reflexivity.
Defined.


(** C2 does not hold as stated: on re-enable the partition write is not
    skipped.  After the three removals succeed, the last operation of
    the call is the write of [isolated] to the leaf's partition file. *)
Lemma reenable_writes_partition :
  reenabled.1 = Ret ()
  /\ events isolatedNode = []
  /\ head (events reenabled.2) = Some (OpWrite leafPartition "isolated")
  /\ files reenabled.2 !! leafPartition = Some "isolated".
Proof.
  split; [vm_compute; reflexivity|]. split; [reflexivity|].
  split; vm_compute; reflexivity.
Qed.

(** The not-exist tolerance only covers the partition write: when the
    leaf directory is already gone while the levels are walked, the call
    fails, after putting the ancestors back. *)
Example reenable_on_removed_leaf :
  reenableRemoved.1
  = Fail (ErrNotExist "/sys/fs/cgroup/kubepods/pod1/ctr1/cpuset.cpus.exclusive")
  /\ files reenableRemoved.2 !! exclusiveFile "/sys/fs/cgroup/kubepods" = Some "2-5"
  /\ files reenableRemoved.2 !! exclusiveFile "/sys/fs/cgroup/kubepods/pod1" = Some "2-3".
Proof.
  split; [vm_compute; reflexivity|]. split; vm_compute; reflexivity.
Qed.

Lemma reenable_still_writes_partition_witness :
  reenableLevels = (Ret "/kubepods/pod1/ctr1", (reenableLevels.2.1, reenableLevels.2.2))
  /\ is_Some (files reenableLevels.2.2 !! leafPartition)
  /\ fault reenableLevels.2.2 (OpWrite leafPartition "isolated") = None
  /\ setCPULoadBalancingV2 ctr true isolatedNode
     = (Ret (),
        setFiles (<[leafPartition := "isolated"]> (files reenableLevels.2.2))
          (record (OpWrite leafPartition "isolated") reenableLevels.2.2)).
Proof.
  assert (reenableLevels
          = (Ret "/kubepods/pod1/ctr1", (reenableLevels.2.1, reenableLevels.2.2))) as Hlevels
    by (vm_compute; reflexivity).
  assert (is_Some (files reenableLevels.2.2 !! leafPartition)) as Hsome
    by (vm_compute; eexists; reflexivity).
  assert (fault reenableLevels.2.2 (OpWrite leafPartition "isolated") = None) as Hfault
    by (vm_compute; reflexivity).
  split; [exact Hlevels|]. split; [exact Hsome|]. split; [exact Hfault|].
  exact (proj1 (proj2 (reenable_still_writes_partition ctr isolatedNode
                         reenableLevels.2.2 "/kubepods/pod1/ctr1" reenableLevels.2.1 Hlevels))
           Hsome Hfault).
Defined.

Lemma ineligible_container_is_skipped_witness :
  (exists shares, sharesPointer (specOf ctr fractionalNode) = Some shares
                  /\ shares mod 1024 <> 0)
  /\ exists w1 w2,
       PreStart hooks ctr (pod allDirectives) fractionalNode = (Ret (), w1)
       /\ untouched fractionalNode w1
       /\ PreStop hooks ctr (pod allDirectives) fractionalNode = (Ret (), w2)
       /\ untouched fractionalNode w2.
Proof.
  assert (exists shares, sharesPointer (specOf ctr fractionalNode) = Some shares
                         /\ shares mod 1024 <> 0) as Hshares.
  { exists 1500. split; [vm_compute; reflexivity|]. vm_compute. discriminate. }
  split; [exact Hshares|].
  apply (ineligible_container_is_skipped hooks ctr (pod allDirectives) fractionalNode).
  right. right. exact Hshares.
Defined.

(** C4 does not hold for every period: for four CPUs and a period of [2^52]
    the product [4000 * 2^52] does not fit 64 bits, and the quota comes out
    negative although [4 * 2^52] would fit. *)
Lemma cfs_quota_overflows :
  calculateCFSQuota (CPUSet.Union [2; 3] [0; 1]) (Int64.wrap 4503599627370496)
  = Ret (-432345564227567)
  /\ CPUSet.Size (CPUSet.Union [2; 3] [0; 1]) * 4503599627370496 = 18014398509481984
  /\ calculateCFSQuota (CPUSet.Union [2; 3] [0; 1]) (Int64.wrap 4503599627370496)
     <> Ret (CPUSet.Size (CPUSet.Union [2; 3] [0; 1]) * 4503599627370496).
Proof.
  split; [vm_compute; reflexivity|]. split; [vm_compute; reflexivity|].
  vm_compute. discriminate.
Qed.

Lemma cfs_quota_of_shared_cpus_witness :
  (0 <= 100000
   /\ CPUSet.Size [0; 1; 2; 3] * 1000 < 2 ^ 63
   /\ CPUSet.Size [0; 1; 2; 3] * 1000 * 100000 < 2 ^ 63
   /\ calculateCFSQuota [0; 1; 2; 3] (Int64.wrap 100000)
      = Ret (CPUSet.Size [0; 1; 2; 3] * 100000))
  /\ (setSharedCPUs ctr (pod ∅) (Some [0; 1]) freshNode = (Ret (), shared.2)
      /\ exists quota pid ch w0,
           calculateCFSQuota (CPUSet.Union [2; 3] [0; 1]) (Int64.wrap 100000) = Ret quota
           /\ ctrPid ctr = Ret pid
           /\ untouched freshNode w0
           /\ CgroupBuildHierarchyFrom pid w0 = Ret ch
           /\ let qf := if cgroupIsV2 freshNode then cgroupV2Quota else cgroupV1Quota in
              OpWrite (cgroupFile (GetAbsoluteControllerPodPath ch "cpuacct") qf)
                      (GoStrings.Itoa quota) ∈ events shared.2
              /\ OpWrite (cgroupFile (GetAbsoluteControllerContainerPath ch "cpuacct") qf)
                         (GoStrings.Itoa quota) ∈ events shared.2).
Proof.
  split.
  - assert (0 <= 100000) as H1 by done.
    assert (CPUSet.Size [0; 1; 2; 3] * 1000 < 2 ^ 63) as H2 by done.
    assert (CPUSet.Size [0; 1; 2; 3] * 1000 * 100000 < 2 ^ 63) as H3 by done.
    split; [exact H1|]. split; [exact H2|]. split; [exact H3|].
    exact (proj1 cfs_quota_of_shared_cpus [0; 1; 2; 3] 100000 H1 H2 H3).
  - assert (setSharedCPUs ctr (pod ∅) (Some [0; 1]) freshNode = (Ret (), shared.2)) as Hrun
      by (vm_compute; reflexivity).
    split; [exact Hrun|].
    assert (linuxCPU (SpecLinux (specOf ctr freshNode)) = Ret wholeCPUs) as Hcpu
      by (vm_compute; reflexivity).
    assert (CPUSet.Parse (Cpus wholeCPUs) = Ret [2; 3]) as Hparse
      by (vm_compute; reflexivity).
    exact (proj2 (proj2 cfs_quota_of_shared_cpus) ctr (pod ∅) [0; 1] freshNode shared.2
             wholeCPUs [2; 3] 100000 Hcpu Hparse eq_refl Hrun).
Defined.

(** The quota of the example is written as it is, at both scopes. *)
Example shared_cpus_quota_files :
  files shared.2 !! "/sys/fs/cgroup/kubepods/pod1/cpu.max" = Some "400000"
  /\ files shared.2 !! "/sys/fs/cgroup/kubepods/pod1/ctr1/cpu.max" = Some "400000".
Proof. split; vm_compute; reflexivity. Qed.

Lemma restore_without_save_file_is_idempotent_witness :
  linuxCPU (SpecLinux (specOf ctr freshNode)) = Ret wholeCPUs
  /\ Cpus wholeCPUs <> ""
  /\ CPUSet.Parse (Cpus wholeCPUs) = Ret [2; 3]
  /\ (forall cpu, cpu ∈ [2; 3] -> files freshNode !! governorSaveFile sysCPUSaveDir cpu = None)
  /\ (forall cpu, cpu ∈ [2; 3] -> files freshNode !! latencySaveFile sysCPUSaveDir cpu = None)
  /\ (setCPUFreqGovernor ctr "" freshNode = (Ret (), freshNode)
      /\ (setCPUFreqGovernor ctr "";; setCPUFreqGovernor ctr "") freshNode
         = (Ret (), freshNode))
  /\ (setCPUPMQOSResumeLatency ctr "" freshNode = (Ret (), freshNode)
      /\ (setCPUPMQOSResumeLatency ctr "";; setCPUPMQOSResumeLatency ctr "") freshNode
         = (Ret (), freshNode)).
Proof.
  assert (linuxCPU (SpecLinux (specOf ctr freshNode)) = Ret wholeCPUs) as Hcpu
    by (vm_compute; reflexivity).
  assert (Cpus wholeCPUs <> "") as Hne by discriminate.
  assert (CPUSet.Parse (Cpus wholeCPUs) = Ret [2; 3]) as Hparse
    by (vm_compute; reflexivity).
  assert (forall cpu, cpu ∈ [2; 3] ->
            files freshNode !! governorSaveFile sysCPUSaveDir cpu = None) as Hgov.
  { intros cpu Hin. apply elem_of_cons in Hin as [->|Hin]; [vm_compute; reflexivity|].
    apply elem_of_cons in Hin as [->|Hin]; [vm_compute; reflexivity|].
    by apply elem_of_nil in Hin. }
  assert (forall cpu, cpu ∈ [2; 3] ->
            files freshNode !! latencySaveFile sysCPUSaveDir cpu = None) as Hlat.
  { intros cpu Hin. apply elem_of_cons in Hin as [->|Hin]; [vm_compute; reflexivity|].
    apply elem_of_cons in Hin as [->|Hin]; [vm_compute; reflexivity|].
    by apply elem_of_nil in Hin. }
  pose proof (restore_without_save_file_is_idempotent ctr freshNode sysCPUDir sysCPUSaveDir
                wholeCPUs [2; 3] Hcpu Hne Hparse) as [Hg Hl].
  split; [exact Hcpu|]. split; [exact Hne|]. split; [exact Hparse|].
  split; [exact Hgov|]. split; [exact Hlat|].
  split; [exact (Hg Hgov)|exact (Hl Hlat)].
Defined.

Lemma restore_stops_at_missing_save_file_witness :
  linuxCPU (SpecLinux (specOf ctr halfRestoredNode)) = Ret wholeCPUs
  /\ Cpus wholeCPUs <> ""
  /\ CPUSet.Parse (Cpus wholeCPUs) = Ret ([] ++ 2 :: [3])
  /\ files halfRestoredNode !! latencySaveFile sysCPUSaveDir 2 = None
  /\ files halfRestoredNode !! governorSaveFile sysCPUSaveDir 2 = None
  /\ is_Some (files halfRestoredNode !! latencySaveFile sysCPUSaveDir 3)
  /\ is_Some (files halfRestoredNode !! governorSaveFile sysCPUSaveDir 3)
  /\ setCPUPMQOSResumeLatency ctr "" halfRestoredNode = (Ret (), halfRestoredNode)
  /\ setCPUFreqGovernor ctr "" halfRestoredNode = (Ret (), halfRestoredNode).
Proof.
  assert (linuxCPU (SpecLinux (specOf ctr halfRestoredNode)) = Ret wholeCPUs) as Hcpu
    by (vm_compute; reflexivity).
  assert (Cpus wholeCPUs <> "") as Hne by discriminate.
  assert (CPUSet.Parse (Cpus wholeCPUs) = Ret ([] ++ 2 :: [3])) as Hparse
    by (vm_compute; reflexivity).
  assert (files halfRestoredNode !! latencySaveFile sysCPUSaveDir 2 = None) as Hlat
    by (vm_compute; reflexivity).
  assert (files halfRestoredNode !! governorSaveFile sysCPUSaveDir 2 = None) as Hgov
    by (vm_compute; reflexivity).
  pose proof (restore_stops_at_missing_save_file ctr halfRestoredNode sysCPUDir sysCPUSaveDir
                wholeCPUs [] [3] 2 Hcpu Hne Hparse) as [Hl Hg].
  split; [exact Hcpu|]. split; [exact Hne|]. split; [exact Hparse|].
  split; [exact Hlat|]. split; [exact Hgov|].
  split; [vm_compute; eexists; reflexivity|]. split; [vm_compute; eexists; reflexivity|].
  split.
  - exact (proj1 (Hl halfRestoredNode eq_refl Hlat)).
  - exact (proj1 (Hg halfRestoredNode eq_refl Hgov)).
Defined.

Lemma RestoreIrqBalanceConfig_not_reboot_witness :
  files freshNode !! IrqSmpAffinityProcFile = Some ("0f" +:+ TestBed.newline)
  /\ fault freshNode (OpRead IrqSmpAffinityProcFile) = None
  /\ mapHexCharToByte
       (GoStrings.ReplaceAll (GoStrings.TrimSpace ("0f" +:+ TestBed.newline)) "," "")
     = Ret [0; 15]
  /\ isAllBitSet [0; 15] = false
  /\ exists w',
       RestoreIrqBalanceConfig "/etc/sysconfig/irqbalance" "/etc/sysconfig/orig_irq_banned_cpus"
         IrqSmpAffinityProcFile freshNode = (Ret (), w')
       /\ untouched freshNode w'.
Proof.
  assert (files freshNode !! IrqSmpAffinityProcFile = Some ("0f" +:+ TestBed.newline))
    as Hfile by (vm_compute; reflexivity).
  assert (fault freshNode (OpRead IrqSmpAffinityProcFile) = None) as Hfault
    by (vm_compute; reflexivity).
  assert (mapHexCharToByte
            (GoStrings.ReplaceAll (GoStrings.TrimSpace ("0f" +:+ TestBed.newline)) "," "")
          = Ret [0; 15]) as Hmask by (vm_compute; reflexivity).
  assert (isAllBitSet [0; 15] = false) as Hbits by (vm_compute; reflexivity).
  split; [exact Hfile|]. split; [exact Hfault|]. split; [exact Hmask|].
  split; [exact Hbits|].
  exact (RestoreIrqBalanceConfig_not_reboot "/etc/sysconfig/irqbalance"
           "/etc/sysconfig/orig_irq_banned_cpus" IrqSmpAffinityProcFile freshNode
           ("0f" +:+ TestBed.newline) [0; 15] Hfile Hfault Hmask Hbits).
Defined.

Lemma nil_shares_panics_witness :
  sharesPointer (specOf ctr noSpecNode) = None
  /\ isCgroupParentBurstable (pod allDirectives) = false
  /\ isCgroupParentBestEffort (pod allDirectives) = false
  /\ linuxCPU (SpecLinux (specOf ctr noSpecNode)) = Panic nilDeref
  /\ isContainerRequestWholeCPU (specOf ctr noSpecNode) = Panic nilDeref
  /\ (PreStart hooks ctr (pod allDirectives) noSpecNode).1 = Panic nilDeref
  /\ (PreStop hooks ctr (pod allDirectives) noSpecNode).1 = Panic nilDeref
  /\ setCPULoadBalancing ctr false noSpecNode
     = (Fail (ErrMsg ("find container " +:+ ctrID ctr +:+ " CPUs")), noSpecNode).
Proof.
  assert (sharesPointer (specOf ctr noSpecNode) = None) as Hnil
    by (vm_compute; reflexivity).
  assert (isCgroupParentBurstable (pod allDirectives) = false) as Hb
    by (vm_compute; reflexivity).
  assert (isCgroupParentBestEffort (pod allDirectives) = false) as He
    by (vm_compute; reflexivity).
  assert (linuxCPU (SpecLinux (specOf ctr noSpecNode)) = Panic nilDeref) as Hcpu
    by (vm_compute; reflexivity).
  pose proof (nil_shares_panics hooks ctr (pod allDirectives) noSpecNode Hnil)
    as (Hwhole & Hhooks & Hguards).
  destruct (Hhooks Hb He) as (_ & Hstart & Hstop).
  destruct (Hguards Hcpu false "" "" "" "" "") as (Hlb & _).
  split; [exact Hnil|]. split; [exact Hb|]. split; [exact He|]. split; [exact Hcpu|].
  split; [exact Hwhole|]. split; [exact Hstart|]. split; [exact Hstop|exact Hlb].
Defined.

(** *** Further properties on the example systems *)

Import MoreExamples.

(** Adding CPUs 2-3 to the exclusive CPUs of the outermost level. *)
Lemma addOrRemoveCpusetFromFile_contract_witness :
  let run := addOrRemoveCpusetFromFile "/sys/fs/cgroup/kubepods" "cpuset.cpus.exclusive"
               [2; 3] true freshNode in
  let file := cgroupFile "/sys/fs/cgroup/kubepods" "cpuset.cpus.exclusive" in
  run = (Ret "4-5", run.2)
  /\ (forall other, other <> file -> files run.2 !! other = files freshNode !! other)
  /\ files freshNode !! file = Some "4-5"
  /\ exists new, targetCpus "4-5" [2; 3] true = Ret new /\ files run.2 !! file = Some new.
Proof.
  intros run file.
  assert (run = (Ret "4-5", run.2)) as Hrun by (vm_compute; reflexivity).
  split; [exact Hrun|].
  exact (addOrRemoveCpusetFromFile_contract "/sys/fs/cgroup/kubepods" "cpuset.cpus.exclusive"
           [2; 3] true freshNode run.2 (Ret "4-5") Hrun).
Defined.

Lemma ShouldCPUQuotaBeDisabled_iff_witness :
  let run := ShouldCPUQuotaBeDisabled "ctr1" (specWith wholeCPUs) quotaPod
               (Annotations quotaPod) freshNode in
  run = (Ret true, run.2)
  /\ untouched freshNode run.2
  /\ (Ret true = Ret true <->
      isCgroupParentBurstable quotaPod = false
      /\ isCgroupParentBestEffort quotaPod = false
      /\ isContainerRequestWholeCPU (specWith wholeCPUs) = Ret true
      /\ (annotation (Annotations quotaPod) CPUQuotaAnnotation = annotationTrue
          \/ annotation (Annotations quotaPod) CPUQuotaAnnotation = annotationDisable)).
Proof.
  intros run.
  assert (run = (Ret true, run.2)) as Hrun by (vm_compute; reflexivity).
  split; [exact Hrun|].
  exact (ShouldCPUQuotaBeDisabled_iff "ctr1" (specWith wholeCPUs) quotaPod
           (Annotations quotaPod) freshNode run.2 (Ret true) Hrun).
Defined.

Lemma PreStart_without_directives_witness :
  isCgroupParentBurstable (pod ∅) = false
  /\ isCgroupParentBestEffort (pod ∅) = false
  /\ isContainerRequestWholeCPU (specOf ctr freshNode) = Ret true
  /\ requestedSharedCPUs (Annotations (pod ∅)) (ctrMetadataName ctr) = false
  /\ Annotations (pod ∅) !! CPUCStatesAnnotation = None
  /\ Annotations (pod ∅) !! CPUFreqGovernorAnnotation = None
  /\ exists w1, PreStart hooks ctr (pod ∅) freshNode = (Ret (), w1) /\ untouched freshNode w1.
Proof.
  assert (isCgroupParentBurstable (pod ∅) = false) as Hb by (vm_compute; reflexivity).
  assert (isCgroupParentBestEffort (pod ∅) = false) as He by (vm_compute; reflexivity).
  assert (isContainerRequestWholeCPU (specOf ctr freshNode) = Ret true) as Hw
    by (vm_compute; reflexivity).
  assert (forall key,
            key ∈ [CPULoadBalancingAnnotation; IRQLoadBalancingAnnotation; CPUQuotaAnnotation] ->
            annotation (Annotations (pod ∅)) key <> annotationTrue
            /\ annotation (Annotations (pod ∅)) key <> annotationDisable) as Hoff.
  { intros key _. unfold annotation, pod, Annotations. rewrite lookup_empty.
    split; discriminate. }
  assert (requestedSharedCPUs (Annotations (pod ∅)) (ctrMetadataName ctr) = false) as Hshared
    by (vm_compute; reflexivity).
  assert (Annotations (pod ∅) !! CPUCStatesAnnotation = None) as Hcs
    by (vm_compute; reflexivity).
  assert (Annotations (pod ∅) !! CPUFreqGovernorAnnotation = None) as Hgov
    by (vm_compute; reflexivity).
  split; [exact Hb|]. split; [exact He|]. split; [exact Hw|]. split; [exact Hshared|].
  split; [exact Hcs|]. split; [exact Hgov|].
  exact (PreStart_without_directives hooks ctr (pod ∅) freshNode Hb He Hw Hoff Hshared Hcs Hgov).
Defined.

(** A pod that asks for the quota to be lifted and for shared CPUs:
    [PreStop] has nothing to undo. *)
Lemma PreStop_ignores_quota_and_shared_cpus_witness :
  isCgroupParentBurstable quotaPod = false
  /\ isCgroupParentBestEffort quotaPod = false
  /\ isContainerRequestWholeCPU (specOf ctr freshNode) = Ret true
  /\ annotation (Annotations quotaPod) CPUQuotaAnnotation = annotationDisable
  /\ requestedSharedCPUs (Annotations quotaPod) (ctrMetadataName ctr) = true
  /\ Annotations quotaPod !! CPUCStatesAnnotation = None
  /\ Annotations quotaPod !! CPUFreqGovernorAnnotation = None
  /\ exists w1, PreStop hooks ctr quotaPod freshNode = (Ret (), w1) /\ untouched freshNode w1.
Proof.
  assert (isCgroupParentBurstable quotaPod = false) as Hb by (vm_compute; reflexivity).
  assert (isCgroupParentBestEffort quotaPod = false) as He by (vm_compute; reflexivity).
  assert (isContainerRequestWholeCPU (specOf ctr freshNode) = Ret true) as Hw
    by (vm_compute; reflexivity).
  assert (forall key,
            key ∈ [CPULoadBalancingAnnotation; IRQLoadBalancingAnnotation] ->
            annotation (Annotations quotaPod) key <> annotationTrue
            /\ annotation (Annotations quotaPod) key <> annotationDisable) as Hoff.
  { intros key Hin.
    apply elem_of_cons in Hin as [->|Hin]; [split; vm_compute; discriminate|].
    apply elem_of_cons in Hin as [->|Hin]; [split; vm_compute; discriminate|].
    by apply elem_of_nil in Hin. }
  assert (Annotations quotaPod !! CPUCStatesAnnotation = None) as Hcs
    by (vm_compute; reflexivity).
  assert (Annotations quotaPod !! CPUFreqGovernorAnnotation = None) as Hgov
    by (vm_compute; reflexivity).
  split; [exact Hb|]. split; [exact He|]. split; [exact Hw|].
  split; [vm_compute; reflexivity|]. split; [vm_compute; reflexivity|].
  split; [exact Hcs|]. split; [exact Hgov|].
  exact (PreStop_ignores_quota_and_shared_cpus hooks ctr quotaPod freshNode
           Hb He Hw Hoff Hcs Hgov).
Defined.

Lemma setCPULoadBalancing_cgroup_v1_witness :
  let run := setCPULoadBalancing ctr false v1Node in
  cgroupIsV2 v1Node = false
  /\ run = (Ret (), run.2)
  /\ exists cpusetPath,
       cpusetOfContainer ctr v1Node = (Ret cpusetPath, v1Node)
       /\ is_Some (files v1Node !! schedLoadBalanceFile cpusetPath)
       /\ files run.2 = <[schedLoadBalanceFile cpusetPath := "0"]> (files v1Node).
Proof.
  intros run.
  assert (cgroupIsV2 v1Node = false) as Hv1 by reflexivity.
  assert (run = (Ret (), run.2)) as Hrun by (vm_compute; reflexivity).
  split; [exact Hv1|]. split; [exact Hrun|].
  exact (setCPULoadBalancing_cgroup_v1 ctr false v1Node run.2 (Ret ()) Hv1 Hrun).
Defined.

Lemma RestoreIrqBalanceConfig_first_boot_witness :
  files rebootedNode !! IrqSmpAffinityProcFile = Some ("ff" +:+ TestBed.newline)
  /\ fault rebootedNode (OpRead IrqSmpAffinityProcFile) = None
  /\ mapHexCharToByte
       (GoStrings.ReplaceAll (GoStrings.TrimSpace ("ff" +:+ TestBed.newline)) "," "")
     = Ret [15; 15]
  /\ isAllBitSet [15; 15] = true
  /\ retrieveIrqBannedCPUMasks irqBalanceConfig rebootedNode = Ret "0c"
  /\ fileExists bannedCPUConfig rebootedNode = false
  /\ fault rebootedNode (OpCreate bannedCPUConfig) = None
  /\ fault rebootedNode (OpWrite bannedCPUConfig "0c") = None
  /\ exists w',
       RestoreIrqBalanceConfig irqBalanceConfig bannedCPUConfig IrqSmpAffinityProcFile
         rebootedNode = (Ret (), w')
       /\ files w' = <[bannedCPUConfig := "0c"]> (files rebootedNode)
       /\ events w' = OpWrite bannedCPUConfig "0c" :: OpCreate bannedCPUConfig
                      :: events rebootedNode.
Proof.
  assert (files rebootedNode !! IrqSmpAffinityProcFile = Some ("ff" +:+ TestBed.newline))
    as Hfile by (vm_compute; reflexivity).
  assert (fault rebootedNode (OpRead IrqSmpAffinityProcFile) = None) as Hfault
    by (vm_compute; reflexivity).
  assert (mapHexCharToByte
            (GoStrings.ReplaceAll (GoStrings.TrimSpace ("ff" +:+ TestBed.newline)) "," "")
          = Ret [15; 15]) as Hmask by (vm_compute; reflexivity).
  assert (isAllBitSet [15; 15] = true) as Hbits by (vm_compute; reflexivity).
  assert (retrieveIrqBannedCPUMasks irqBalanceConfig rebootedNode = Ret "0c") as Hbanned
    by (vm_compute; reflexivity).
  assert (fileExists bannedCPUConfig rebootedNode = false) as Hexists
    by (vm_compute; reflexivity).
  assert (fault rebootedNode (OpCreate bannedCPUConfig) = None) as Hcreate
    by (vm_compute; reflexivity).
  assert (fault rebootedNode (OpWrite bannedCPUConfig "0c") = None) as Hwrite
    by (vm_compute; reflexivity).
  split; [exact Hfile|]. split; [exact Hfault|]. split; [exact Hmask|].
  split; [exact Hbits|]. split; [exact Hbanned|]. split; [exact Hexists|].
  split; [exact Hcreate|]. split; [exact Hwrite|].
  exact (RestoreIrqBalanceConfig_first_boot irqBalanceConfig bannedCPUConfig
           IrqSmpAffinityProcFile rebootedNode ("ff" +:+ TestBed.newline) [15; 15] "0c"
           Hfile Hfault Hmask Hbits Hbanned Hexists Hcreate Hwrite).
Defined.

(** The backup says no CPU was banned: the configuration goes back to
    that, and the call returns nil. *)
Lemma RestoreIrqBalanceConfig_restores_witness :
  files staleBackupNode !! IrqSmpAffinityProcFile = Some ("ff" +:+ TestBed.newline)
  /\ fault staleBackupNode (OpRead IrqSmpAffinityProcFile) = None
  /\ mapHexCharToByte
       (GoStrings.ReplaceAll (GoStrings.TrimSpace ("ff" +:+ TestBed.newline)) "," "")
     = Ret [15; 15]
  /\ isAllBitSet [15; 15] = true
  /\ retrieveIrqBannedCPUMasks irqBalanceConfig staleBackupNode = Ret "0c"
  /\ fileExists bannedCPUConfig staleBackupNode = true
  /\ files staleBackupNode !! bannedCPUConfig = Some ("00" +:+ TestBed.newline)
  /\ fault staleBackupNode (OpRead bannedCPUConfig) = None
  /\ "0c" <> GoStrings.TrimSpace ("00" +:+ TestBed.newline)
  /\ (RestoreIrqBalanceConfig irqBalanceConfig bannedCPUConfig IrqSmpAffinityProcFile
        staleBackupNode).1 = Ret ().
Proof.
  assert (files staleBackupNode !! IrqSmpAffinityProcFile = Some ("ff" +:+ TestBed.newline))
    as Hfile by (vm_compute; reflexivity).
  assert (fault staleBackupNode (OpRead IrqSmpAffinityProcFile) = None) as Hfault
    by (vm_compute; reflexivity).
  assert (mapHexCharToByte
            (GoStrings.ReplaceAll (GoStrings.TrimSpace ("ff" +:+ TestBed.newline)) "," "")
          = Ret [15; 15]) as Hmask by (vm_compute; reflexivity).
  assert (isAllBitSet [15; 15] = true) as Hbits by (vm_compute; reflexivity).
  assert (retrieveIrqBannedCPUMasks irqBalanceConfig staleBackupNode = Ret "0c") as Hbanned
    by (vm_compute; reflexivity).
  assert (fileExists bannedCPUConfig staleBackupNode = true) as Hexists
    by (vm_compute; reflexivity).
  assert (files staleBackupNode !! bannedCPUConfig = Some ("00" +:+ TestBed.newline))
    as Hsaved by (vm_compute; reflexivity).
  assert (fault staleBackupNode (OpRead bannedCPUConfig) = None) as Hread
    by (vm_compute; reflexivity).
  assert ("0c" <> GoStrings.TrimSpace ("00" +:+ TestBed.newline)) as Hne
    by (vm_compute; discriminate).
  split; [exact Hfile|]. split; [exact Hfault|]. split; [exact Hmask|].
  split; [exact Hbits|]. split; [exact Hbanned|]. split; [exact Hexists|].
  split; [exact Hsaved|]. split; [exact Hread|]. split; [exact Hne|].
  pose proof (RestoreIrqBalanceConfig_restores irqBalanceConfig bannedCPUConfig
                IrqSmpAffinityProcFile staleBackupNode ("ff" +:+ TestBed.newline) [15; 15]
                "0c" ("00" +:+ TestBed.newline)
                Hfile Hfault Hmask Hbits Hbanned Hexists Hsaved Hread Hne) as Hthm.
  cbv zeta in Hthm.
  set (updated := updateIrqBalanceConfigFile irqBalanceConfig _ _) in Hthm.
  assert (updated.1 = Ret ()) as Hupdated by (vm_compute; reflexivity).
  rewrite Hupdated in Hthm.
  apply Hthm. intros p. vm_compute. discriminate.
Defined.

Lemma RestoreIrqBalanceConfig_nothing_to_do_witness :
  files sameBackupNode !! IrqSmpAffinityProcFile = Some ("ff" +:+ TestBed.newline)
  /\ fault sameBackupNode (OpRead IrqSmpAffinityProcFile) = None
  /\ mapHexCharToByte
       (GoStrings.ReplaceAll (GoStrings.TrimSpace ("ff" +:+ TestBed.newline)) "," "")
     = Ret [15; 15]
  /\ isAllBitSet [15; 15] = true
  /\ retrieveIrqBannedCPUMasks irqBalanceConfig sameBackupNode
     = Ret (GoStrings.TrimSpace ("0c" +:+ TestBed.newline))
  /\ fileExists bannedCPUConfig sameBackupNode = true
  /\ files sameBackupNode !! bannedCPUConfig = Some ("0c" +:+ TestBed.newline)
  /\ fault sameBackupNode (OpRead bannedCPUConfig) = None
  /\ exists w',
       RestoreIrqBalanceConfig irqBalanceConfig bannedCPUConfig IrqSmpAffinityProcFile
         sameBackupNode = (Ret (), w')
       /\ untouched sameBackupNode w'.
Proof.
  assert (files sameBackupNode !! IrqSmpAffinityProcFile = Some ("ff" +:+ TestBed.newline))
    as Hfile by (vm_compute; reflexivity).
  assert (fault sameBackupNode (OpRead IrqSmpAffinityProcFile) = None) as Hfault
    by (vm_compute; reflexivity).
  assert (mapHexCharToByte
            (GoStrings.ReplaceAll (GoStrings.TrimSpace ("ff" +:+ TestBed.newline)) "," "")
          = Ret [15; 15]) as Hmask by (vm_compute; reflexivity).
  assert (isAllBitSet [15; 15] = true) as Hbits by (vm_compute; reflexivity).
  assert (retrieveIrqBannedCPUMasks irqBalanceConfig sameBackupNode
          = Ret (GoStrings.TrimSpace ("0c" +:+ TestBed.newline))) as Hbanned
    by (vm_compute; reflexivity).
  assert (fileExists bannedCPUConfig sameBackupNode = true) as Hexists
    by (vm_compute; reflexivity).
  assert (files sameBackupNode !! bannedCPUConfig = Some ("0c" +:+ TestBed.newline))
    as Hsaved by (vm_compute; reflexivity).
  assert (fault sameBackupNode (OpRead bannedCPUConfig) = None) as Hread
    by (vm_compute; reflexivity).
  split; [exact Hfile|]. split; [exact Hfault|]. split; [exact Hmask|].
  split; [exact Hbits|]. split; [exact Hbanned|]. split; [exact Hexists|].
  split; [exact Hsaved|]. split; [exact Hread|].
  exact (RestoreIrqBalanceConfig_nothing_to_do irqBalanceConfig bannedCPUConfig
           IrqSmpAffinityProcFile sameBackupNode ("ff" +:+ TestBed.newline) [15; 15]
           Hfile Hfault Hmask Hbits
           (or_intror (ex_intro _ ("0c" +:+ TestBed.newline)
                         (conj Hbanned (conj Hexists (conj Hsaved Hread)))))).
Defined.

(** On the fresh node there is neither an irqbalance configuration nor an
    irqbalance binary: the mask is written and the call returns nil. *)
Lemma setIRQLoadBalancing_irqbalance_witness :
  let w1 := setFiles (<[IrqSmpAffinityProcFile := "03"]> (files freshNode))
              (record (OpWrite IrqSmpAffinityProcFile "03") freshNode) in
  linuxCPU (SpecLinux (specOf ctr freshNode)) = Ret wholeCPUs
  /\ Cpus wholeCPUs <> ""
  /\ files freshNode !! IrqSmpAffinityProcFile = Some ("0f" +:+ TestBed.newline)
  /\ fault freshNode (OpRead IrqSmpAffinityProcFile) = None
  /\ UpdateIRQSmpAffinityMask (Cpus wholeCPUs)
       (GoStrings.TrimSpace ("0f" +:+ TestBed.newline)) false = Ret ("03", "fc")
  /\ fault freshNode (OpWrite IrqSmpAffinityProcFile "03") = None
  /\ fileExists irqBalanceConfig w1 = false
  /\ exec_LookPath irqBalancedName w1
     = Fail (ErrMsg "exec: irqbalance: executable file not found in $PATH")
  /\ setIRQLoadBalancing ctr false IrqSmpAffinityProcFile irqBalanceConfig freshNode
     = (Ret (), addLog "Irqbalance binary not found" w1).
Proof.
  intros w1.
  assert (linuxCPU (SpecLinux (specOf ctr freshNode)) = Ret wholeCPUs) as Hcpu
    by (vm_compute; reflexivity).
  assert (Cpus wholeCPUs <> "") as Hcpus by discriminate.
  assert (files freshNode !! IrqSmpAffinityProcFile = Some ("0f" +:+ TestBed.newline))
    as Hfile by (vm_compute; reflexivity).
  assert (fault freshNode (OpRead IrqSmpAffinityProcFile) = None) as Hread
    by (vm_compute; reflexivity).
  assert (UpdateIRQSmpAffinityMask (Cpus wholeCPUs)
            (GoStrings.TrimSpace ("0f" +:+ TestBed.newline)) false = Ret ("03", "fc"))
    as Hmasks by (vm_compute; reflexivity).
  assert (fault freshNode (OpWrite IrqSmpAffinityProcFile "03") = None) as Hwrite
    by (vm_compute; reflexivity).
  assert (fileExists irqBalanceConfig w1 = false) as Hexists by (vm_compute; reflexivity).
  assert (exec_LookPath irqBalancedName w1
          = Fail (ErrMsg "exec: irqbalance: executable file not found in $PATH")) as Hlook
    by (vm_compute; reflexivity).
  split; [exact Hcpu|]. split; [exact Hcpus|]. split; [exact Hfile|]. split; [exact Hread|].
  split; [exact Hmasks|]. split; [exact Hwrite|]. split; [exact Hexists|].
  split; [exact Hlook|].
  exact (proj1 (proj1 (setIRQLoadBalancing_irqbalance ctr false IrqSmpAffinityProcFile
                         irqBalanceConfig freshNode ("0f" +:+ TestBed.newline) wholeCPUs
                         "03" "fc" Hcpu Hcpus Hfile Hread Hmasks Hwrite) Hexists)
           _ Hlook).
Defined.

Lemma resume_latency_round_trip_witness :
  "n/a" <> ""
  /\ linuxCPU (SpecLinux (specOf ctr freshNode)) = Ret wholeCPUs
  /\ Cpus wholeCPUs <> ""
  /\ CPUSet.Parse (Cpus wholeCPUs) = Ret [2; 3]
  /\ noFaults freshNode
  /\ NoDup ((latencyFile sysCPUDir <$> [2; 3]) ++ (latencySaveFile sysCPUSaveDir <$> [2; 3]))
  /\ (forall cpu, cpu ∈ [2; 3] -> is_Some (files freshNode !! latencyFile sysCPUDir cpu))
  /\ exists w1 w2,
       doSetCPUPMQOSResumeLatency ctr "n/a" sysCPUDir sysCPUSaveDir freshNode = (Ret (), w1)
       /\ (forall cpu, cpu ∈ [2; 3] -> files w1 !! latencyFile sysCPUDir cpu = Some "n/a")
       /\ doSetCPUPMQOSResumeLatency ctr "" sysCPUDir sysCPUSaveDir w1 = (Ret (), w2)
       /\ (forall cpu, cpu ∈ [2; 3] ->
             files w2 !! latencyFile sysCPUDir cpu = files freshNode !! latencyFile sysCPUDir cpu
             /\ files w2 !! latencySaveFile sysCPUSaveDir cpu = None)
       /\ (forall path,
             path ∉ ((latencyFile sysCPUDir <$> [2; 3])
                     ++ (latencySaveFile sysCPUSaveDir <$> [2; 3])) ->
             files w2 !! path = files freshNode !! path).
Proof.
  assert ("n/a" <> "") as Hne by discriminate.
  assert (linuxCPU (SpecLinux (specOf ctr freshNode)) = Ret wholeCPUs) as Hcpu
    by (vm_compute; reflexivity).
  assert (Cpus wholeCPUs <> "") as Hcpus by discriminate.
  assert (CPUSet.Parse (Cpus wholeCPUs) = Ret [2; 3]) as Hparse by (vm_compute; reflexivity).
  assert (noFaults freshNode) as Hnf by (intros op; reflexivity).
  assert (NoDup ((latencyFile sysCPUDir <$> [2; 3])
                 ++ (latencySaveFile sysCPUSaveDir <$> [2; 3]))) as Hnd
    by (apply (bool_decide_unpack _); vm_compute; exact I).
  assert (forall cpu, cpu ∈ [2; 3] -> is_Some (files freshNode !! latencyFile sysCPUDir cpu))
    as Hlive.
  { intros cpu Hin.
    apply elem_of_cons in Hin as [->|Hin]; [vm_compute; eexists; reflexivity|].
    apply elem_of_cons in Hin as [->|Hin]; [vm_compute; eexists; reflexivity|].
    by apply elem_of_nil in Hin. }
  split; [exact Hne|]. split; [exact Hcpu|]. split; [exact Hcpus|]. split; [exact Hparse|].
  split; [exact Hnf|]. split; [exact Hnd|]. split; [exact Hlive|].
  exact (resume_latency_round_trip ctr "n/a" sysCPUDir sysCPUSaveDir freshNode wholeCPUs [2; 3]
           Hne Hcpu Hcpus Hparse Hnf Hnd Hlive).
Defined.

Lemma governor_round_trip_witness :
  let paths := (governorFile sysCPUDir <$> [2; 3])
               ++ (governorSaveFile sysCPUSaveDir <$> [2; 3]) in
  "performance" <> ""
  /\ linuxCPU (SpecLinux (specOf ctr governorNode)) = Ret wholeCPUs
  /\ Cpus wholeCPUs <> ""
  /\ CPUSet.Parse (Cpus wholeCPUs) = Ret [2; 3]
  /\ noFaults governorNode
  /\ NoDup paths
  /\ (forall cpu, cpu ∈ [2; 3] ->
        is_Some (files governorNode !! governorFile sysCPUDir cpu)
        /\ supportsGovernor governorNode sysCPUDir cpu "performance"
        /\ (availableGovernorsFile sysCPUDir cpu ∉ paths))
  /\ exists w1 w2,
       doSetCPUFreqGovernor ctr "performance" sysCPUDir sysCPUSaveDir governorNode = (Ret (), w1)
       /\ (forall cpu, cpu ∈ [2; 3] ->
             files w1 !! governorFile sysCPUDir cpu = Some "performance")
       /\ doSetCPUFreqGovernor ctr "" sysCPUDir sysCPUSaveDir w1 = (Ret (), w2)
       /\ (forall cpu, cpu ∈ [2; 3] ->
             files w2 !! governorFile sysCPUDir cpu
             = files governorNode !! governorFile sysCPUDir cpu
             /\ files w2 !! governorSaveFile sysCPUSaveDir cpu = None)
       /\ (forall path, path ∉ paths -> files w2 !! path = files governorNode !! path).
Proof.
  intros paths.
  assert ("performance" <> "") as Hne by discriminate.
  assert (linuxCPU (SpecLinux (specOf ctr governorNode)) = Ret wholeCPUs) as Hcpu
    by (vm_compute; reflexivity).
  assert (Cpus wholeCPUs <> "") as Hcpus by discriminate.
  assert (CPUSet.Parse (Cpus wholeCPUs) = Ret [2; 3]) as Hparse by (vm_compute; reflexivity).
  assert (noFaults governorNode) as Hnf by (intros op; reflexivity).
  assert (NoDup paths) as Hnd by (apply (bool_decide_unpack _); vm_compute; exact I).
  assert (forall cpu, cpu ∈ [2; 3] ->
            is_Some (files governorNode !! governorFile sysCPUDir cpu)
            /\ supportsGovernor governorNode sysCPUDir cpu "performance"
            /\ (availableGovernorsFile sysCPUDir cpu ∉ paths)) as Hlive.
  { assert (forall cpu, cpu = 2 \/ cpu = 3 ->
              is_Some (files governorNode !! governorFile sysCPUDir cpu)
              /\ supportsGovernor governorNode sysCPUDir cpu "performance"
              /\ (availableGovernorsFile sysCPUDir cpu ∉ paths)) as Hboth.
    { intros cpu [->| ->].
      - split; [vm_compute; eexists; reflexivity|]. split.
        + exists "performance powersave". split; [vm_compute; reflexivity|].
          apply (bool_decide_unpack _). vm_compute. exact I.
        + apply (bool_decide_unpack _). vm_compute. exact I.
      - split; [vm_compute; eexists; reflexivity|]. split.
        + exists "performance powersave". split; [vm_compute; reflexivity|].
          apply (bool_decide_unpack _). vm_compute. exact I.
        + apply (bool_decide_unpack _). vm_compute. exact I. }
    intros cpu Hin. apply Hboth.
    apply elem_of_cons in Hin as [->|Hin]; [by left|].
    apply elem_of_cons in Hin as [->|Hin]; [by right|].
    by apply elem_of_nil in Hin. }
  split; [exact Hne|]. split; [exact Hcpu|]. split; [exact Hcpus|]. split; [exact Hparse|].
  split; [exact Hnf|]. split; [exact Hnd|]. split; [exact Hlive|].
  exact (governor_round_trip ctr "performance" sysCPUDir sysCPUSaveDir governorNode wholeCPUs
           [2; 3] Hne Hcpu Hcpus Hparse Hnf Hnd Hlive).
Defined.

(** CPU 3 does not offer [performance]: CPU 2 has been switched and stays
    switched, CPU 3 is not touched. *)
Lemma governor_unsupported_stops_witness :
  let w1 := (governorLoop "performance" sysCPUDir sysCPUSaveDir [2] partialGovernorNode).2 in
  "performance" <> ""
  /\ linuxCPU (SpecLinux (specOf ctr partialGovernorNode)) = Ret wholeCPUs
  /\ Cpus wholeCPUs <> ""
  /\ CPUSet.Parse (Cpus wholeCPUs) = Ret ([2] ++ 3 :: [])
  /\ governorLoop "performance" sysCPUDir sysCPUSaveDir [2] partialGovernorNode = (Ret (), w1)
  /\ files w1 !! governorFile sysCPUDir 2 = Some "performance"
  /\ files w1 !! governorFile sysCPUDir 3 = Some "performance"
  /\ fault w1 (OpRead (governorFile sysCPUDir 3)) = None
  /\ files w1 !! availableGovernorsFile sysCPUDir 3 = Some "powersave"
  /\ fault w1 (OpRead (availableGovernorsFile sysCPUDir 3)) = None
  /\ ("performance" ∉ GoStrings.Fields "powersave")
  /\ doSetCPUFreqGovernor ctr "performance" sysCPUDir sysCPUSaveDir partialGovernorNode
     = (Fail (ErrMsg ("governor " +:+ "performance" +:+ " not available for cpu "
                      +:+ GoStrings.Itoa 3)), w1).
Proof.
  intros w1.
  assert ("performance" <> "") as Hne by discriminate.
  assert (linuxCPU (SpecLinux (specOf ctr partialGovernorNode)) = Ret wholeCPUs) as Hcpu
    by (vm_compute; reflexivity).
  assert (Cpus wholeCPUs <> "") as Hcpus by discriminate.
  assert (CPUSet.Parse (Cpus wholeCPUs) = Ret ([2] ++ 3 :: [])) as Hparse
    by (vm_compute; reflexivity).
  assert (governorLoop "performance" sysCPUDir sysCPUSaveDir [2] partialGovernorNode
          = (Ret (), w1)) as Hpre by (vm_compute; reflexivity).
  assert (files w1 !! governorFile sysCPUDir 2 = Some "performance") as Hswitched
    by (vm_compute; reflexivity).
  assert (files w1 !! governorFile sysCPUDir 3 = Some "performance") as Horig
    by (vm_compute; reflexivity).
  assert (fault w1 (OpRead (governorFile sysCPUDir 3)) = None) as Hread
    by (vm_compute; reflexivity).
  assert (files w1 !! availableGovernorsFile sysCPUDir 3 = Some "powersave") as Havail
    by (vm_compute; reflexivity).
  assert (fault w1 (OpRead (availableGovernorsFile sysCPUDir 3)) = None) as Hreadavail
    by (vm_compute; reflexivity).
  assert ("performance" ∉ GoStrings.Fields "powersave") as Hnotin
    by (apply (bool_decide_unpack _); vm_compute; exact I).
  split; [exact Hne|]. split; [exact Hcpu|]. split; [exact Hcpus|]. split; [exact Hparse|].
  split; [exact Hpre|]. split; [exact Hswitched|]. split; [exact Horig|].
  split; [exact Hread|]. split; [exact Havail|]. split; [exact Hreadavail|].
  split; [exact Hnotin|].
  exact (governor_unsupported_stops ctr "performance" sysCPUDir sysCPUSaveDir
           partialGovernorNode w1 wholeCPUs [2] [] 3 "performance" "powersave"
           Hne Hcpu Hcpus Hparse Hpre Horig Hread Havail Hreadavail Hnotin).
Defined.

(** Disabling load balancing on the fresh node: CPUs 2-3 become exclusive
    at all three levels and the leaf an isolated partition. *)
Lemma setCPULoadBalancingV2_success_witness :
  let run := setCPULoadBalancingV2 ctr false freshNode in
  let levels := levelPaths (GoStrings.Split "/kubepods/pod1/ctr1" "/") "/sys/fs/cgroup" in
  linuxCPU (SpecLinux (specOf ctr freshNode)) = Ret wholeCPUs
  /\ CPUSet.Parse (Cpus wholeCPUs) = Ret [2; 3]
  /\ cpusetOfContainer ctr freshNode = (Ret "/kubepods/pod1/ctr1", freshNode)
  /\ run = (Ret (), run.2)
  /\ levels = ["/sys/fs/cgroup/kubepods"; "/sys/fs/cgroup/kubepods/pod1";
               "/sys/fs/cgroup/kubepods/pod1/ctr1"]
  /\ (forall dir, dir ∈ levels ->
        exists old new,
          files freshNode !! exclusiveFile dir = Some old
          /\ targetCpus old [2; 3] (negb false) = Ret new
          /\ files run.2 !! exclusiveFile dir = Some new)
  /\ (forall dir, dir ∉ levels ->
        files run.2 !! exclusiveFile dir = files freshNode !! exclusiveFile dir)
  /\ (forall dir, dir ∈ levels ->
        exists old new,
          files freshNode !! cgroupFile dir "cpuset.cpus" = Some old
          /\ targetCpus old [2; 3] true = Ret new
          /\ files run.2 !! cgroupFile dir "cpuset.cpus" = Some new)
  /\ files run.2 !! leafPartition = Some "isolated".
Proof.
  intros run levels.
  assert (linuxCPU (SpecLinux (specOf ctr freshNode)) = Ret wholeCPUs) as Hcpu
    by (vm_compute; reflexivity).
  assert (CPUSet.Parse (Cpus wholeCPUs) = Ret [2; 3]) as Hparse by (vm_compute; reflexivity).
  assert (cpusetOfContainer ctr freshNode = (Ret "/kubepods/pod1/ctr1", freshNode)) as Hpath
    by (vm_compute; reflexivity).
  assert (run = (Ret (), run.2)) as Hrun by (vm_compute; reflexivity).
  assert (levels = ["/sys/fs/cgroup/kubepods"; "/sys/fs/cgroup/kubepods/pod1";
                    "/sys/fs/cgroup/kubepods/pod1/ctr1"]) as Hlevels
    by (vm_compute; reflexivity).
  split; [exact Hcpu|]. split; [exact Hparse|]. split; [exact Hpath|]. split; [exact Hrun|].
  split; [exact Hlevels|].
  destruct (setCPULoadBalancingV2_success ctr false freshNode run.2 wholeCPUs [2; 3]
              "/kubepods/pod1/ctr1" Hcpu Hparse Hpath Hrun) as (HA & HB & HC & HD).
  split; [exact HA|]. split; [exact HB|]. split; [exact HC|]. exact HD.
Defined.

(** Sharing CPUs 0-1 with the container of a pod that disables load
    balancing. *)
Lemma setSharedCPUs_injects_env_witness :
  let run := setSharedCPUs ctr isolatingPod (Some [0; 1]) delegatedNode in
  linuxCPU (SpecLinux (specOf ctr delegatedNode)) = Ret wholeCPUs
  /\ CPUSet.Parse (Cpus wholeCPUs) = Ret [2; 3]
  /\ run = (Ret (), run.2)
  /\ Env <$> SpecProcess (specOf ctr run.2)
     = Some ["PATH=/usr/bin"; "OPENSHIFT_ISOLATED_CPUS=2-3"; "OPENSHIFT_SHARED_CPUS=0-1"]
  /\ exists process,
       SpecProcess (specOf ctr delegatedNode) = Some process
       /\ specOf ctr run.2
          = {| SpecLinux := SpecLinux (specOf ctr delegatedNode);
               SpecProcess :=
                 Some {| Env := Env process
                                ++ [IsolatedCPUsEnvVar +:+ "=" +:+ CPUSet.String [2; 3];
                                    SharedCPUsEnvVar +:+ "=" +:+ CPUSet.String [0; 1]] |} |}.
Proof.
  intros run.
  assert (linuxCPU (SpecLinux (specOf ctr delegatedNode)) = Ret wholeCPUs) as Hcpu
    by (vm_compute; reflexivity).
  assert (CPUSet.Parse (Cpus wholeCPUs) = Ret [2; 3]) as Hparse by (vm_compute; reflexivity).
  assert (run = (Ret (), run.2)) as Hrun by (vm_compute; reflexivity).
  split; [exact Hcpu|]. split; [exact Hparse|]. split; [exact Hrun|].
  split; [vm_compute; reflexivity|].
  exact (setSharedCPUs_injects_env ctr isolatingPod [0; 1] delegatedNode run.2 wholeCPUs [2; 3]
           Hcpu Hparse Hrun).
Defined.

Lemma setSharedCPUs_child_cgroup_witness :
  let run := setSharedCPUs ctr isolatingPod (Some [0; 1]) delegatedNode in
  linuxCPU (SpecLinux (specOf ctr delegatedNode)) = Ret wholeCPUs
  /\ CPUSet.Parse (Cpus wholeCPUs) = Ret [2; 3]
  /\ run = (Ret (), run.2)
  /\ asksToDisable (Annotations isolatingPod) CPULoadBalancingAnnotation
     && cgroupIsV2 delegatedNode = true
  /\ exists pid ch w0,
       ctrPid ctr = Ret pid
       /\ untouched delegatedNode w0
       /\ CgroupBuildHierarchyFrom pid w0 = Ret ch
       /\ let child := childCgroup (GetAbsoluteControllerContainerPath ch "cpuset") in
          if asksToDisable (Annotations isolatingPod) CPULoadBalancingAnnotation
             && cgroupIsV2 delegatedNode
          then pathExists child delegatedNode = false
               /\ pathExists child run.2 = true
               /\ child ∈ dirs run.2
               /\ files run.2 !! cgroupFile child cpusetCpus = Some (CPUSet.String [2; 3])
               /\ files run.2 !! cgroupFile child cpusetExclusive = Some (CPUSet.String [2; 3])
               /\ files run.2 !! cgroupFile child cpusetPartition = Some "isolated"
          else sameNames delegatedNode run.2.
Proof.
  intros run.
  assert (linuxCPU (SpecLinux (specOf ctr delegatedNode)) = Ret wholeCPUs) as Hcpu
    by (vm_compute; reflexivity).
  assert (CPUSet.Parse (Cpus wholeCPUs) = Ret [2; 3]) as Hparse by (vm_compute; reflexivity).
  assert (run = (Ret (), run.2)) as Hrun by (vm_compute; reflexivity).
  split; [exact Hcpu|]. split; [exact Hparse|]. split; [exact Hrun|].
  split; [vm_compute; reflexivity|].
  exact (setSharedCPUs_child_cgroup ctr isolatingPod [0; 1] delegatedNode run.2 wholeCPUs [2; 3]
           Hcpu Hparse Hrun).
Defined.

(** With the child cgroup in place already the call fails, as [os.Mkdir]
    answers EEXIST, and the directory that was there keeps its content. *)
Example setSharedCPUs_on_existing_child :
  let child := "/sys/fs/cgroup/kubepods/pod1/ctr1/cgroup-child" in
  let run := setSharedCPUs ctr isolatingPod (Some [0; 1]) occupiedNode in
  pathExists child occupiedNode = true
  /\ run.1 = Fail (ErrExist child)
  /\ files run.2 !! cgroupFile child cpusetCpus = Some "2-3"
  /\ dirs run.2 = ∅.
Proof.
  intros child run. split; [vm_compute; reflexivity|].
  split; [vm_compute; reflexivity|]. split; vm_compute; reflexivity.
Qed.

(** With the path-based manager: first the pod's cgroup, then the
    container's. *)
Lemma setCPUQuota_pod_then_container_witness :
  let run := setCPUQuota "/kubepods/pod1" ctr freshNode in
  run = (Ret (), run.2)
  /\ events run.2 = [OpCgroupSet "crio-ctr1" "/kubepods/pod1" false (-1);
                     OpCgroupSet "pod1" "/kubepods" false (-1)]
  /\ exists mgr cgroupPath,
       SetCgroupManager "cgroupfs" = Ret mgr
       /\ ContainerCgroupAbsolutePath mgr "/kubepods/pod1" (ctrID ctr) = Ret cgroupPath.
Proof.
  intros run.
  assert (run = (Ret (), run.2)) as Hrun by (vm_compute; reflexivity).
  split; [exact Hrun|]. split; [vm_compute; reflexivity|].
  destruct (proj2 (setCPUQuota_pod_then_container "/kubepods/pod1" ctr freshNode) run.2 Hrun)
    as (mgr & cgroupPath & _ & _ & _ & Hmgr & Hpath & _).
  exists mgr, cgroupPath. split; [exact Hmgr|exact Hpath].
Defined.


(** *** The C-state directive and the unchecked period *)

(** A pod that disables the C-states: both CPUs of the container end up
    with the resume latency [n/a], and what they had is saved.  A pod with
    an unknown value: the hook fails, and nothing has been attempted. *)
Lemma cstates_directive_witness :
  let w1 := (configureCgroups hooks ctr cstatesDisabled (addLog startLine freshNode)).2 in
  let w2 := addLog ("Configure c-states for container " +:+ ctrID ctr +:+ " to "
                    +:+ annotationDisable) w1 in
  let knobs := (latencyFile sysCPUDir <$> [2; 3])
               ++ (latencySaveFile sysCPUSaveDir <$> [2; 3]) in
  let started := PreStart hooks ctr cstatesDisabled freshNode in
  Annotations cstatesDisabled !! CPUCStatesAnnotation = Some annotationDisable
  /\ isCgroupParentBurstable cstatesDisabled = false
  /\ isCgroupParentBestEffort cstatesDisabled = false
  /\ isContainerRequestWholeCPU (specOf ctr freshNode) = Ret true
  /\ configureCgroups hooks ctr cstatesDisabled (addLog startLine freshNode) = (Ret (), w1)
  /\ linuxCPU (SpecLinux (specOf ctr w1)) = Ret wholeCPUs
  /\ Cpus wholeCPUs <> ""
  /\ CPUSet.Parse (Cpus wholeCPUs) = Ret [2; 3]
  /\ noFaults w1
  /\ NoDup knobs
  /\ (forall cpu, cpu ∈ [2; 3] -> is_Some (files w1 !! latencyFile sysCPUDir cpu))
  /\ (exists w3,
        setCPUPMQOSResumeLatency ctr "n/a" w2 = (Ret (), w3)
        /\ started = configureFreqGovernor ctr cstatesDisabled w3
        /\ (forall cpu, cpu ∈ [2; 3] ->
              files w3 !! latencyFile sysCPUDir cpu = Some "n/a"
              /\ files w3 !! latencySaveFile sysCPUSaveDir cpu
                 = files w1 !! latencyFile sysCPUDir cpu)
        /\ (forall path, path ∉ knobs -> files w3 !! path = files w1 !! path))
  /\ started.1 = Ret ()
  /\ files freshNode !! latencyFile sysCPUDir 2 = Some "0"
  /\ files started.2 !! latencyFile sysCPUDir 2 = Some "n/a"
  /\ files started.2 !! latencySaveFile sysCPUSaveDir 2 = Some "0"
  /\ files started.2 !! latencyFile sysCPUDir 3 = Some "n/a"
  /\ Annotations bogusCStates !! CPUCStatesAnnotation = Some "bogus"
  /\ configureCgroups hooks ctr bogusCStates (addLog startLine freshNode)
     = (Ret (), cgroupsConfigured.2)
  /\ "bogus" <> annotationEnable
  /\ "bogus" <> annotationDisable
  /\ PreStart hooks ctr bogusCStates freshNode
     = (Fail (ErrMsg ("invalid annotation value " +:+ "bogus")),
        addLog ("Configure c-states for container " +:+ ctrID ctr +:+ " to " +:+ "bogus")
          cgroupsConfigured.2)
  /\ events cgroupsConfigured.2 = [].
Proof.
  intros w1 w2 knobs started.
  assert (Annotations cstatesDisabled !! CPUCStatesAnnotation = Some annotationDisable)
    as Hann by (vm_compute; reflexivity).
  assert (isCgroupParentBurstable cstatesDisabled = false) as Hb by (vm_compute; reflexivity).
  assert (isCgroupParentBestEffort cstatesDisabled = false) as He
    by (vm_compute; reflexivity).
  assert (isContainerRequestWholeCPU (specOf ctr freshNode) = Ret true) as Hwhole
    by (vm_compute; reflexivity).
  assert (configureCgroups hooks ctr cstatesDisabled (addLog startLine freshNode)
          = (Ret (), w1)) as Hcg by (vm_compute; reflexivity).
  assert (linuxCPU (SpecLinux (specOf ctr w1)) = Ret wholeCPUs) as Hcpu
    by (vm_compute; reflexivity).
  assert (Cpus wholeCPUs <> "") as Hcpus by discriminate.
  assert (CPUSet.Parse (Cpus wholeCPUs) = Ret [2; 3]) as Hparse by (vm_compute; reflexivity).
  assert (noFaults w1) as Hnf by (intros op; vm_compute; reflexivity).
  assert (NoDup knobs) as Hnd by (apply (bool_decide_unpack _); vm_compute; exact I).
  assert (forall cpu, cpu ∈ [2; 3] -> is_Some (files w1 !! latencyFile sysCPUDir cpu))
    as Hlive.
  { intros cpu Hin.
    apply elem_of_cons in Hin as [->|Hin]; [vm_compute; eexists; reflexivity|].
    apply elem_of_cons in Hin as [->|Hin]; [vm_compute; eexists; reflexivity|].
    destruct (proj1 (elem_of_nil cpu) Hin). }
  assert (Annotations bogusCStates !! CPUCStatesAnnotation = Some "bogus") as Hann'
    by (vm_compute; reflexivity).
  assert (configureCgroups hooks ctr bogusCStates (addLog startLine freshNode)
          = (Ret (), cgroupsConfigured.2)) as Hcg' by (vm_compute; reflexivity).
  assert ("bogus" <> annotationEnable) as Hne1 by discriminate.
  assert ("bogus" <> annotationDisable) as Hne2 by discriminate.
  split; [exact Hann|]. split; [exact Hb|]. split; [exact He|]. split; [exact Hwhole|].
  split; [exact Hcg|]. split; [exact Hcpu|]. split; [exact Hcpus|]. split; [exact Hparse|].
  split; [exact Hnf|]. split; [exact Hnd|]. split; [exact Hlive|].
  split.
  { exact (proj2 (proj2 (proj1 (proj2 (cstates_directive hooks ctr cstatesDisabled freshNode
                                         w1 annotationDisable Hann Hb He Hwhole Hcg))
                           eq_refl))
             wholeCPUs [2; 3] Hcpu Hcpus Hparse Hnf Hnd Hlive). }
  split; [vm_compute; reflexivity|]. split; [vm_compute; reflexivity|].
  split; [vm_compute; reflexivity|]. split; [vm_compute; reflexivity|].
  split; [vm_compute; reflexivity|].
  split; [exact Hann'|]. split; [exact Hcg'|]. split; [exact Hne1|]. split; [exact Hne2|].
  split; [|vm_compute; reflexivity].
  exact (proj1 (proj2 (proj2 (cstates_directive hooks ctr bogusCStates freshNode
                                cgroupsConfigured.2 "bogus" Hann' Hb He Hwhole Hcg'))
                  Hne1 Hne2)).
Defined.

(** C10 does not hold for every non-empty CPU list.  One that does not
    parse makes [setSharedCPUs] return the parse error before [Period] is
    looked at: with a nil [Period] the call returns an error and does not
    panic. *)
Lemma nil_period_unparsable_cpus_is_an_error :
  linuxCPU (SpecLinux (specOf ctr unparsableNode)) = Ret unparsableCPUs
  /\ Cpus unparsableCPUs <> ""
  /\ Period unparsableCPUs = None
  /\ (setSharedCPUs ctr (pod ∅) (Some [0; 1]) unparsableNode).1
     = Fail (ErrMsg ("strconv.Atoi: parsing " +:+ "abc" +:+ ": invalid syntax"))
  /\ (forall reason,
        (setSharedCPUs ctr (pod ∅) (Some [0; 1]) unparsableNode).1 <> Panic reason)
  /\ events (setSharedCPUs ctr (pod ∅) (Some [0; 1]) unparsableNode).2 = [].
Proof.
  split; [vm_compute; reflexivity|]. split; [discriminate|]. split; [reflexivity|].
  split; [vm_compute; reflexivity|]. split; [|vm_compute; reflexivity].
  intros reason. vm_compute. discriminate.
Qed.

Lemma setSharedCPUs_nil_period_panics_witness :
  linuxCPU (SpecLinux (specOf ctr noPeriodNode)) = Ret noPeriod
  /\ Cpus noPeriod <> ""
  /\ CPUSet.Parse (Cpus noPeriod) = Ret [2; 3]
  /\ Period noPeriod = None
  /\ (exists w', setSharedCPUs ctr (pod ∅) (Some [0; 1]) noPeriodNode = (Panic nilDeref, w')
                 /\ untouched noPeriodNode w')
  /\ missingCPUs (SpecLinux (specOf ctr noSpecNode)) = true
  /\ setSharedCPUs ctr (pod ∅) (Some [0; 1]) noSpecNode
     = (Fail (ErrMsg ("no cpus found for container " +:+ ctrName ctr)), noSpecNode)
  /\ linuxCPU (SpecLinux (specOf ctr unparsableNode)) = Ret unparsableCPUs
  /\ Cpus unparsableCPUs <> ""
  /\ CPUSet.Parse (Cpus unparsableCPUs)
     = Fail (ErrMsg ("strconv.Atoi: parsing " +:+ "abc" +:+ ": invalid syntax"))
  /\ (exists w',
        setSharedCPUs ctr (pod ∅) (Some [0; 1]) unparsableNode
        = (Fail (ErrMsg ("strconv.Atoi: parsing " +:+ "abc" +:+ ": invalid syntax")), w')
        /\ untouched unparsableNode w').
Proof.
  assert (linuxCPU (SpecLinux (specOf ctr noPeriodNode)) = Ret noPeriod) as Hcpu
    by (vm_compute; reflexivity).
  assert (Cpus noPeriod <> "") as Hne by discriminate.
  assert (CPUSet.Parse (Cpus noPeriod) = Ret [2; 3]) as Hparse by (vm_compute; reflexivity).
  assert (missingCPUs (SpecLinux (specOf ctr noSpecNode)) = true) as Hmiss
    by (vm_compute; reflexivity).
  assert (linuxCPU (SpecLinux (specOf ctr unparsableNode)) = Ret unparsableCPUs) as Hcpu'
    by (vm_compute; reflexivity).
  assert (Cpus unparsableCPUs <> "") as Hne' by discriminate.
  assert (CPUSet.Parse (Cpus unparsableCPUs)
          = Fail (ErrMsg ("strconv.Atoi: parsing " +:+ "abc" +:+ ": invalid syntax")))
    as Hparse' by (vm_compute; reflexivity).
  split; [exact Hcpu|]. split; [exact Hne|]. split; [exact Hparse|].
  split; [reflexivity|]. split; [|split; [exact Hmiss|split]].
  - exact (proj2 (proj2 (setSharedCPUs_nil_period_panics ctr (pod ∅) (Some [0; 1])
                           noPeriodNode))
             noPeriod [2; 3] Hcpu Hne Hparse eq_refl).
  - exact (proj1 (setSharedCPUs_nil_period_panics ctr (pod ∅) (Some [0; 1]) noSpecNode)
             Hmiss).
  - split; [exact Hcpu'|]. split; [exact Hne'|]. split; [exact Hparse'|].
    exact (proj1 (proj2 (setSharedCPUs_nil_period_panics ctr (pod ∅) (Some [0; 1])
                           unparsableNode))
             unparsableCPUs _ Hcpu' Hne' Hparse').
Defined.
